(** * Streak and analytics engine of the habit-accountability backend

    A shallow embedding of the date arithmetic and aggregation code of
    [src/routes/checkins.ts], [src/routes/analytics.ts] and the AI route
    ([POST /weekly-insight]), followed by the properties of the streak
    calculator, the windowed aggregator, the calendar projector and the
    insight fact builder.  The routes that write the [partnerships] and
    [habits] tables and the week shown in the insight prompt
    ([services/geminiService]) are embedded the same way, with the
    invariants their guards keep.

    Conventions of the embedding.
    - A JavaScript [Date] is its time value, an integer number of
      milliseconds since 1970-01-01T00:00:00Z.  The server's local time zone
      is UTC (the system uses naive UTC calendar dates throughout), so local
      and UTC fields of a [Date] agree.
    - The ['YYYY-MM-DD'] strings held in the [date] column and produced by
      [toISOString().split('T')[0]] are represented by their day number
      (days since 1970-01-01); string equality and the store's ordering of
      the column are equality and order of day numbers.
    - Counters and time values are integers ([Z]).  The percentages
      ([Math.round((c / t) * 100)] and the like) are computed as the code
      computes them, in IEEE 754 binary64 with each quotient and product
      rounded to nearest; a number rounded to two decimals,
      [Math.round(x * 100) / 100], is the rational [n / 100] of the integer
      [n] so computed.  The ratios compared by the best-day selections and
      the average check-in time are rationals ([Q]).
    - A string is the list of the bytes of its UTF-8 encoding; [s.length]
      counts UTF-16 code units.
    - [new Date(year, month, day)] is an Invalid Date beyond the range of
      time values, and [toISOString] then throws; day numbers stand for the
      date strings of the years 0 to 9999, which are written with four
      digits.
    - A table is the list of its rows; [.single()] yields a row only when
      exactly one row matches.
    - The primary key of a row inserted in [partnerships] or [habits] is
      chosen by the store; the routes take it as an argument. *)

From Stdlib Require Import ZArith List Bool Lia String Ascii.
From Stdlib Require Import QArith Qround Lqa Permutation Sorted DecimalString FinFun.
From Stdlib Require Import SpecFloat.
Import ListNotations.
Local Open Scope string_scope.
Local Open Scope Z_scope.

(* ------------------------------------------------------------------ *)
(** ** JavaScript numbers, strings and objects *)

Module Js.

(** [Math.round]: nearest integer, halves towards +infinity. *)
Definition Math_round (x : Q) : Z := Qfloor (x + (1 # 2))%Q.

(** A number is an IEEE 754 binary64 value; [/] and [*] round to nearest,
    ties to even. *)
Definition Number : Type := spec_float.

(** The number an integer literal or an integer counter stands for. *)
Definition num (z : Z) : Number := binary_normalize 53 1024 z 0 false.

(** [a / b] and [a * b]. *)
Definition div (a b : Number) : Number := SFdiv 53 1024 a b.
Definition mul (a b : Number) : Number := SFmul 53 1024 a b.

(** The rational a finite number stands for. *)
Definition valueOf (x : Number) : Q :=
  match x with
  | S754_finite s m e =>
      (inject_Z (if s then Z.neg m else Z.pos m) * Qpower 2 e)%Q
  | _ => 0%Q
  end.

(** [Math.round(x)] for a finite [x]. *)
Definition roundNumber (x : Number) : Z := Math_round (valueOf x).

Definition Math_floor (x : Q) : Z := Qfloor x.

(** [a > b] on numbers. *)
Definition gtb (a b : Q) : bool := negb (Qle_bool a b).

(** [a < b] on numbers. *)
Definition ltb (a b : Q) : bool := negb (Qle_bool b a).

(** [x % 60] for a non-negative [x]. *)
Definition rem60 (x : Q) : Q := (x - inject_Z (60 * Qfloor (x / 60)))%Q.

(** [n.toString()] of an integer. *)
Definition toString (n : Z) : string := NilZero.string_of_int (Z.to_int n).

Fixpoint repeat_string (n : nat) (c : string) : string :=
  match n with
  | O => EmptyString
  | S k => String.append c (repeat_string k c)
  end.

(** [s.length], the number of UTF-16 code units of [s].  A string is held
    as the bytes of its UTF-8 encoding: a byte that starts a sequence of one
    to three bytes stands for one code unit, a byte that starts a sequence
    of four bytes for two (a surrogate pair), and a continuation byte for
    none. *)
Definition unitsOf (c : ascii) : nat :=
  let b := nat_of_ascii c in
  if Nat.ltb b 128 then 1%nat
  else if Nat.ltb b 192 then 0%nat
  else if Nat.ltb b 240 then 1%nat
  else 2%nat.

Fixpoint length (s : string) : nat :=
  match s with
  | EmptyString => 0%nat
  | String c rest => (unitsOf c + length rest)%nat
  end.

(** [s.padStart(n, '0')]. *)
Definition padStart0 (n : nat) (s : string) : string :=
  String.append (repeat_string (n - String.length s) "0") s.

(** An object with string-like keys, as the list of its entries in
    insertion order ([Object.entries]). *)
Section Obj.
Context {K V : Type}.
Variable eqb : K -> K -> bool.

Fixpoint get (o : list (K * V)) (k : K) : option V :=
  match o with
  | [] => None
  | (k', v) :: rest => if eqb k' k then Some v else get rest k
  end.

(** [o[k] = v]: replaces in place, or appends a new property. *)
Fixpoint set (o : list (K * V)) (k : K) (v : V) : list (K * V) :=
  match o with
  | [] => [(k, v)]
  | (k', v') :: rest =>
      if eqb k' k then (k', v) :: rest else (k', v') :: set rest k v
  end.

(** [o[k].field++] and the like: the value under an existing key is
    changed in place. *)
Fixpoint update (o : list (K * V)) (k : K) (f : V -> V) : list (K * V) :=
  match o with
  | [] => []
  | (k', v) :: rest =>
      if eqb k' k then (k', f v) :: rest else (k', v) :: update rest k f
  end.
End Obj.

End Js.

(* ------------------------------------------------------------------ *)
(** ** Dates *)

Module JsDate.

(** Time values and day numbers are integers. *)
Abbreviation Date := Z (only parsing).
Abbreviation IsoDate := Z (only parsing).

Definition msPerDay : Z := 1000 * 60 * 60 * 24.

(** [t.toISOString().split('T')[0]]. *)
Definition toISODate (t : Date) : IsoDate := t / msPerDay.

(** [new Date('YYYY-MM-DD')]: midnight UTC of that day. *)
Definition parseDate (d : IsoDate) : Date := d * msPerDay.

Definition getTime (t : Date) : Z := t.

(** [t.getDay()]: 0 is Sunday, ..., 6 is Saturday; day 0 was a Thursday. *)
Definition getDay (t : Date) : Z := (t / msPerDay + 4) mod 7.

(** [t.setDate(t.getDate() + k)]. *)
Definition addDays (t : Date) (k : Z) : Date := t + k * msPerDay.

(** [t.setHours(0, 0, 0, 0)]. *)
Definition setHours0 (t : Date) : Date := (t / msPerDay) * msPerDay.

(** Day number of January 1st of year [y]. *)
Definition dayFromYear (y : Z) : Z :=
  365 * (y - 1970) + (y - 1969) / 4 - (y - 1901) / 100 + (y - 1601) / 400.

Definition isLeap (y : Z) : bool :=
  (y mod 4 =? 0) && (negb (y mod 100 =? 0) || (y mod 400 =? 0)).

Definition monthOffsets : list Z :=
  [0; 31; 59; 90; 120; 151; 181; 212; 243; 273; 304; 334].

Definition monthStart (leap : bool) (mn : Z) : Z :=
  nth (Z.to_nat mn) monthOffsets 0 + (if leap && (2 <=? mn) then 1 else 0).

(** MakeDay(year, month, date): months outside 0..11 carry into the year,
    days outside the month carry into the neighbouring months. *)
Definition makeDay (year month day : Z) : Z :=
  let ym := year + month / 12 in
  let mn := month mod 12 in
  dayFromYear ym + monthStart (isLeap ym) mn + day - 1.

(** The year meant by the first argument of [new Date(year, monthIndex,
    day)]: 0..99 stand for 1900..1999. *)
Definition fullYear (year : Z) : Z :=
  if (0 <=? year) && (year <=? 99) then 1900 + year else year.

(** MakeDate(MakeDay(year, monthIndex, day), 0) for the year meant: local
    midnight of that day, before the time value is clipped. *)
Definition makeDate (year monthIndex day : Z) : Z :=
  makeDay (fullYear year) monthIndex day * msPerDay.

(** The largest time value of a [Date], 8.64e15 milliseconds. *)
Definition maxTime : Z := 8640000000000000.

(** TimeClip: a time value out of range makes an Invalid Date ([None]). *)
Definition timeClip (t : Z) : option Date :=
  if Z.abs t <=? maxTime then Some t else None.

(** [new Date(year, monthIndex, day)]; [None] is an Invalid Date, on
    which [toISOString] throws a [RangeError]. *)
Definition newDate (year monthIndex day : Z) : option Date :=
  timeClip (makeDate year monthIndex day).

(** Day of the month (1..31) of a day number. *)
Definition dateFromDay (d : Z) : Z :=
  let z := d + 719468 in
  let doe := z mod 146097 in
  let yoe := (doe - doe / 1460 + doe / 36524 - doe / 146096) / 365 in
  let doy := doe - (365 * yoe + yoe / 4 - yoe / 100) in
  let mp := (5 * doy + 2) / 153 in
  doy - (153 * mp + 2) / 5 + 1.

(** [t.getDate()]. *)
Definition getDate (t : Date) : Z := dateFromDay (t / msPerDay).

End JsDate.

Import JsDate.

(* ------------------------------------------------------------------ *)
(** ** The store *)

Module Db.

(** A [check_in_time] value ['HH:MM:SS']. *)
Record TimeOfDay := mkTime { hours : Z; minutes : Z; seconds : Z }.

Record CheckIn := mkCheckIn {
  id : nat;
  habit_id : string;
  user_id : string;
  date : IsoDate;
  completed : bool;
  check_in_time : option TimeOfDay;
  notes : option string
}.

Record Habit := mkHabit {
  h_id : string;
  h_user_id : string;
  habit_name : string;
  start_date : IsoDate
}.

(** [.single()]: the row, when the query matched exactly one. *)
Definition single {A : Type} (rows : list A) : option A :=
  match rows with
  | [r] => Some r
  | _ => None
  end.

(** [.order('date', { ascending: true })]. *)
Fixpoint insert_by_date (r : CheckIn) (rows : list CheckIn) : list CheckIn :=
  match rows with
  | [] => [r]
  | r' :: rest =>
      if date r <=? date r' then r :: r' :: rest
      else r' :: insert_by_date r rest
  end.

Fixpoint order_by_date (rows : list CheckIn) : list CheckIn :=
  match rows with
  | [] => []
  | r :: rest => insert_by_date r (order_by_date rest)
  end.

(** A fresh primary key for an inserted row. *)
Definition fresh_id (table : list CheckIn) : nat :=
  S (list_max (map id table)).

(** [new Date().toTimeString().split(' ')[0]]. *)
Definition timeOfDay (t : Date) : TimeOfDay :=
  let ms := t mod msPerDay in
  {| hours := ms / 3600000;
     minutes := (ms / 60000) mod 60;
     seconds := (ms / 1000) mod 60 |}.

End Db.

Import Db.

(* ------------------------------------------------------------------ *)
(** ** routes/checkins.ts *)

Module Checkins.

Record Body := mkBody {
  b_habit_id : option string;
  b_completed : option bool;
  b_notes : option string
}.

Inductive Response :=
| Json (row : CheckIn)
| Status (code : Z) (error : string).

(** [notes || null]. *)
Definition notes_or_null (n : option string) : option string :=
  match n with
  | Some EmptyString => None
  | other => other
  end.

(** [POST /]: create today's check-in or update the one already there.
    Returns the [check_ins] table after the request and the response.
    The encouragement text fetched after an insert does not touch the
    table and is left out. *)
Definition postCheckIn (habits : list Habit) (check_ins : list CheckIn)
    (user : string) (body : Body) (now : Date)
    : list CheckIn * Response :=
  match b_habit_id body, b_completed body with
  | Some habitId, Some done =>
      if String.eqb habitId EmptyString
      then (check_ins, Status 400 "Habit ID and completed status are required")
      else
      match single (filter (fun h => String.eqb (h_id h) habitId
                                     && String.eqb (h_user_id h) user) habits) with
      | None => (check_ins, Status 404 "Habit not found")
      | Some _ =>
          let today := toISODate now in
          let checkInTime := timeOfDay now in
          let existingCheckIn :=
            single (filter (fun c => String.eqb (habit_id c) habitId
                                     && (date c =? today)) check_ins) in
          match existingCheckIn with
          | Some existing =>
              let upd c :=
                if Nat.eqb (id c) (id existing)
                then {| id := id c; habit_id := habit_id c;
                        user_id := user_id c; date := date c;
                        completed := done;
                        check_in_time := Some checkInTime;
                        notes := notes_or_null (b_notes body) |}
                else c in
              let table := map upd check_ins in
              match single (filter (fun c => Nat.eqb (id c) (id existing)) table) with
              | Some data => (table, Json data)
              | None => (table, Status 500 "Failed to create check-in")
              end
          | None =>
              let data :=
                {| id := fresh_id check_ins; habit_id := habitId;
                   user_id := user; date := today; completed := done;
                   check_in_time := Some checkInTime;
                   notes := notes_or_null (b_notes body) |} in
              ((check_ins ++ [data])%list, Json data)
          end
      end
  | _, _ => (check_ins, Status 400 "Habit ID and completed status are required")
  end.

(** [calculateStreak]: one point query per day, walking back from today.
    The loop of the source has no bound; [fuel] bounds the number of
    iterations and [None] means the bound was reached. *)
Fixpoint calculateStreak_loop (fuel : nat) (check_ins : list CheckIn)
    (habitId : string) (currentDate : Date) (streak : Z) : option Z :=
  match fuel with
  | O => None
  | S fuel' =>
      let dateStr := toISODate currentDate in
      let data :=
        single (filter (fun c => String.eqb (habit_id c) habitId
                                 && (date c =? dateStr)
                                 && Bool.eqb (completed c) true) check_ins) in
      match data with
      | None => Some streak
      | Some _ =>
          calculateStreak_loop fuel' check_ins habitId
            (addDays currentDate (-1)) (streak + 1)
      end
  end.

Definition calculateStreak (fuel : nat) (check_ins : list CheckIn)
    (habitId : string) (now : Date) : option Z :=
  calculateStreak_loop fuel check_ins habitId (setHours0 now) 0.

(** [getLastSevenDays]: oldest day first. *)
Definition getLastSevenDays (check_ins : list CheckIn) (habitId : string)
    (today : Date) : list bool :=
  map (fun i =>
         let dateStr := toISODate (addDays today (- i)) in
         match single (filter (fun c => String.eqb (habit_id c) habitId
                                        && (date c =? dateStr)) check_ins) with
         | Some data => completed data
         | None => false
         end)
      [6; 5; 4; 3; 2; 1; 0].

(** State of the longest-streak scan of [GET /:habitId/streak]. *)
Record Scan := mkScan {
  longestStreak : Z;
  currentCount : Z;
  lastDate : option Date
}.

Definition scanStep (st : Scan) (checkIn : CheckIn) : Scan :=
  let checkInDate := parseDate (date checkIn) in
  match lastDate st with
  | Some last =>
      let daysDiff := (getTime checkInDate - getTime last) / (1000 * 60 * 60 * 24) in
      if daysDiff =? 1
      then {| longestStreak := longestStreak st;
              currentCount := currentCount st + 1;
              lastDate := Some checkInDate |}
      else {| longestStreak := Z.max (longestStreak st) (currentCount st);
              currentCount := 1;
              lastDate := Some checkInDate |}
  | None =>
      {| longestStreak := longestStreak st;
         currentCount := 1;
         lastDate := Some checkInDate |}
  end.

Definition scanLongest (allCheckIns : list CheckIn) : Z :=
  let st := fold_left scanStep allCheckIns
              {| longestStreak := 0; currentCount := 0; lastDate := None |} in
  Z.max (longestStreak st) (currentCount st).

Record StreakInfo := mkStreakInfo {
  current_streak : Z;
  longest_streak : Z;
  total_checkins : Z;
  last_seven_days : list bool
}.

(** The completed check-ins of a habit, oldest first. *)
Definition completedCheckIns (check_ins : list CheckIn) (habitId : string)
    : list CheckIn :=
  order_by_date
    (filter (fun c => String.eqb (habit_id c) habitId
                      && Bool.eqb (completed c) true) check_ins).

(** [GET /:habitId/streak], once the habit is known to belong to the
    caller. *)
Definition getStreak (fuel : nat) (check_ins : list CheckIn)
    (habitId : string) (now : Date) : option StreakInfo :=
  match calculateStreak fuel check_ins habitId now with
  | None => None
  | Some streak =>
      let lastSevenDays := getLastSevenDays check_ins habitId now in
      let allCheckIns := completedCheckIns check_ins habitId in
      let count :=
        Z.of_nat (List.length
          (filter (fun c => String.eqb (habit_id c) habitId
                            && Bool.eqb (completed c) true) check_ins)) in
      Some {| current_streak := streak;
              longest_streak := scanLongest allCheckIns;
              total_checkins := count;
              last_seven_days := lastSevenDays |}
  end.

End Checkins.

(* ------------------------------------------------------------------ *)
(** ** routes/analytics.ts *)

Module Analytics.

Definition dayNames : list string :=
  ["Monday"; "Tuesday"; "Wednesday"; "Thursday"; "Friday"; "Saturday"; "Sunday"].

(** [dayNames[date.getDay()]]. *)
Definition dayNameOf (d : Date) : string :=
  nth (Z.to_nat (getDay d)) dayNames "undefined".

(** *** GET /overview *)

Fixpoint currentStreak_loop (fuel : nat) (checkIns : list CheckIn)
    (checkDate : Date) (currentStreak : Z) : option Z :=
  match fuel with
  | O => None
  | S fuel' =>
      let dateStr := toISODate checkDate in
      match find (fun c => (date c =? dateStr) && completed c) checkIns with
      | None => Some currentStreak
      | Some _ =>
          currentStreak_loop fuel' checkIns (addDays checkDate (-1))
            (currentStreak + 1)
      end
  end.

(** One step of the longest-streak loop over all check-ins; the state is
    [(longestStreak, tempStreak)]. *)
Definition longestStep (st : Z * Z) (checkIn : CheckIn) : Z * Z :=
  let (longestStreak, tempStreak) := st in
  if completed checkIn
  then (Z.max longestStreak (tempStreak + 1), tempStreak + 1)
  else (longestStreak, 0).

Definition longestStreakOf (checkIns : list CheckIn) : Z :=
  fst (fold_left longestStep checkIns (0, 0)).

Record Overview := mkOverview {
  current_streak : Z;
  longest_streak : Z;
  total_checkins : Z;
  success_rate : Q;
  days_since_started : Z
}.

(** All check-ins of a habit, oldest first. *)
Definition allCheckIns (check_ins : list CheckIn) (habitId : string)
    : list CheckIn :=
  order_by_date (filter (fun c => String.eqb (habit_id c) habitId) check_ins).

(** [GET /overview] for a habit found to belong to the caller. *)
Definition overview (fuel : nat) (habit : Habit) (check_ins : list CheckIn)
    (now : Date) : option Overview :=
  let checkIns := allCheckIns check_ins (h_id habit) in
  let totalCheckIns := Z.of_nat (List.length (filter completed checkIns)) in
  let totalDays := Z.of_nat (List.length checkIns) in
  let successRate : Js.Number :=
    if totalDays >? 0
    then Js.mul (Js.div (Js.num totalCheckIns) (Js.num totalDays)) (Js.num 100)
    else Js.num 0 in
  let today := toISODate now in
  match currentStreak_loop fuel checkIns (parseDate today) 0 with
  | None => None
  | Some currentStreak =>
      let startDate := parseDate (start_date habit) in
      Some {| current_streak := currentStreak;
              longest_streak := longestStreakOf checkIns;
              total_checkins := totalCheckIns;
              success_rate :=
                (inject_Z (Js.roundNumber (Js.mul successRate (Js.num 100)))
                 / 100)%Q;
              days_since_started :=
                (getTime now - getTime startDate) / (1000 * 60 * 60 * 24) |}
  end.

(** *** GET /weekly *)

Record DayStat := mkDayStat { st_completed : Z; st_total : Z }.

Record WeeklyAcc := mkWeeklyAcc {
  dayStats : list (string * DayStat);
  totalCheckInTimes : Z;
  checkInTimeSum : Z
}.

Definition weeklyStep (acc : WeeklyAcc) (checkIn : CheckIn) : WeeklyAcc :=
  let d := parseDate (date checkIn) in
  let dayName := dayNameOf d in
  let stats1 :=
    Js.update String.eqb (dayStats acc) dayName
      (fun s => {| st_completed := st_completed s; st_total := st_total s + 1 |}) in
  if completed checkIn then
    let stats2 :=
      Js.update String.eqb stats1 dayName
        (fun s => {| st_completed := st_completed s + 1; st_total := st_total s |}) in
    match check_in_time checkIn with
    | Some t =>
        {| dayStats := stats2;
           totalCheckInTimes := totalCheckInTimes acc + 1;
           checkInTimeSum := checkInTimeSum acc + (hours t * 60 + minutes t) |}
    | None =>
        {| dayStats := stats2;
           totalCheckInTimes := totalCheckInTimes acc;
           checkInTimeSum := checkInTimeSum acc |}
    end
  else
    {| dayStats := stats1;
       totalCheckInTimes := totalCheckInTimes acc;
       checkInTimeSum := checkInTimeSum acc |}.

Definition ratioOf (s : DayStat) : Q :=
  if st_total s >? 0
  then (inject_Z (st_completed s) / inject_Z (st_total s))%Q else 0%Q.

(** One step of the best-day loop; the state is [(bestDay, bestRatio)]. *)
Definition bestStep (st : string * Q) (entry : string * DayStat) : string * Q :=
  let (bestDay, bestRatio) := st in
  let (day, stats) := entry in
  let ratio := ratioOf stats in
  if Js.gtb ratio bestRatio then (day, ratio) else (bestDay, bestRatio).

Definition bestDayOf (stats : list (string * DayStat)) : string :=
  fst (fold_left bestStep stats ("Monday", 0%Q)).

Definition avgTimeOf (totalCheckInTimes checkInTimeSum : Z) : option string :=
  let avgMinutes : Q :=
    if totalCheckInTimes >? 0
    then (inject_Z checkInTimeSum / inject_Z totalCheckInTimes)%Q else 0%Q in
  let avgHours := Js.Math_floor (avgMinutes / 60) in
  let avgMins := Js.Math_round (Js.rem60 avgMinutes) in
  if Js.gtb avgMinutes 0
  then Some (String.append (Js.toString avgHours)
               (String.append ":" (Js.padStart0 2 (Js.toString avgMins))))
  else None.

Definition consistencyScoreOf (checkIns : list CheckIn) : Z :=
  let totalDays := Z.of_nat (List.length checkIns) in
  let completedDays := Z.of_nat (List.length (filter completed checkIns)) in
  if totalDays >? 0
  then Js.roundNumber
         (Js.mul (Js.div (Js.num completedDays) (Js.num totalDays)) (Js.num 100))
  else 0.

Record Weekly := mkWeekly {
  day_stats : list (string * DayStat);
  best_day : string;
  average_checkin_time : option string;
  consistency_score : Z
}.

(** The check-ins of the last seven days, oldest first. *)
Definition weekCheckIns (check_ins : list CheckIn) (habitId : string)
    (today : Date) : list CheckIn :=
  let weekStart := addDays today (-6) in
  order_by_date
    (filter (fun c => String.eqb (habit_id c) habitId
                      && (toISODate weekStart <=? date c)
                      && (date c <=? toISODate today)) check_ins).

(** The aggregation of [GET /weekly] over the rows the query returned. *)
Definition weeklyOf (checkIns : list CheckIn) : Weekly :=
  let init :=
    {| dayStats :=
         fold_left (fun o day => Js.set String.eqb o day
                                   {| st_completed := 0; st_total := 0 |})
                   dayNames [];
       totalCheckInTimes := 0;
       checkInTimeSum := 0 |} in
  let acc := fold_left weeklyStep checkIns init in
  {| day_stats := dayStats acc;
     best_day := bestDayOf (dayStats acc);
     average_checkin_time :=
       avgTimeOf (totalCheckInTimes acc) (checkInTimeSum acc);
     consistency_score := consistencyScoreOf checkIns |}.

Definition weekly (check_ins : list CheckIn) (habitId : string)
    (today : Date) : Weekly :=
  weeklyOf (weekCheckIns check_ins habitId today).

(** *** GET /monthly/:year/:month *)

Inductive Status := Completed | Missed | Future.

Definition Status_eqb (a b : Status) : bool :=
  match a, b with
  | Completed, Completed | Missed, Missed | Future, Future => true
  | _, _ => false
  end.

Record Cell := mkCell { c_completed : bool; status : Status }.

Record MonthStats := mkMonthStats {
  total_days : Z;
  completed_days : Z;
  m_success_rate : Q
}.

Record Monthly := mkMonthly {
  calendar : list (IsoDate * Cell);
  month_stats : MonthStats
}.

(** The days [1 .. n] of the calendar loop. *)
Definition daysUpTo (n : Z) : list Z :=
  map Z.of_nat (seq 1 (Z.to_nat n)).

Definition calendarStep (yearNum monthNum : Z) (habitStartDate now : Date)
    (checkIns : list CheckIn) (calendar : list (IsoDate * Cell)) (day : Z)
    : option (list (IsoDate * Cell)) :=
  match newDate yearNum (monthNum - 1) day with
  | None => None
  | Some d =>
      let dateStr := toISODate d in
      if d <? habitStartDate then
        Some (Js.set Z.eqb calendar dateStr
                {| c_completed := false; status := Future |})
      else if d >? now then
        Some (Js.set Z.eqb calendar dateStr
                {| c_completed := false; status := Future |})
      else
        match find (fun c => date c =? dateStr) checkIns with
        | Some checkIn =>
            Some (Js.set Z.eqb calendar dateStr
                    {| c_completed := completed checkIn;
                       status := if completed checkIn then Completed else Missed |})
        | None =>
            Some (Js.set Z.eqb calendar dateStr
                    {| c_completed := false; status := Missed |})
        end
  end.

(** The calendar loop of the handler.  [None] is the [RangeError] that
    [toISOString] throws on an Invalid Date, which the handler answers with
    status 500. *)
Definition monthCalendar (habits : list Habit) (check_ins : list CheckIn)
    (habitId : string) (yearNum monthNum : Z) (now : Date)
    : option (list (IsoDate * Cell)) :=
  match newDate yearNum (monthNum - 1) 1, newDate yearNum monthNum 0 with
  | Some startDate, Some endDate =>
      let checkIns :=
        filter (fun c => String.eqb (habit_id c) habitId
                         && (toISODate startDate <=? date c)
                         && (date c <=? toISODate endDate)) check_ins in
      let habit := single (filter (fun h => String.eqb (h_id h) habitId) habits) in
      let habitStartDate :=
        match habit with
        | Some h => parseDate (start_date h)
        | None => startDate
        end in
      fold_left
        (fun calendar day =>
           match calendar with
           | Some c => calendarStep yearNum monthNum habitStartDate now checkIns c day
           | None => None
           end)
        (daysUpTo (getDate endDate)) (Some [])
  | _, _ => None
  end.

(** The monthly stats computed from the finished calendar. *)
Definition monthStatsOf (calendar : list (IsoDate * Cell)) : MonthStats :=
  let totalDays := Z.of_nat (List.length calendar) in
  let completedDays :=
    Z.of_nat (List.length
      (filter (fun kv => Status_eqb (status (snd kv)) Completed) calendar)) in
  let successRate : Js.Number :=
    if totalDays >? 0
    then Js.mul (Js.div (Js.num completedDays) (Js.num totalDays)) (Js.num 100)
    else Js.num 0 in
  {| total_days := totalDays;
     completed_days := completedDays;
     m_success_rate :=
       (inject_Z (Js.roundNumber (Js.mul successRate (Js.num 100))) / 100)%Q |}.

(** [GET /monthly/:year/:month]; [None] is the answer with status 500. *)
Definition monthly (habits : list Habit) (check_ins : list CheckIn)
    (habitId : string) (yearNum monthNum : Z) (now : Date) : option Monthly :=
  match monthCalendar habits check_ins habitId yearNum monthNum now with
  | Some calendar =>
      Some {| calendar := calendar; month_stats := monthStatsOf calendar |}
  | None => None
  end.

End Analytics.

(* ------------------------------------------------------------------ *)
(** ** The AI route: POST /weekly-insight *)

Module Insight.

Definition dayNames : list string :=
  ["Monday"; "Tuesday"; "Wednesday"; "Thursday"; "Friday"; "Saturday"; "Sunday"].

Definition dayNameOf (d : Date) : string :=
  nth (Z.to_nat (getDay d)) dayNames "undefined".

Record DayCount := mkDayCount { success : Z; total : Z }.

Record WeekAcc := mkWeekAcc {
  weekCheckIns : list bool;
  checkInTimes : list (option TimeOfDay);
  dayCounts : list (string * DayCount)
}.

(** Body of the loop over [i = 0 .. 6]; a missing [check_in_time]
    (the string ['skip'] of the source) is [None]. *)
Definition weekStep (weekStart : Date) (checkIns : list CheckIn)
    (acc : WeekAcc) (i : Z) : WeekAcc :=
  let d := addDays weekStart i in
  let dateStr := toISODate d in
  let dayName := dayNameOf d in
  let checkIn := find (fun c => date c =? dateStr) checkIns in
  let done := match checkIn with Some c => completed c | None => false end in
  let time := match checkIn with Some c => check_in_time c | None => None end in
  let counts0 :=
    match Js.get String.eqb (dayCounts acc) dayName with
    | Some _ => dayCounts acc
    | None => Js.set String.eqb (dayCounts acc) dayName
                {| success := 0; total := 0 |}
    end in
  let counts1 :=
    Js.update String.eqb counts0 dayName
      (fun c => {| success := success c; total := total c + 1 |}) in
  let counts2 :=
    if done
    then Js.update String.eqb counts1 dayName
           (fun c => {| success := success c + 1; total := total c |})
    else counts1 in
  {| weekCheckIns := (weekCheckIns acc ++ [done])%list;
     checkInTimes := (checkInTimes acc ++ [time])%list;
     dayCounts := counts2 |}.

Definition ratioOf (c : DayCount) : Q :=
  if total c >? 0 then (inject_Z (success c) / inject_Z (total c))%Q else 0%Q.

Record Best := mkBest {
  bestDay : string;
  worstDay : string;
  bestRatio : Q;
  worstRatio : Q
}.

Definition bestWorstStep (st : Best) (entry : string * DayCount) : Best :=
  let (day, counts) := entry in
  let ratio := ratioOf counts in
  let st1 :=
    if Js.gtb ratio (bestRatio st)
    then {| bestDay := day; worstDay := worstDay st;
            bestRatio := ratio; worstRatio := worstRatio st |}
    else st in
  if Js.ltb ratio (worstRatio st1)
  then {| bestDay := bestDay st1; worstDay := day;
          bestRatio := bestRatio st1; worstRatio := ratio |}
  else st1.

Definition bestWorst (counts : list (string * DayCount)) : Best :=
  fold_left bestWorstStep counts
    {| bestDay := "Monday"; worstDay := "Monday";
       bestRatio := 0%Q; worstRatio := 1%Q |}.

Record WeeklyInsightContext := mkContext {
  ctx_habitName : string;
  ctx_weekCheckIns : list bool;
  ctx_bestDay : string;
  ctx_worstDay : string;
  ctx_checkInTimes : list (option TimeOfDay);
  ctx_partnerCheckIns : Z
}.

(** The check-ins of the last seven days, oldest first. *)
Definition windowCheckIns (check_ins : list CheckIn) (habitId : string)
    (today : Date) : list CheckIn :=
  let weekStart := addDays today (-6) in
  order_by_date
    (filter (fun c => String.eqb (habit_id c) habitId
                      && (toISODate weekStart <=? date c)
                      && (date c <=? toISODate today)) check_ins).

Definition weekAcc (check_ins : list CheckIn) (habitId : string)
    (today : Date) : WeekAcc :=
  let weekStart := addDays today (-6) in
  fold_left (weekStep weekStart (windowCheckIns check_ins habitId today))
    [0; 1; 2; 3; 4; 5; 6]
    {| weekCheckIns := []; checkInTimes := []; dayCounts := [] |}.

(** The facts handed to the text generator by [POST /weekly-insight];
    [partnerId] is the partner of an accepted partnership, if any. *)
Definition weeklyInsight (habit : Habit) (check_ins : list CheckIn)
    (partnerId : option string) (today : Date) : WeeklyInsightContext :=
  let weekStart := addDays today (-6) in
  let acc := weekAcc check_ins (h_id habit) today in
  let bw := bestWorst (dayCounts acc) in
  let partnerCheckIns :=
    match partnerId with
    | Some p =>
        Z.of_nat (List.length
          (filter (fun c => String.eqb (user_id c) p
                            && (toISODate weekStart <=? date c)
                            && (date c <=? toISODate today)
                            && Bool.eqb (completed c) true) check_ins))
    | None => 0
    end in
  {| ctx_habitName := habit_name habit;
     ctx_weekCheckIns := weekCheckIns acc;
     ctx_bestDay := bestDay bw;
     ctx_worstDay := worstDay bw;
     ctx_checkInTimes := checkInTimes acc;
     ctx_partnerCheckIns := partnerCheckIns |}.

End Insight.

(* ------------------------------------------------------------------ *)
(** ** routes/checkins.ts: what a new check-in hands to the text
       generator *)

Module CheckinContext.

Definition milestones : list Z := [7; 14; 30; 50; 100].

(** [milestones.includes(streak) ? `${streak}-day` : undefined]. *)
Definition milestoneOf (streak : Z) : option string :=
  if existsb (Z.eqb streak) milestones
  then Some (String.append (Js.toString streak) "-day")
  else None.

Definition weekdayLong : list string :=
  ["Sunday"; "Monday"; "Tuesday"; "Wednesday"; "Thursday"; "Friday"; "Saturday"].

(** [t.toLocaleDateString('en-US', { weekday: 'long' })]. *)
Definition toLocaleWeekday (t : Date) : string :=
  nth (Z.to_nat (getDay t)) weekdayLong "".

(** The context built after the insert of a new check-in: the one of
    [getEncouragementMessage] when the check-in is completed, the one of
    [getStreakBreakSupport] when it is not; none when the request is
    rejected or updates the check-in already there.  The habit's category
    is passed through and left out. *)
Inductive Context :=
| Encouragement (habitName : string) (streakLength : Z)
    (lastSevenDays : list bool) (dayOfWeek : string) (milestone : option string)
| StreakBreak (habitName : string)
    (brokenStreakLength totalDaysActive previousLongestStreak : Z)
| NoContext.

(** The part of [POST /] after the insert.  [None] means that the loop of
    [calculateStreak] ran out of [fuel]. *)
Definition contextOf (fuel : nat) (habits : list Habit) (check_ins : list CheckIn)
    (user : string) (body : Checkins.Body) (now : Date) : option Context :=
  match Checkins.b_habit_id body, Checkins.b_completed body with
  | Some habitId, Some done =>
      if String.eqb habitId EmptyString then Some NoContext
      else
      match single (filter (fun h => String.eqb (h_id h) habitId
                                     && String.eqb (h_user_id h) user) habits) with
      | None => Some NoContext
      | Some habit =>
          let today := toISODate now in
          let checkInTime := timeOfDay now in
          match single (filter (fun c => String.eqb (habit_id c) habitId
                                         && (date c =? today)) check_ins) with
          | Some _ => Some NoContext
          | None =>
              let data :=
                {| id := fresh_id check_ins; habit_id := habitId;
                   user_id := user; date := today; completed := done;
                   check_in_time := Some checkInTime;
                   notes := Checkins.notes_or_null (Checkins.b_notes body) |} in
              let table := (check_ins ++ [data])%list in
              if done then
                match Checkins.calculateStreak fuel table habitId now with
                | None => None
                | Some streak =>
                    let lastSevenDays :=
                      Checkins.getLastSevenDays table habitId now in
                    let milestone := milestoneOf streak in
                    let dayOfWeek := toLocaleWeekday now in
                    Some (Encouragement (habit_name habit) streak lastSevenDays
                            dayOfWeek milestone)
                end
              else
                match Checkins.calculateStreak fuel table habitId now with
                | None => None
                | Some previousStreak =>
                    let totalDaysActive :=
                      Z.of_nat (List.length
                        (filter (fun c => String.eqb (habit_id c) habitId
                                          && Bool.eqb (completed c) true) table)) in
                    Some (StreakBreak (habit_name habit) previousStreak
                            totalDaysActive previousStreak)
                end
          end
      end
  | _, _ => Some NoContext
  end.

End CheckinContext.

(* ------------------------------------------------------------------ *)
(** ** routes/checkins.ts: reading the check-ins back *)

Module CheckinQueries.

(** [GET /:habitId/today]: today's check-in of the habit, [null] when the
    point query does not return exactly one row. *)
Definition getToday (check_ins : list CheckIn) (habitId : string) (now : Date)
    : option CheckIn :=
  let today := toISODate now in
  single (filter (fun c => String.eqb (habit_id c) habitId && (date c =? today))
            check_ins).

Inductive HistoryResponse :=
| Rows (data : list CheckIn)
| NotFound (error : string).

(** [GET /:habitId]: the check-ins of a habit of the caller, newest
    first. *)
Definition getHistory (habits : list Habit) (check_ins : list CheckIn)
    (user habitId : string) : HistoryResponse :=
  match single (filter (fun h => String.eqb (h_id h) habitId
                                 && String.eqb (h_user_id h) user) habits) with
  | None => NotFound "Habit not found"
  | Some _ =>
      Rows (rev (order_by_date
                   (filter (fun c => String.eqb (habit_id c) habitId) check_ins)))
  end.

End CheckinQueries.

(* ------------------------------------------------------------------ *)
(** ** The partnership routes *)

Module Partnerships.

(** A row of [partnerships]; [status] is one of ['pending'], ['accepted'],
    ['declined'] and ['ended']. *)
Record Partnership := mkPartnership {
  p_id : string;
  requester_id : string;
  receiver_id : string;
  request_message : option string;
  status : string;
  accepted_at : option Date;
  ended_at : option Date
}.

Record Body := mkBody {
  b_receiver_id : option string;
  b_request_message : option string
}.

Inductive Response :=
| Json (code : Z) (row : Partnership)
| Status (code : Z) (error : string).

(** [.or(`requester_id.eq.${user},receiver_id.eq.${user}`)]. *)
Definition involves (user : string) (p : Partnership) : bool :=
  String.eqb (requester_id p) user || String.eqb (receiver_id p) user.

(** [request_message || null]. *)
Definition message_or_null (m : option string) : option string :=
  match m with
  | Some EmptyString => None
  | other => other
  end.

(** [POST /]: send a partnership request.  [newId] is the primary key the
    store gives to the inserted row.  Returns the [partnerships] table
    after the request and the response; the notification written for the
    receiver does not touch the table and is left out. *)
Definition requestPartnership (partnerships : list Partnership)
    (user : string) (body : Body) (newId : string)
    : list Partnership * Response :=
  match b_receiver_id body with
  | None => (partnerships, Status 400 "Receiver ID is required")
  | Some receiver =>
      if String.eqb receiver EmptyString
      then (partnerships, Status 400 "Receiver ID is required")
      else if String.eqb receiver user
      then (partnerships, Status 400 "Cannot request partnership with yourself")
      else
        match single (filter (fun p => involves user p
                                       && String.eqb (status p) "accepted")
                        partnerships) with
        | Some _ =>
            (partnerships, Status 400 "You already have an active partnership")
        | None =>
            match single (filter (fun p => String.eqb (requester_id p) user
                                           && String.eqb (receiver_id p) receiver
                                           && String.eqb (status p) "pending")
                            partnerships) with
            | Some _ =>
                (partnerships, Status 400 "Partnership request already sent")
            | None =>
                let data :=
                  {| p_id := newId; requester_id := user;
                     receiver_id := receiver;
                     request_message := message_or_null (b_request_message body);
                     status := "pending";
                     accepted_at := None; ended_at := None |} in
                ((partnerships ++ [data])%list, Json 201 data)
            end
        end
  end.

(** [PUT /:id/accept]. *)
Definition accept (partnerships : list Partnership) (user id : string)
    (now : Date) : list Partnership * Response :=
  match single (filter (fun p => String.eqb (p_id p) id
                                 && String.eqb (receiver_id p) user
                                 && String.eqb (status p) "pending")
                  partnerships) with
  | None => (partnerships, Status 404 "Partnership request not found")
  | Some _ =>
      let upd p :=
        if String.eqb (p_id p) id
        then {| p_id := p_id p; requester_id := requester_id p;
                receiver_id := receiver_id p;
                request_message := request_message p;
                status := "accepted";
                accepted_at := Some now; ended_at := ended_at p |}
        else p in
      let table := map upd partnerships in
      match single (filter (fun p => String.eqb (p_id p) id) table) with
      | Some data => (table, Json 200 data)
      | None => (table, Status 500 "Failed to accept partnership")
      end
  end.

(** [PUT /:id/decline]. *)
Definition decline (partnerships : list Partnership) (user id : string)
    : list Partnership * Response :=
  match single (filter (fun p => String.eqb (p_id p) id
                                 && String.eqb (receiver_id p) user
                                 && String.eqb (status p) "pending")
                  partnerships) with
  | None => (partnerships, Status 404 "Partnership request not found")
  | Some _ =>
      let upd p :=
        if String.eqb (p_id p) id
        then {| p_id := p_id p; requester_id := requester_id p;
                receiver_id := receiver_id p;
                request_message := request_message p;
                status := "declined";
                accepted_at := accepted_at p; ended_at := ended_at p |}
        else p in
      let table := map upd partnerships in
      match single (filter (fun p => String.eqb (p_id p) id) table) with
      | Some data => (table, Json 200 data)
      | None => (table, Status 500 "Failed to decline partnership")
      end
  end.

(** [DELETE /:id]: end a partnership. *)
Definition endPartnership (partnerships : list Partnership) (user id : string)
    (now : Date) : list Partnership * Response :=
  match single (filter (fun p => String.eqb (p_id p) id
                                 && involves user p
                                 && String.eqb (status p) "accepted")
                  partnerships) with
  | None => (partnerships, Status 404 "Partnership not found")
  | Some _ =>
      let upd p :=
        if String.eqb (p_id p) id
        then {| p_id := p_id p; requester_id := requester_id p;
                receiver_id := receiver_id p;
                request_message := request_message p;
                status := "ended";
                accepted_at := accepted_at p; ended_at := Some now |}
        else p in
      let table := map upd partnerships in
      match single (filter (fun p => String.eqb (p_id p) id) table) with
      | Some data => (table, Json 200 data)
      | None => (table, Status 500 "Failed to end partnership")
      end
  end.

(** The partner of the accepted partnership of [user], as [GET /current]
    and [POST /weekly-insight] look it up: none unless exactly one accepted
    partnership involves the user. *)
Definition partnerOf (partnerships : list Partnership) (user : string)
    : option string :=
  match single (filter (fun p => involves user p
                                 && String.eqb (status p) "accepted")
                  partnerships) with
  | Some partnership =>
      Some (if String.eqb (requester_id partnership) user
            then receiver_id partnership
            else requester_id partnership)
  | None => None
  end.

End Partnerships.

(* ------------------------------------------------------------------ *)
(** ** routes/habits.ts: the habit of a user *)

Module Habits.

(** A row of [habits]; [Db.Habit] is its projection on the columns the
    check-in and analytics routes select. *)
Record HabitRow := mkHabitRow {
  hr_id : string;
  hr_user_id : string;
  hr_habit_name : string;
  category : string;
  hr_start_date : IsoDate;
  privacy_setting : string;
  is_active : bool;
  archived_at : option Date
}.

Definition toHabit (r : HabitRow) : Habit :=
  {| h_id := hr_id r; h_user_id := hr_user_id r;
     habit_name := hr_habit_name r; start_date := hr_start_date r |}.

(** The body of [POST /]; an absent field and an empty string are both
    falsy, an absent or empty [start_date] is [None]. *)
Record Body := mkBody {
  b_habit_name : option string;
  b_category : option string;
  b_start_date : option IsoDate;
  b_privacy_setting : option string
}.

(** The body of [PUT /:id]; [None] is [undefined]. *)
Record UpdateBody := mkUpdateBody {
  u_habit_name : option string;
  u_privacy_setting : option string
}.

Inductive Response :=
| Json (code : Z) (row : HabitRow)
| Status (code : Z) (error : string).

Definition validCategories : list string :=
  ["Health"; "Learning"; "Creativity"; "Productivity"; "Wellness"].

Definition validSettings : list string :=
  ["public"; "partner-only"; "private"].

(** [list.includes(s)]. *)
Definition includes (l : list string) (s : string) : bool :=
  existsb (String.eqb s) l.

(** [POST /]: create the habit of the caller.  [newId] is the primary key
    the store gives to the inserted row. *)
Definition createHabit (habits : list HabitRow) (user : string) (body : Body)
    (now : Date) (newId : string) : list HabitRow * Response :=
  match b_habit_name body, b_category body with
  | Some habit_name, Some category =>
      if String.eqb habit_name EmptyString || String.eqb category EmptyString
      then (habits, Status 400 "Habit name and category are required")
      else if Nat.ltb 100 (Js.length habit_name)
      then (habits, Status 400 "Habit name must be 100 characters or less")
      else if negb (includes validCategories category)
      then (habits, Status 400 "Invalid category")
      else
        match single (filter (fun h => String.eqb (hr_user_id h) user
                                       && Bool.eqb (is_active h) true) habits) with
        | Some _ =>
            (habits,
             Status 400 "You already have an active habit. Please archive it first.")
        | None =>
            let data :=
              {| hr_id := newId; hr_user_id := user;
                 hr_habit_name := habit_name;
                 category := category;
                 hr_start_date :=
                   match b_start_date body with
                   | Some d => d
                   | None => toISODate now
                   end;
                 privacy_setting :=
                   match b_privacy_setting body with
                   | None | Some EmptyString => "partner-only"
                   | Some s => s
                   end;
                 is_active := true;
                 archived_at := None |} in
            ((habits ++ [data])%list, Json 201 data)
        end
  | _, _ => (habits, Status 400 "Habit name and category are required")
  end.

(** [GET /]: the active habit of the caller, when the query returns
    exactly one row (404 otherwise). *)
Definition getActive (habits : list HabitRow) (user : string) : option HabitRow :=
  single (filter (fun h => String.eqb (hr_user_id h) user
                           && Bool.eqb (is_active h) true) habits).

(** [PUT /:id]: change the name or the privacy setting.  An update that
    names no column leaves the row as it is. *)
Definition updateHabit (habits : list HabitRow) (user id : string)
    (body : UpdateBody) : list HabitRow * Response :=
  match single (filter (fun h => String.eqb (hr_id h) id
                                 && String.eqb (hr_user_id h) user) habits) with
  | None => (habits, Status 404 "Habit not found")
  | Some _ =>
      if match u_habit_name body with
         | Some habit_name => Nat.ltb 100 (Js.length habit_name)
         | None => false
         end
      then (habits, Status 400 "Habit name must be 100 characters or less")
      else if match u_privacy_setting body with
              | Some s => negb (includes validSettings s)
              | None => false
              end
      then (habits, Status 400 "Invalid privacy setting")
      else
        let upd h :=
          if String.eqb (hr_id h) id
          then {| hr_id := hr_id h; hr_user_id := hr_user_id h;
                  hr_habit_name :=
                    match u_habit_name body with
                    | Some habit_name => habit_name
                    | None => hr_habit_name h
                    end;
                  category := category h;
                  hr_start_date := hr_start_date h;
                  privacy_setting :=
                    match u_privacy_setting body with
                    | Some s => s
                    | None => privacy_setting h
                    end;
                  is_active := is_active h;
                  archived_at := archived_at h |}
          else h in
        let table := map upd habits in
        match single (filter (fun h => String.eqb (hr_id h) id) table) with
        | Some data => (table, Json 200 data)
        | None => (table, Status 500 "Failed to update habit")
        end
  end.

(** [POST /:id/archive]. *)
Definition archiveHabit (habits : list HabitRow) (user id : string) (now : Date)
    : list HabitRow * Response :=
  match single (filter (fun h => String.eqb (hr_id h) id
                                 && String.eqb (hr_user_id h) user) habits) with
  | None => (habits, Status 404 "Habit not found")
  | Some _ =>
      let upd h :=
        if String.eqb (hr_id h) id
        then {| hr_id := hr_id h; hr_user_id := hr_user_id h;
                hr_habit_name := hr_habit_name h;
                category := category h;
                hr_start_date := hr_start_date h;
                privacy_setting := privacy_setting h;
                is_active := false;
                archived_at := Some now |}
        else h in
      let table := map upd habits in
      match single (filter (fun h => String.eqb (hr_id h) id) table) with
      | Some data => (table, Json 200 data)
      | None => (table, Status 500 "Failed to archive habit")
      end
  end.

End Habits.

(* ------------------------------------------------------------------ *)
(** ** services/geminiService: the week shown in the insight prompt *)

Module GeminiService.

(** The check mark (U+2713) and the cross mark (U+2717) of the prompt, as
    their UTF-8 bytes. *)
Definition checkMark : string :=
  String (ascii_of_nat 226) (String (ascii_of_nat 156)
    (String (ascii_of_nat 147) EmptyString)).

Definition crossMark : string :=
  String (ascii_of_nat 226) (String (ascii_of_nat 156)
    (String (ascii_of_nat 151) EmptyString)).

Definition dayNames : list string :=
  ["Mon"; "Tue"; "Wed"; "Thu"; "Fri"; "Sat"; "Sun"].

(** [weekCheckIns.filter(d => d).length] of
    [generateWeeklyInsightPrompt]. *)
Definition successCount (weekCheckIns : list bool) : Z :=
  Z.of_nat (List.length (filter (fun d => d) weekCheckIns)).

(** [weekCheckIns.map((d, i) => ...)]: the label [dayNames[i]], a colon
    and the mark of [d], from index [i] on. *)
Fixpoint dayEntriesFrom (i : nat) (weekCheckIns : list bool) : list string :=
  match weekCheckIns with
  | [] => []
  | d :: rest =>
      String.append (nth i dayNames "undefined")
        (String.append ": " (if d then checkMark else crossMark))
      :: dayEntriesFrom (S i) rest
  end.

Definition dayEntries (weekCheckIns : list bool) : list string :=
  dayEntriesFrom 0 weekCheckIns.

(** The [daysDisplay] line of the prompt. *)
Definition daysDisplay (weekCheckIns : list bool) : string :=
  String.concat ", " (dayEntries weekCheckIns).

End GeminiService.

(* ------------------------------------------------------------------ *)
(** ** The partnership routes: GET /browse *)

Module PartnerBrowse.

(** A row of [users_profiles]. *)
Record Profile := mkProfile {
  pr_id : string;
  pr_display_name : option string
}.

(** An entry of the answer. *)
Record Partner := mkPartner {
  user_id : string;
  display_name : string;
  habit_name : string;
  category : string;
  privacy_setting : string
}.

(** [GET /browse]: the habits of other users offered to the caller.  The
    inner join with [users_profiles] keeps the habits whose owner has a
    profile; an absent or empty [category] does not filter. *)
Definition browse (habits : list Habits.HabitRow) (profiles : list Profile)
    (partnerships : list Partnerships.Partnership) (user : string)
    (category : option string) : list Partner :=
  let query :=
    filter (fun h => Bool.eqb (Habits.is_active h) true
                     && negb (String.eqb (Habits.hr_user_id h) user)
                     && Habits.includes ["public"; "partner-only"]
                          (Habits.privacy_setting h)) habits in
  let query :=
    match category with
    | None | Some EmptyString => query
    | Some c => filter (fun h => String.eqb (Habits.category h) c) query
    end in
  let joined :=
    flat_map (fun h =>
                match find (fun p => String.eqb (pr_id p) (Habits.hr_user_id h))
                        profiles with
                | Some p => [(h, p)]
                | None => []
                end) query in
  let existingPartnerships :=
    filter (fun p => Partnerships.involves user p
                     && String.eqb (Partnerships.status p) "accepted")
      partnerships in
  let partneredUserIds :=
    flat_map (fun p => [Partnerships.requester_id p; Partnerships.receiver_id p])
      existingPartnerships in
  map (fun hp =>
         {| user_id := Habits.hr_user_id (fst hp);
            display_name :=
              match pr_display_name (snd hp) with
              | None | Some EmptyString => "Unknown"
              | Some n => n
              end;
            habit_name := Habits.hr_habit_name (fst hp);
            category := Habits.category (fst hp);
            privacy_setting := Habits.privacy_setting (fst hp) |})
      (filter (fun hp => negb (existsb (String.eqb (Habits.hr_user_id (fst hp)))
                                 partneredUserIds)) joined).

End PartnerBrowse.

(* ------------------------------------------------------------------ *)
(** ** Vocabulary of the specification *)

(** The key under which the data model allows at most one record. *)
Definition recordKey (c : CheckIn) : string * IsoDate := (habit_id c, date c).

(** At most one DayRecord per (habit, date). *)
Definition unique_per_day (table : list CheckIn) : Prop :=
  NoDup (map recordKey table).

(** A record of habit [h] exists on day [d] with [completed = true]. *)
Definition hasCompleted (table : list CheckIn) (h : string) (d : IsoDate) : bool :=
  existsb (fun c => String.eqb (habit_id c) h && (date c =? d) && completed c) table.

(** Number of stored records of habit [h] on day [d]. *)
Definition recordsOn (table : list CheckIn) (h : string) (d : IsoDate) : nat :=
  List.length (filter (fun c => String.eqb (habit_id c) h && (date c =? d)) table).

Definition isSome {A : Type} (o : option A) : bool :=
  match o with
  | Some _ => true
  | None => false
  end.

(** The backward walk shared by both current-streak loops, over an
    arbitrary test [has] of a day. *)
Section WalkBack.
Variable has : IsoDate -> bool.

Fixpoint walkBack (fuel : nat) (currentDate : Date) (streak : Z) : option Z :=
  match fuel with
  | O => None
  | S fuel' =>
      if has (toISODate currentDate)
      then walkBack fuel' (addDays currentDate (-1)) (streak + 1)
      else Some streak
  end.
End WalkBack.

(** Number of occurrences of the key (habit [h], day [d]) among keys. *)
Definition keyCount (keys : list (string * Z)) (h : string) (d : Z) : nat :=
  List.length (filter (fun k => String.eqb (fst k) h && (snd k =? d)) keys).

(** A sequence of [POST /] requests, each with its caller, body and clock
    reading, applied to the table one after the other. *)
Definition runCheckIns (habits : list Habit) (table : list CheckIn)
    (requests : list (string * Checkins.Body * Z)) : list CheckIn :=
  fold_left
    (fun t request =>
       match request with
       | (user, body, now) => fst (Checkins.postCheckIn habits t user body now)
       end)
    requests table.

(** Length of the month [month] (0-based, any integer) of [year]: from
    its first day to day 0 of the following month. *)
Definition monthLength (year month : Z) : Z :=
  makeDay year (month + 1) 0 - makeDay year month 1 + 1.

(** The day of the month of day 0 of the following month is the length of
    the month, and that length is between 28 and 31. *)
Definition calendarCheck (year month : Z) : bool :=
  (dateFromDay (makeDay year (month + 1) 0) =? monthLength year month)
  && (28 <=? monthLength year month) && (monthLength year month <=? 31).

Definition zrange (n : nat) : list Z := map Z.of_nat (seq 0 n).

(** The day number that stands for the date string of year [y], month [m]
    (1..12) and day [d] of the proleptic Gregorian calendar. *)
Definition isoDate (y m d : Z) : Z :=
  let y' := if m <=? 2 then y - 1 else y in
  let mp := if m <=? 2 then m + 9 else m - 3 in
  365 * y' + y' / 4 - y' / 100 + y' / 400 + (153 * mp + 2) / 5 + d - 1 - 719468.

(** Number of days of month [m] (1..12) of year [y]. *)
Definition daysInMonth (y m : Z) : Z :=
  if m =? 2 then (if isLeap y then 29 else 28)
  else if (m =? 4) || (m =? 6) || (m =? 9) || (m =? 11) then 30
  else 31.

(** [MakeDay] agrees with the calendar on the first day and on the length
    of month [m] of year [y]. *)
Definition civilCheck (y m : Z) : bool :=
  (makeDay y (m - 1) 1 =? isoDate y m 1)
  && (monthLength y (m - 1) =? daysInMonth y m).

(** The score [Math.round((c / t) * 100)] computed in doubles is the
    exact ratio rounded to the nearest integer. *)
Definition scoreAgrees (t c : Z) : bool :=
  Js.roundNumber (Js.mul (Js.div (Js.num c) (Js.num t)) (Js.num 100))
  =? Js.Math_round (inject_Z c / inject_Z t * 100).

(** The integer [Math.round((c / t) * 100 * 100)] computed in doubles is
    the exact value rounded to the nearest integer. *)
Definition rateAgrees (t c : Z) : bool :=
  Js.roundNumber
    (Js.mul (Js.mul (Js.div (Js.num c) (Js.num t)) (Js.num 100)) (Js.num 100))
  =? Js.Math_round (inject_Z c / inject_Z t * 100 * 100).

(** The cell the calendar loop writes for day [day] of the month. *)
Definition cellOf (yearNum monthNum : Z) (habitStartDate now : Z)
    (checkIns : list CheckIn) (day : Z) : Analytics.Cell :=
  let d := makeDate yearNum (monthNum - 1) day in
  if d <? habitStartDate then Analytics.mkCell false Analytics.Future
  else if d >? now then Analytics.mkCell false Analytics.Future
  else
    match find (fun c => date c =? toISODate d) checkIns with
    | Some checkIn =>
        Analytics.mkCell (completed checkIn)
          (if completed checkIn then Analytics.Completed else Analytics.Missed)
    | None => Analytics.mkCell false Analytics.Missed
    end.

(** Selection of a day by strict comparison over entries [(day, ratio)]
    taken in order: the held day changes only when an entry is strictly
    better than the held ratio. *)
Definition firstAbove (init : string * Q) (ratios : list (string * Q))
    : string * Q :=
  fold_left (fun st e => if Js.gtb (snd e) (snd st) then e else st) ratios init.

Definition firstBelow (init : string * Q) (ratios : list (string * Q))
    : string * Q :=
  fold_left (fun st e => if Js.ltb (snd e) (snd st) then e else st) ratios init.

(** [d] is the day of the first entry, in the order of [ratios], that
    attains the largest ratio, provided that ratio exceeds the initial one;
    otherwise [d] is the initial day. *)
Definition isFirstMax (init : string * Q) (ratios : list (string * Q))
    (d : string) : Prop :=
  ((forall e, In e ratios -> (snd e <= snd init)%Q) /\ d = fst init)
  \/ (exists l1 e l2,
        ratios = (l1 ++ e :: l2)%list /\ d = fst e /\ (snd init < snd e)%Q /\
        (forall x, In x l1 -> (snd x < snd e)%Q) /\
        (forall x, In x l2 -> (snd x <= snd e)%Q)).

(** The same for the smallest ratio. *)
Definition isFirstMin (init : string * Q) (ratios : list (string * Q))
    (d : string) : Prop :=
  ((forall e, In e ratios -> (snd init <= snd e)%Q) /\ d = fst init)
  \/ (exists l1 e l2,
        ratios = (l1 ++ e :: l2)%list /\ d = fst e /\ (snd e < snd init)%Q /\
        (forall x, In x l1 -> (snd e < snd x)%Q) /\
        (forall x, In x l2 -> (snd e <= snd x)%Q)).

(** The ratios of the entries of a [dayCounts] object, in its order. *)
Definition ratiosOf (counts : list (string * Insight.DayCount))
    : list (string * Q) :=
  map (fun e => (fst e, Insight.ratioOf (snd e))) counts.

(** Whether day [d] counts as completed in the weekly insight. *)
Definition doneOn (checkIns : list CheckIn) (d : Z) : bool :=
  match find (fun c => date c =? d) checkIns with
  | Some c => completed c
  | None => false
  end.

(** What one pass of the insight loop does to [dayCounts]. *)
Definition bumpCount (counts : list (string * Insight.DayCount))
    (dayName : string) (done : bool) : list (string * Insight.DayCount) :=
  let counts0 :=
    match Js.get String.eqb counts dayName with
    | Some _ => counts
    | None => Js.set String.eqb counts dayName (Insight.mkDayCount 0 0)
    end in
  let counts1 :=
    Js.update String.eqb counts0 dayName
      (fun c => Insight.mkDayCount (Insight.success c) (Insight.total c + 1)) in
  if done
  then Js.update String.eqb counts1 dayName
         (fun c => Insight.mkDayCount (Insight.success c + 1) (Insight.total c))
  else counts1.

(** A row that enters the average check-in time: completed, with a
    recorded time; and its minutes since midnight. *)
Definition timed (c : CheckIn) : bool :=
  completed c && isSome (check_in_time c).

Definition minutesOf (c : CheckIn) : Z :=
  match check_in_time c with
  | Some t => hours t * 60 + minutes t
  | None => 0
  end.

Definition sumMinutes (rows : list CheckIn) : Z :=
  fold_right (fun c s => minutesOf c + s) 0 rows.

(** The ratios of the entries of a [dayStats] object, in its order. *)
Definition statRatios (stats : list (string * Analytics.DayStat))
    : list (string * Q) :=
  map (fun e => (fst e, Analytics.ratioOf (snd e))) stats.

(** Order of two records by date, weak and strict. *)
Definition date_le (a b : CheckIn) : Prop := date a <= date b.
Definition date_lt (a b : CheckIn) : Prop := date a < date b.

(** What the scan of [GET /:habitId/streak] returns from a state. *)
Definition scanFinal (st : Checkins.Scan) : Z :=
  Z.max (Checkins.longestStreak st) (Checkins.currentCount st).

(** *** Sample data *)

(** 2024-01-01, a Monday. *)
Definition monday : Z := 19723.

Definition sampleHabit : Habit := mkHabit "habit-1" "user-1" "Morning run" 19700.

Definition checkInOn (i : nat) (d : Z) (done : bool) (t : option TimeOfDay)
    : CheckIn :=
  mkCheckIn i "habit-1" "user-1" d done t None.

(** Scenario A: completed on today, today-1 and today-2, nothing before. *)
Definition scenarioA (today : Z) : list CheckIn :=
  [checkInOn 1 (today - 2) true None;
   checkInOn 2 (today - 1) true None;
   checkInOn 3 today true None].

(** Scenario B: completed on D, D+1, D+2, D+5 and D+6. *)
Definition scenarioB (D : Z) : list CheckIn :=
  [checkInOn 1 D true None;
   checkInOn 2 (D + 1) true None;
   checkInOn 3 (D + 2) true None;
   checkInOn 4 (D + 5) true None;
   checkInOn 5 (D + 6) true None].

(** Scenario C: a week from Monday to Sunday, completed on Monday, Tuesday
    and Wednesday only; without and with a not-completed record on each of
    the other four days. *)
Definition scenarioC_sparse : list CheckIn :=
  [checkInOn 1 monday true None;
   checkInOn 2 (monday + 1) true None;
   checkInOn 3 (monday + 2) true None].

Definition scenarioC_full : list CheckIn :=
  (scenarioC_sparse ++
   [checkInOn 4 (monday + 3) false None;
    checkInOn 5 (monday + 4) false None;
    checkInOn 6 (monday + 5) false None;
    checkInOn 7 (monday + 6) false None])%list.

(** A habit that starts on Thursday 2024-01-04, in the middle of a month. *)
Definition midMonthHabit : Habit :=
  mkHabit "habit-1" "user-1" "Morning run" (monday + 3).

(** The body of a check-in request for the sample habit. *)
Definition sampleBody : Checkins.Body :=
  Checkins.mkBody (Some "habit-1") (Some true) None.

(** Noon of a day. *)
Definition noonOf (d : Z) : Z := parseDate d + 12 * 3600000.

(** [n] rows on consecutive days from [monday] on, of which the first [k]
    are completed. *)
Definition rowsWith (n k : nat) : list CheckIn :=
  map (fun i => checkInOn i (monday + Z.of_nat i) (Nat.ltb i k) None) (seq 0 n).

(** The row [POST /] inserts when today has no check-in yet. *)
Definition newRow (check_ins : list CheckIn) (h user : string) (done : bool)
    (body : Checkins.Body) (now : Z) : CheckIn :=
  mkCheckIn (fresh_id check_ins) h user (toISODate now) done
    (Some (timeOfDay now)) (Checkins.notes_or_null (Checkins.b_notes body)).

(** The rewrite [POST /] applies to the rows carrying the id of the row
    [e] found for today. *)
Definition updateRow (e : CheckIn) (done : bool) (body : Checkins.Body)
    (now : Z) (c : CheckIn) : CheckIn :=
  if Nat.eqb (id c) (id e)
  then mkCheckIn (id c) (habit_id c) (user_id c) (date c) done
         (Some (timeOfDay now)) (Checkins.notes_or_null (Checkins.b_notes body))
  else c.

(** Primary keys are pairwise distinct. *)
Definition uniqueIds (table : list CheckIn) : Prop := NoDup (map id table).

(** The rows of [rows] that fall in the bucket [name] of the weekly
    statistics. *)
Definition inBucket (name : string) (c : CheckIn) : bool :=
  String.eqb (Analytics.dayNameOf (parseDate (date c))) name.

(** Sum of the [total] and of the [completed] fields over all buckets. *)
Definition sumTotal (stats : list (string * Analytics.DayStat)) : Z :=
  fold_right (fun e s => Analytics.st_total (snd e) + s) 0 stats.

Definition sumCompleted (stats : list (string * Analytics.DayStat)) : Z :=
  fold_right (fun e s => Analytics.st_completed (snd e) + s) 0 stats.

(** Number of elements of a list that pass a test, as a JavaScript number. *)
Definition countZ {A : Type} (p : A -> bool) (l : list A) : Z :=
  Z.of_nat (List.length (filter p l)).

(** The seven days of the window that ends today, oldest first. *)
Definition windowDays (today : Z) : list Z :=
  map (fun i => toISODate today - 6 + i) [0; 1; 2; 3; 4; 5; 6].

(** The weekday of a date: 1970-01-01, day 0, was a Thursday. *)
Definition weekdayOf (d : Z) : string :=
  nth (Z.to_nat ((d + 3) mod 7))
    ["Monday"; "Tuesday"; "Wednesday"; "Thursday"; "Friday"; "Saturday"; "Sunday"]
    "".

(** The completed/total ratio of weekday [name] over the days [days]: the
    days of that weekday with a completed check-in over the days of that
    weekday, 0 when there is none. *)
Definition weekdayRatio (checkIns : list CheckIn) (days : list Z)
    (name : string) : Q :=
  let observed := filter (fun d => String.eqb (weekdayOf d) name) days in
  if countZ (fun _ => true) observed >? 0
  then (inject_Z (countZ (doneOn checkIns) observed)
        / inject_Z (countZ (fun _ => true) observed))%Q
  else 0%Q.

(** The best and the worst day as the specification words them: the
    weekdays are gone through from Monday to Sunday, the best day changes on
    a strictly greater ratio and the worst day on a strictly smaller one, so
    the first weekday from Monday that attains the maximum (minimum) ratio
    is the best (worst) day. *)
Definition claimedBestDay (checkIns : list CheckIn) (days : list Z) : string :=
  fst (firstAbove ("Monday", 0%Q)
         (map (fun name => (name, weekdayRatio checkIns days name))
              ["Monday"; "Tuesday"; "Wednesday"; "Thursday"; "Friday";
               "Saturday"; "Sunday"])).

Definition claimedWorstDay (checkIns : list CheckIn) (days : list Z) : string :=
  fst (firstBelow ("Monday", 1%Q)
         (map (fun name => (name, weekdayRatio checkIns days name))
              ["Monday"; "Tuesday"; "Wednesday"; "Thursday"; "Friday";
               "Saturday"; "Sunday"])).

(** The cell the monthly calendar shows for a date, from the start date
    [startIso] of the habit, today's date and whether the date has a
    completed record. *)
Definition cellFor (startIso today d : Z) (done : bool) : Analytics.Cell :=
  if (d <? startIso) || (d >? today) then Analytics.mkCell false Analytics.Future
  else if done then Analytics.mkCell true Analytics.Completed
       else Analytics.mkCell false Analytics.Missed.

(** *** Partnerships *)

(** A request to one of the partnership routes that write. *)
Inductive PartnerRequest :=
| Ask (body : Partnerships.Body) (newId : string)
| Accept (id : string)
| Decline (id : string)
| EndIt (id : string).

Definition partnerStep (table : list Partnerships.Partnership) (user : string)
    (request : PartnerRequest) (now : Z)
    : list Partnerships.Partnership * Partnerships.Response :=
  match request with
  | Ask body newId => Partnerships.requestPartnership table user body newId
  | Accept id => Partnerships.accept table user id now
  | Decline id => Partnerships.decline table user id
  | EndIt id => Partnerships.endPartnership table user id now
  end.

(** The row a request addresses by its primary key. *)
Definition addressed (request : PartnerRequest) : option string :=
  match request with
  | Ask _ _ => None
  | Accept id | Decline id | EndIt id => Some id
  end.

(** Two versions of a row between the same users. *)
Definition sameParties (p p' : Partnerships.Partnership) : Prop :=
  Partnerships.p_id p' = Partnerships.p_id p /\
  Partnerships.requester_id p' = Partnerships.requester_id p /\
  Partnerships.receiver_id p' = Partnerships.receiver_id p /\
  Partnerships.request_message p' = Partnerships.request_message p.

(** The changes of status: a pending request is accepted or declined by
    its receiver, an accepted partnership is ended by one of its two
    users. *)
Definition transition (user : string) (now : Z)
    (p p' : Partnerships.Partnership) : Prop :=
  (Partnerships.status p = "pending" /\ Partnerships.receiver_id p = user /\
   Partnerships.status p' = "accepted" /\
   Partnerships.accepted_at p' = Some now /\
   Partnerships.ended_at p' = Partnerships.ended_at p)
  \/ (Partnerships.status p = "pending" /\ Partnerships.receiver_id p = user /\
      Partnerships.status p' = "declined" /\
      Partnerships.accepted_at p' = Partnerships.accepted_at p /\
      Partnerships.ended_at p' = Partnerships.ended_at p)
  \/ (Partnerships.status p = "accepted" /\
      Partnerships.involves user p = true /\
      Partnerships.status p' = "ended" /\
      Partnerships.accepted_at p' = Partnerships.accepted_at p /\
      Partnerships.ended_at p' = Some now).

(** Primary keys of the partnerships are pairwise distinct. *)
Definition distinctIds (table : list Partnerships.Partnership) : Prop :=
  NoDup (map Partnerships.p_id table).

(** No partnership of a user with themselves. *)
Definition noSelf (table : list Partnerships.Partnership) : Prop :=
  forall p, In p table -> Partnerships.requester_id p <> Partnerships.receiver_id p.

(** A pending request from [a] to [b]. *)
Definition pendingBetween (a b : string) (p : Partnerships.Partnership) : bool :=
  String.eqb (Partnerships.requester_id p) a
  && String.eqb (Partnerships.receiver_id p) b
  && String.eqb (Partnerships.status p) "pending".

(** At most one pending request from a user to another. *)
Definition onePending (table : list Partnerships.Partnership) : Prop :=
  forall a b, (List.length (filter (pendingBetween a b) table) <= 1)%nat.

(** The row [p] with another status and other time stamps. *)
Definition withStatus (p : Partnerships.Partnership) (s : string)
    (acc en : option Z) : Partnerships.Partnership :=
  Partnerships.mkPartnership (Partnerships.p_id p) (Partnerships.requester_id p)
    (Partnerships.receiver_id p) (Partnerships.request_message p) s acc en.

(** The rewrite of the rows that carry the primary key [id]. *)
Definition setStatus (id : string)
    (f : Partnerships.Partnership -> Partnerships.Partnership)
    (p : Partnerships.Partnership) : Partnerships.Partnership :=
  if String.eqb (Partnerships.p_id p) id then f p else p.

(** Sample partnerships: two pending requests to the same user. *)
Definition requestFrom (i from to : string) : Partnerships.Partnership :=
  Partnerships.mkPartnership i from to None "pending" None None.

Definition twoRequests : list Partnerships.Partnership :=
  [requestFrom "p-1" "user-2" "user-1"; requestFrom "p-2" "user-3" "user-1"].

(** A sequence of requests to the partnership routes, each with its
    caller and clock reading, applied one after the other. *)
Definition runPartnerRequests (table : list Partnerships.Partnership)
    (requests : list (string * PartnerRequest * Z))
    : list Partnerships.Partnership :=
  fold_left
    (fun t request =>
       match request with
       | (user, r, now) => fst (partnerStep t user r now)
       end)
    requests table.

(** *** Habits *)

(** A request to one of the habit routes that write. *)
Inductive HabitRequest :=
| Create (body : Habits.Body) (newId : string)
| Update (id : string) (body : Habits.UpdateBody)
| Archive (id : string).

Definition habitStep (habits : list Habits.HabitRow) (user : string)
    (request : HabitRequest) (now : Z)
    : list Habits.HabitRow * Habits.Response :=
  match request with
  | Create body newId => Habits.createHabit habits user body now newId
  | Update id body => Habits.updateHabit habits user id body
  | Archive id => Habits.archiveHabit habits user id now
  end.

(** An active habit of user [u]. *)
Definition activeOf (u : string) (h : Habits.HabitRow) : bool :=
  String.eqb (Habits.hr_user_id h) u && Bool.eqb (Habits.is_active h) true.

(** At most one active habit per user. *)
Definition oneActive (habits : list Habits.HabitRow) : Prop :=
  forall u, (List.length (filter (activeOf u) habits) <= 1)%nat.

(** Primary keys of the habits are pairwise distinct. *)
Definition distinctHabitIds (habits : list Habits.HabitRow) : Prop :=
  NoDup (map Habits.hr_id habits).

(** Two versions of a habit: what no route changes, and activity never
    coming back. *)
Definition sameHabit (h h' : Habits.HabitRow) : Prop :=
  Habits.hr_id h' = Habits.hr_id h /\
  Habits.hr_user_id h' = Habits.hr_user_id h /\
  Habits.category h' = Habits.category h /\
  Habits.hr_start_date h' = Habits.hr_start_date h /\
  (Habits.is_active h = false -> Habits.is_active h' = false).

(** The rewrite of the habits that carry the primary key [id]. *)
Definition setHabit (id : string) (f : Habits.HabitRow -> Habits.HabitRow)
    (h : Habits.HabitRow) : Habits.HabitRow :=
  if String.eqb (Habits.hr_id h) id then f h else h.

(** What [PUT /:id] and [POST /:id/archive] write. *)
Definition updated (body : Habits.UpdateBody) (h : Habits.HabitRow)
    : Habits.HabitRow :=
  Habits.mkHabitRow (Habits.hr_id h) (Habits.hr_user_id h)
    match Habits.u_habit_name body with
    | Some habit_name => habit_name
    | None => Habits.hr_habit_name h
    end
    (Habits.category h) (Habits.hr_start_date h)
    match Habits.u_privacy_setting body with
    | Some s => s
    | None => Habits.privacy_setting h
    end
    (Habits.is_active h) (Habits.archived_at h).

Definition archived (now : Z) (h : Habits.HabitRow) : Habits.HabitRow :=
  Habits.mkHabitRow (Habits.hr_id h) (Habits.hr_user_id h)
    (Habits.hr_habit_name h) (Habits.category h) (Habits.hr_start_date h)
    (Habits.privacy_setting h) false (Some now).

(** Sample habit rows and bodies. *)
Definition runningBody : Habits.Body :=
  Habits.mkBody (Some "Morning run") (Some "Health") None None.

Definition archivedRun : Habits.HabitRow :=
  Habits.mkHabitRow "habit-0" "user-1" "Evening walk" "Health" 19600 "private"
    false (Some 0).

(** *** Browsing partners *)

(** An accepted partnership of [user]. *)
Definition acceptedWith (user : string) (p : Partnerships.Partnership) : bool :=
  Partnerships.involves user p && String.eqb (Partnerships.status p) "accepted".

(** Sample data: three users with a public habit each and a profile. *)
Definition publicHabit (i u : string) : Habits.HabitRow :=
  Habits.mkHabitRow i u "Morning run" "Health" 19700 "public" true None.

Definition threeHabits : list Habits.HabitRow :=
  [publicHabit "habit-1" "user-1"; publicHabit "habit-2" "user-2";
   publicHabit "habit-3" "user-3"].

Definition threeProfiles : list PartnerBrowse.Profile :=
  [PartnerBrowse.mkProfile "user-1" (Some "Ann");
   PartnerBrowse.mkProfile "user-2" (Some "Bob");
   PartnerBrowse.mkProfile "user-3" None].

(** An accepted partnership between two users. *)
Definition partnersNow (i a b : string) : Partnerships.Partnership :=
  Partnerships.mkPartnership i a b None "accepted" (Some 0) None.

(* ------------------------------------------------------------------ *)
(** * Properties *)

(* ------------------------------------------------------------------ *)
(** ** Dates: basic facts *)

Lemma msPerDay_pos : 0 < msPerDay.
Proof. reflexivity. Qed.

Lemma toISODate_parseDate (d : IsoDate) : toISODate (parseDate d) = d.
Proof. unfold toISODate, parseDate. apply Z.div_mul. discriminate. Qed.

Lemma toISODate_addDays (t : Date) (k : Z) :
  toISODate (addDays t k) = toISODate t + k.
Proof. unfold toISODate, addDays. apply Z.div_add. discriminate. Qed.

Lemma toISODate_setHours0 (t : Date) : toISODate (setHours0 t) = toISODate t.
Proof. unfold toISODate, setHours0. apply Z.div_mul. discriminate. Qed.

Lemma parseDate_lt (a b : IsoDate) : parseDate a < parseDate b <-> a < b.
Proof. unfold parseDate. pose proof msPerDay_pos. nia. Qed.

(** A timestamp at midnight is later than [now] exactly when its day is
    after today. *)
Lemma midnight_gt_now (d : IsoDate) (now : Date) :
  parseDate d > now <-> d > toISODate now.
Proof.
  unfold parseDate, toISODate.
  pose proof msPerDay_pos as Hp.
  pose proof (Z.div_mod now msPerDay ltac:(lia)) as Hdm.
  pose proof (Z.mod_pos_bound now msPerDay Hp) as Hb.
  nia.
Qed.

(* ------------------------------------------------------------------ *)
(** ** The backward walk *)

Section WalkBackFacts.
Variable has : IsoDate -> bool.

Lemma walkBack_sound (fuel : nat) :
  forall t s r,
    walkBack has fuel t s = Some r ->
    exists n, 0 <= n /\ r = s + n /\
      (forall j, 0 <= j < n -> has (toISODate t - j) = true) /\
      has (toISODate t - n) = false.
Proof.
  induction fuel as [|fuel IH]; intros t s r H; simpl in H; [discriminate|].
  destruct (has (toISODate t)) eqn:Ht.
  - apply IH in H. destruct H as (n & Hn & Hr & Hall & Hstop).
    rewrite toISODate_addDays in Hall, Hstop.
    exists (n + 1). repeat split; try lia.
    + intros j Hj. destruct (Z.eq_dec j 0) as [->|Hne].
      * now rewrite Z.sub_0_r.
      * replace (toISODate t - j) with (toISODate t + -1 - (j - 1)) by lia.
        apply Hall. lia.
    + replace (toISODate t - (n + 1)) with (toISODate t + -1 - n) by lia.
      exact Hstop.
  - inversion H; subst. exists 0. repeat split; try lia.
    now rewrite Z.sub_0_r.
Qed.

Lemma walkBack_complete (n : nat) :
  forall fuel t s,
    (forall j, 0 <= j < Z.of_nat n -> has (toISODate t - j) = true) ->
    has (toISODate t - Z.of_nat n) = false ->
    (n < fuel)%nat ->
    walkBack has fuel t s = Some (s + Z.of_nat n).
Proof.
  induction n as [|n IH]; intros fuel t s Hall Hstop Hfuel;
    (destruct fuel as [|fuel]; [lia|]); simpl.
  - simpl in Hstop. rewrite Z.sub_0_r in Hstop. rewrite Hstop.
    f_equal. lia.
  - rewrite <- (Z.sub_0_r (toISODate t)). rewrite Hall by lia.
    rewrite IH.
    + f_equal. lia.
    + intros j Hj. rewrite toISODate_addDays.
      replace (toISODate t + -1 - j) with (toISODate t - (j + 1)) by lia.
      apply Hall. lia.
    + rewrite toISODate_addDays.
      replace (toISODate t + -1 - Z.of_nat n)
        with (toISODate t - Z.of_nat (S n)) by lia.
      exact Hstop.
    + lia.
Qed.

Lemma walkBack_exhausted (fuel : nat) :
  forall t s,
    walkBack has fuel t s = None ->
    forall j, 0 <= j < Z.of_nat fuel -> has (toISODate t - j) = true.
Proof.
  induction fuel as [|fuel IH]; intros t s H j Hj; [lia|].
  simpl in H. destruct (has (toISODate t)) eqn:Ht; [|discriminate].
  destruct (Z.eq_dec j 0) as [->|Hne].
  - now rewrite Z.sub_0_r.
  - specialize (IH _ _ H (j - 1) ltac:(lia)).
    rewrite toISODate_addDays in IH.
    replace (toISODate t - j) with (toISODate t + -1 - (j - 1)) by lia.
    exact IH.
Qed.

(** Days going back from [d]: [d; d-1; ...]. *)
Lemma days_back_NoDup (d : Z) (n : nat) :
  NoDup (map (fun j => d - Z.of_nat j) (seq 0 n)).
Proof.
  apply Injective_map_NoDup; [|apply seq_NoDup].
  intros a b Hab. lia.
Qed.

(** When every day that passes the test is one of finitely many dates,
    the walk stops within as many steps as there are dates. *)
Lemma walkBack_terminates (dates : list IsoDate) (fuel : nat) (t : Date) (s : Z) :
  (forall d, has d = true -> In d dates) ->
  (List.length dates < fuel)%nat ->
  exists r, walkBack has fuel t s = Some r.
Proof.
  intros Hin Hfuel.
  destruct (walkBack has fuel t s) as [r|] eqn:Hw; [now exists r|].
  exfalso.
  pose proof (walkBack_exhausted _ _ _ Hw) as Hall.
  assert (Hincl : incl (map (fun j => toISODate t - Z.of_nat j) (seq 0 fuel)) dates).
  { intros x Hx. apply in_map_iff in Hx. destruct Hx as (j & <- & Hj).
    apply in_seq in Hj. apply Hin, Hall. lia. }
  apply NoDup_incl_length in Hincl; [|apply days_back_NoDup].
  rewrite length_map, length_seq in Hincl. lia.
Qed.

End WalkBackFacts.

(* ------------------------------------------------------------------ *)
(** ** Queries on the store *)

Lemma insert_by_date_perm (r : CheckIn) (l : list CheckIn) :
  Permutation (r :: l) (insert_by_date r l).
Proof.
  induction l as [|a l IH]; simpl; [reflexivity|].
  destruct (date r <=? date a); [reflexivity|].
  rewrite perm_swap. now constructor.
Qed.

Lemma order_by_date_perm (l : list CheckIn) : Permutation l (order_by_date l).
Proof.
  induction l as [|a l IH]; simpl; [constructor|].
  rewrite <- insert_by_date_perm. now constructor.
Qed.

Lemma order_by_date_In (c : CheckIn) (l : list CheckIn) :
  In c (order_by_date l) <-> In c l.
Proof.
  split; apply Permutation_in;
    [symmetry|]; apply order_by_date_perm.
Qed.

Lemma order_by_date_length (l : list CheckIn) :
  List.length (order_by_date l) = List.length l.
Proof. symmetry. apply Permutation_length, order_by_date_perm. Qed.

Lemma insert_by_date_sorted (r : CheckIn) (l : list CheckIn) :
  StronglySorted date_le l -> StronglySorted date_le (insert_by_date r l).
Proof.
  induction 1 as [|a l Hs IH Hall]; simpl.
  - repeat constructor.
  - destruct (date r <=? date a) eqn:Hle.
    + apply Z.leb_le in Hle. constructor; [now constructor|].
      constructor; [exact Hle|].
      eapply Forall_impl; [|exact Hall].
      intros b Hb. unfold date_le in *. lia.
    + apply Z.leb_gt in Hle. constructor; [exact IH|].
      eapply Permutation_Forall; [apply insert_by_date_perm|].
      constructor; [unfold date_le; lia | exact Hall].
Qed.

Lemma order_by_date_sorted (l : list CheckIn) :
  StronglySorted date_le (order_by_date l).
Proof.
  induction l as [|a l IH]; simpl; [constructor|].
  now apply insert_by_date_sorted.
Qed.

(** A list sorted by date whose dates are pairwise distinct is strictly
    increasing. *)
Lemma sorted_distinct_strict (l : list CheckIn) :
  StronglySorted date_le l -> NoDup (map date l) -> StronglySorted date_lt l.
Proof.
  induction 1 as [|a l Hs IH Hall]; intros Hnd; [constructor|].
  simpl in Hnd. inversion Hnd as [|? ? Hnotin Hnd']; subst.
  constructor; [now apply IH|].
  rewrite Forall_forall in *. intros b Hb.
  specialize (Hall b Hb). unfold date_le, date_lt in *.
  assert (date a <> date b).
  { intros Heq. apply Hnotin. rewrite Heq. now apply in_map. }
  lia.
Qed.

(** Under the invariant, the rows of one habit that a query selects have
    pairwise distinct dates. *)
Lemma unique_dates_of_habit (p : CheckIn -> bool) (h : string)
    (table : list CheckIn) :
  unique_per_day table ->
  (forall c, p c = true -> habit_id c = h) ->
  NoDup (map date (filter p table)).
Proof.
  unfold unique_per_day. intros Hu Hp.
  induction table as [|a l IH]; simpl; [constructor|].
  simpl in Hu. inversion Hu as [|? ? Hnotin Hu']; subst.
  destruct (p a) eqn:Hpa; [|now apply IH].
  simpl. constructor; [|now apply IH].
  intros Hin. apply in_map_iff in Hin. destruct Hin as (b & Hdate & Hb).
  apply filter_In in Hb. destruct Hb as [Hbl Hpb].
  apply Hnotin. apply in_map_iff. exists b. split; [|exact Hbl].
  unfold recordKey. rewrite Hdate, (Hp _ Hpa), (Hp _ Hpb). reflexivity.
Qed.

Lemma order_by_date_strict (p : CheckIn -> bool) (h : string)
    (table : list CheckIn) :
  unique_per_day table ->
  (forall c, p c = true -> habit_id c = h) ->
  StronglySorted date_lt (order_by_date (filter p table)).
Proof.
  intros Hu Hp. apply sorted_distinct_strict; [apply order_by_date_sorted|].
  eapply Permutation_NoDup.
  - apply Permutation_map, order_by_date_perm.
  - eapply unique_dates_of_habit; eassumption.
Qed.

(** Under the invariant, a query pinned to one (habit, date) matches at
    most one row. *)
Lemma at_most_one_match (p : CheckIn -> bool) (k : string * Z)
    (table : list CheckIn) :
  unique_per_day table ->
  (forall c, p c = true -> recordKey c = k) ->
  (List.length (filter p table) <= 1)%nat.
Proof.
  unfold unique_per_day. intros Hu Hp.
  induction table as [|a l IH]; simpl; [lia|].
  simpl in Hu. inversion Hu as [|? ? Hnotin Hu']; subst.
  destruct (p a) eqn:Hpa; [|now apply IH].
  assert (Hnil : filter p l = []).
  { destruct (filter p l) as [|b l'] eqn:Hf; [reflexivity|exfalso].
    assert (Hb : In b (filter p l)) by (rewrite Hf; now left).
    apply filter_In in Hb. destruct Hb as [Hbl Hpb].
    apply Hnotin. rewrite (Hp _ Hpa), <- (Hp _ Hpb). now apply in_map. }
  rewrite Hnil. simpl. lia.
Qed.

Lemma existsb_filter_nonempty {A : Type} (p : A -> bool) (l : list A) :
  existsb p l = match filter p l with [] => false | _ :: _ => true end.
Proof.
  induction l as [|a l IH]; simpl; [reflexivity|].
  destruct (p a); simpl; [reflexivity|exact IH].
Qed.

Lemma isSome_single {A : Type} (p : A -> bool) (l : list A) :
  (List.length (filter p l) <= 1)%nat ->
  isSome (single (filter p l)) = existsb p l.
Proof.
  rewrite existsb_filter_nonempty.
  destruct (filter p l) as [|a [|b l']]; simpl; intros H; try reflexivity; lia.
Qed.

Lemma isSome_find {A : Type} (p : A -> bool) (l : list A) :
  isSome (find p l) = existsb p l.
Proof.
  induction l as [|a l IH]; simpl; [reflexivity|].
  destruct (p a); simpl; [reflexivity|exact IH].
Qed.

Lemma existsb_pointwise {A : Type} (p q : A -> bool) (l : list A) :
  (forall a, p a = q a) -> existsb p l = existsb q l.
Proof.
  intros H. induction l as [|a l IH]; simpl; [reflexivity|].
  now rewrite H, IH.
Qed.

Lemma existsb_filter {A : Type} (p q : A -> bool) (l : list A) :
  existsb p (filter q l) = existsb (fun a => q a && p a) l.
Proof.
  induction l as [|a l IH]; simpl; [reflexivity|].
  destruct (q a); simpl; now rewrite IH.
Qed.

Lemma existsb_order_by_date (p : CheckIn -> bool) (l : list CheckIn) :
  existsb p (order_by_date l) = existsb p l.
Proof.
  apply Bool.eq_iff_eq_true. rewrite !existsb_exists.
  split; intros (c & Hc & Hp); exists c; split; try exact Hp;
    now apply order_by_date_In.
Qed.

(** The point query of [calculateStreak] succeeds, under the invariant,
    exactly on the days that have a completed record. *)
Lemma point_query_hasCompleted (table : list CheckIn) (h : string) (d : Z) :
  unique_per_day table ->
  isSome (single (filter (fun c => String.eqb (habit_id c) h
                                   && (date c =? d)
                                   && Bool.eqb (completed c) true) table))
  = hasCompleted table h d.
Proof.
  intros Hu. rewrite isSome_single.
  - unfold hasCompleted. apply existsb_pointwise.
    intros c. now destruct (completed c).
  - apply at_most_one_match with (k := (h, d)); [exact Hu|].
    intros c Hc. apply andb_prop in Hc. destruct Hc as [Hc _].
    apply andb_prop in Hc. destruct Hc as [Hh Hd].
    apply String.eqb_eq in Hh. apply Z.eqb_eq in Hd.
    unfold recordKey. now rewrite Hh, Hd.
Qed.

(** The [find] of the overview loop succeeds exactly on the days that have
    a completed record. *)
Lemma find_hasCompleted (table : list CheckIn) (h : string) (d : Z) :
  isSome (find (fun c => (date c =? d) && completed c)
               (Analytics.allCheckIns table h))
  = hasCompleted table h d.
Proof.
  unfold Analytics.allCheckIns, hasCompleted.
  rewrite isSome_find, existsb_order_by_date, existsb_filter.
  apply existsb_pointwise. intros c. now rewrite andb_assoc.
Qed.

Lemma hasCompleted_In (table : list CheckIn) (h : string) (d : Z) :
  hasCompleted table h d = true ->
  exists c, In c table /\ habit_id c = h /\ date c = d /\ completed c = true.
Proof.
  unfold hasCompleted. rewrite existsb_exists.
  intros (c & Hc & Hp). exists c.
  apply andb_prop in Hp. destruct Hp as [Hp Hdone].
  apply andb_prop in Hp. destruct Hp as [Hh Hd].
  apply String.eqb_eq in Hh. apply Z.eqb_eq in Hd. auto.
Qed.

(* ------------------------------------------------------------------ *)
(** ** Current streak *)

Lemma walkBack_ext (has has' : Z -> bool) :
  (forall d, has d = has' d) ->
  forall fuel t s, walkBack has fuel t s = walkBack has' fuel t s.
Proof.
  intros H. induction fuel as [|fuel IH]; intros t s; simpl; [reflexivity|].
  now rewrite H, IH.
Qed.

Lemma calculateStreak_loop_walk (table : list CheckIn) (h : string) :
  unique_per_day table ->
  forall fuel t s,
    Checkins.calculateStreak_loop fuel table h t s
    = walkBack (hasCompleted table h) fuel t s.
Proof.
  intros Hu. induction fuel as [|fuel IH]; intros t s; simpl; [reflexivity|].
  rewrite <- (point_query_hasCompleted table h (toISODate t) Hu).
  destruct (single _); simpl; [apply IH|reflexivity].
Qed.

Lemma currentStreak_loop_walk (table : list CheckIn) (h : string) :
  forall fuel t s,
    Analytics.currentStreak_loop fuel (Analytics.allCheckIns table h) t s
    = walkBack (hasCompleted table h) fuel t s.
Proof.
  induction fuel as [|fuel IH]; intros t s; simpl; [reflexivity|].
  rewrite <- (find_hasCompleted table h (toISODate t)).
  destruct (find _ _); simpl; [apply IH|reflexivity].
Qed.

Lemma hasCompleted_date (table : list CheckIn) (h : string) (d : Z) :
  hasCompleted table h d = true -> In d (map date table).
Proof.
  intros H. apply hasCompleted_In in H.
  destruct H as (c & Hc & _ & Hd & _). rewrite <- Hd. now apply in_map.
Qed.

(** With more fuel than there are rows, the walk over the completed days
    of a habit returns the length of the run of completed days that ends
    on the starting day. *)
Lemma streak_walk_total (table : list CheckIn) (h : string) (fuel : nat) (t : Z) :
  (List.length table < fuel)%nat ->
  exists n, 0 <= n /\
    walkBack (hasCompleted table h) fuel t 0 = Some n /\
    (forall j, 0 <= j < n -> hasCompleted table h (toISODate t - j) = true) /\
    hasCompleted table h (toISODate t - n) = false.
Proof.
  intros Hfuel.
  destruct (walkBack_terminates (hasCompleted table h) (map date table) fuel t 0)
    as [r Hr].
  - intros d. apply hasCompleted_date.
  - now rewrite length_map.
  - destruct (walkBack_sound _ _ _ _ _ Hr) as (n & Hn & -> & Hall & Hstop).
    exists n. rewrite Hr. simpl. auto.
Qed.

(** The length of the run of days passing a test that ends on day [d] is
    determined by the test. *)
Lemma run_length_unique (has : Z -> bool) (d n m : Z) :
  0 <= n -> 0 <= m ->
  (forall j, 0 <= j < n -> has (d - j) = true) -> has (d - n) = false ->
  (forall j, 0 <= j < m -> has (d - j) = true) -> has (d - m) = false ->
  n = m.
Proof.
  intros Hn Hm Hall Hstop Hall' Hstop'.
  destruct (Z.lt_trichotomy n m) as [Hlt|[Heq|Hgt]]; [|exact Heq|].
  - rewrite Hall' in Hstop by lia. discriminate.
  - rewrite Hall in Hstop' by lia. discriminate.
Qed.

(** Both current-streak loops return the same number [n]: the length of
    the run of completed days that ends today. *)
Lemma current_streak_run (table : list CheckIn) (h : string) (now : Z) (fuel : nat) :
  unique_per_day table ->
  (List.length table < fuel)%nat ->
  exists n,
    Checkins.calculateStreak fuel table h now = Some n /\
    Analytics.currentStreak_loop fuel (Analytics.allCheckIns table h)
      (parseDate (toISODate now)) 0 = Some n /\
    0 <= n /\
    (forall j, 0 <= j < n -> hasCompleted table h (toISODate now - j) = true) /\
    hasCompleted table h (toISODate now - n) = false.
Proof.
  intros Hu Hfuel.
  destruct (streak_walk_total table h fuel (setHours0 now) Hfuel)
    as (n & Hn & Hwalk & Hall & Hstop).
  rewrite toISODate_setHours0 in Hall, Hstop.
  exists n. split; [|split; [|auto]].
  - unfold Checkins.calculateStreak. now rewrite calculateStreak_loop_walk.
  - rewrite currentStreak_loop_walk.
    destruct (streak_walk_total table h fuel (parseDate (toISODate now)) Hfuel)
      as (m & Hm & Hwalk' & Hall' & Hstop').
    rewrite toISODate_parseDate in Hall', Hstop'.
    rewrite Hwalk'. f_equal.
    now apply (run_length_unique (hasCompleted table h) (toISODate now)).
Qed.

(** C2. Both current-streak computations ([calculateStreak] behind
    [GET /:habitId/streak], and the loop of [GET /overview]) terminate on
    every stored history with at most one record per (habit, date), and
    return the number [n] of consecutive days, walking back from today,
    that have a record with [completed = true]: the days today, ...,
    today-(n-1) have one and day today-n has none.  Hence the streak is 0
    when today has no completed record, whatever yesterday holds, and it is
    3 when today, today-1 and today-2 have one and today-3 has none. *)
Theorem current_streak_counts_back_from_today :
  forall (table : list CheckIn) (habit : Habit) (now : Z) (fuel : nat),
    unique_per_day table ->
    (List.length table < fuel)%nat ->
    let today := toISODate now in
    let has := hasCompleted table (h_id habit) in
    exists n info o,
      Checkins.calculateStreak fuel table (h_id habit) now = Some n /\
      Checkins.getStreak fuel table (h_id habit) now = Some info /\
      Checkins.current_streak info = n /\
      Analytics.overview fuel habit table now = Some o /\
      Analytics.current_streak o = n /\
      0 <= n /\
      (forall j, 0 <= j < n -> has (today - j) = true) /\
      has (today - n) = false /\
      (has today = false -> n = 0) /\
      (has today = true -> has (today - 1) = true -> has (today - 2) = true ->
       has (today - 3) = false -> n = 3).
Proof.
  intros table habit now fuel Hu Hfuel today has.
  destruct (current_streak_run table (h_id habit) now fuel Hu Hfuel)
    as (n & Hcalc & Hloop & Hn & Hall & Hstop).
  exists n.
  unfold Checkins.getStreak, Analytics.overview.
  rewrite Hcalc, Hloop.
  eexists. eexists.
  split; [reflexivity|]. split; [reflexivity|]. split; [reflexivity|].
  split; [reflexivity|]. split; [reflexivity|].
  split; [exact Hn|]. split; [exact Hall|]. split; [exact Hstop|].
  subst today has. split.
  - intros H0.
    apply (run_length_unique (hasCompleted table (h_id habit)) (toISODate now));
      auto; try lia.
    now rewrite Z.sub_0_r.
  - intros H0 H1 H2 H3.
    apply (run_length_unique (hasCompleted table (h_id habit)) (toISODate now));
      auto; try lia.
    intros j Hj.
    assert (Hcases : j = 0 \/ j = 1 \/ j = 2) by lia.
    destruct Hcases as [-> | [-> | ->]]; auto.
    now rewrite Z.sub_0_r.
Qed.

(* ------------------------------------------------------------------ *)
(** ** Longest streak: the scan of GET /:habitId/streak *)

Lemma daysDiff_exact (a b : Z) :
  (getTime (parseDate a) - getTime (parseDate b)) / (1000 * 60 * 60 * 24) = a - b.
Proof.
  unfold getTime, parseDate, msPerDay.
  replace (a * (1000 * 60 * 60 * 24) - b * (1000 * 60 * 60 * 24))
    with ((a - b) * (1000 * 60 * 60 * 24)) by lia.
  apply Z.div_mul. discriminate.
Qed.

(** The step of the scan, once a previous date [y] is there: a gap of
    exactly one day extends the run, any other gap starts a new run. *)
Lemma scanStep_after (st : Checkins.Scan) (c : CheckIn) (y : Z) :
  Checkins.lastDate st = Some (parseDate y) ->
  Checkins.scanStep st c =
  if date c - y =? 1
  then Checkins.mkScan (Checkins.longestStreak st)
         (Checkins.currentCount st + 1) (Some (parseDate (date c)))
  else Checkins.mkScan (Z.max (Checkins.longestStreak st) (Checkins.currentCount st))
         1 (Some (parseDate (date c))).
Proof.
  intros Hlast. unfold Checkins.scanStep. rewrite Hlast.
  now rewrite daysDiff_exact.
Qed.

Lemma scanFinal_mono (l : list CheckIn) :
  forall st y,
    Checkins.lastDate st = Some (parseDate y) ->
    scanFinal st <= scanFinal (fold_left Checkins.scanStep l st).
Proof.
  induction l as [|z l IH]; intros st y Hlast; simpl; [lia|].
  rewrite (scanStep_after st z y Hlast).
  destruct (date z - y =? 1).
  - etransitivity; [|eapply IH; reflexivity]. unfold scanFinal; simpl. lia.
  - etransitivity; [|eapply IH; reflexivity]. unfold scanFinal; simpl. lia.
Qed.

(** Scanning strictly increasing dates that all lie after the last date
    [y] seen: if every day of the [k] days ending on some scanned day [X]
    is either still to be scanned or belongs to the current run (the
    [currentCount] days ending on [y]), the result is at least [k]. *)
Lemma scan_covers_run (l : list CheckIn) :
  forall st y,
    StronglySorted date_lt l ->
    Checkins.lastDate st = Some (parseDate y) ->
    (forall c, In c l -> y < date c) ->
    0 <= Checkins.currentCount st ->
    forall X k,
      X = y \/ In X (map date l) ->
      (forall v, X - k < v <= X ->
         In v (map date l) \/ y - Checkins.currentCount st < v <= y) ->
      k <= scanFinal (fold_left Checkins.scanStep l st).
Proof.
  induction l as [|z l IH]; intros st y Hsorted Hlast Hafter Hcount X k HX Hcov.
  - simpl. destruct HX as [->|[]].
    assert (k <= Checkins.currentCount st).
    { destruct (Z_le_gt_dec k 0) as [|Hk]; [lia|].
      destruct (Hcov (y - k + 1) ltac:(lia)) as [[]|Hv]. lia. }
    unfold scanFinal. lia.
  - destruct HX as [->|HX].
    + assert (k <= Checkins.currentCount st).
      { destruct (Z_le_gt_dec k 0) as [|Hk]; [lia|].
        destruct (Hcov (y - k + 1) ltac:(lia)) as [Hin|Hv]; [|lia].
        apply in_map_iff in Hin. destruct Hin as (c & Hc & Hin).
        specialize (Hafter c Hin). lia. }
      etransitivity; [|eapply scanFinal_mono; eassumption].
      unfold scanFinal. lia.
    + inversion Hsorted as [|? ? Hsorted' Hall]; subst.
      rewrite Forall_forall in Hall. unfold date_lt in Hall.
      assert (Hyz : y < date z) by (apply Hafter; now left).
      assert (HXz : date z <= X).
      { simpl in HX. destruct HX as [<-|HX]; [lia|].
        apply in_map_iff in HX. destruct HX as (c & <- & Hc).
        specialize (Hall c Hc). lia. }
      assert (Hnot : forall v, v < date z -> ~ In v (map date (z :: l))).
      { intros v Hv [Heq|Hin]; [lia|].
        apply in_map_iff in Hin. destruct Hin as (c & Hc & Hin).
        specialize (Hall c Hin). lia. }
      assert (HX' : X = date z \/ In X (map date l)).
      { simpl in HX. destruct HX as [Heq|HX]; [left; lia|now right]. }
      simpl. rewrite (scanStep_after st z y Hlast).
      destruct (date z - y =? 1) eqn:Hgap.
      * apply Z.eqb_eq in Hgap.
        apply IH with (y := date z) (X := X); simpl;
          [exact Hsorted'|reflexivity|exact Hall|lia|exact HX'|].
        intros v Hv. destruct (Hcov v Hv) as [[Heq|Hin]|Hrun];
          [right; lia|now left|right; lia].
      * apply Z.eqb_neq in Hgap.
        apply IH with (y := date z) (X := X); simpl;
          [exact Hsorted'|reflexivity|exact Hall|lia|exact HX'|].
        intros v Hv. destruct (Hcov v Hv) as [[Heq|Hin]|Hrun];
          [right; lia|now left|].
        exfalso.
        destruct (Hcov (date z - 1) ltac:(lia)) as [Hin|Hrun']; [|lia].
        apply (Hnot (date z - 1)); [lia|exact Hin].
Qed.

Lemma scanLongest_nonneg (l : list CheckIn) : 0 <= Checkins.scanLongest l.
Proof.
  unfold Checkins.scanLongest. destruct l as [|z l]; simpl; [lia|].
  change (0 <= scanFinal (fold_left Checkins.scanStep l
            (Checkins.mkScan 0 1 (Some (parseDate (date z)))))).
  etransitivity; [|eapply scanFinal_mono; reflexivity].
  unfold scanFinal; simpl. lia.
Qed.

(** On strictly increasing dates the scan returns at least the length of
    every run of consecutive days present in the list. *)
Lemma scanLongest_ge_run (l : list CheckIn) (X k : Z) :
  StronglySorted date_lt l ->
  In X (map date l) ->
  (forall v, X - k < v <= X -> In v (map date l)) ->
  k <= Checkins.scanLongest l.
Proof.
  intros Hsorted HX Hcov.
  destruct l as [|z l]; [destruct HX|].
  inversion Hsorted as [|? ? Hsorted' Hall]; subst.
  rewrite Forall_forall in Hall.
  unfold Checkins.scanLongest. simpl fold_left.
  change (k <= scanFinal (fold_left Checkins.scanStep l
            (Checkins.mkScan 0 1 (Some (parseDate (date z)))))).
  apply scan_covers_run with (y := date z) (X := X); simpl;
    [exact Hsorted'|reflexivity|exact Hall|lia| |].
  - destruct HX as [Heq|HX]; [left; lia|now right].
  - intros v Hv. destruct (Hcov v Hv) as [Heq|Hin]; [right; lia|now left].
Qed.

(* ------------------------------------------------------------------ *)
(** ** Longest streak: the loop of GET /overview *)

Lemma longestStep_mono (l : list CheckIn) :
  forall st, fst st <= fst (fold_left Analytics.longestStep l st).
Proof.
  induction l as [|z l IH]; intros [longest temp]; simpl; [lia|].
  destruct (completed z); (etransitivity; [|apply IH]); simpl; lia.
Qed.

(** Scanning records with strictly increasing dates that all lie after
    [y]: if every day of the [k] days ending on a day [X] (either [y] or a
    date still to be scanned) has a completed record still to be scanned or
    is one of the [tempStreak] days ending on [y], the result is at least
    [k]. *)
Lemma overview_covers_run (l : list CheckIn) :
  forall st y,
    StronglySorted date_lt l ->
    (forall c, In c l -> y < date c) ->
    0 <= snd st <= fst st ->
    forall X k,
      X = y \/ In X (map date l) ->
      (forall v, X - k < v <= X ->
         (exists r, In r l /\ date r = v /\ completed r = true)
         \/ y - snd st < v <= y) ->
      k <= fst (fold_left Analytics.longestStep l st).
Proof.
  induction l as [|z l IH];
    intros [longest temp] y Hsorted Hafter Hst X k HX Hcov; simpl in Hst.
  - simpl. destruct HX as [->|[]].
    destruct (Z_le_gt_dec k 0) as [|Hk]; [lia|].
    destruct (Hcov (y - k + 1) ltac:(lia)) as [(r & [] & _)|Hv].
    simpl in Hv. lia.
  - destruct HX as [->|HX].
    + assert (k <= temp).
      { destruct (Z_le_gt_dec k 0) as [|Hk]; [lia|].
        destruct (Hcov (y - k + 1) ltac:(lia)) as [(r & Hr & Hd & _)|Hv];
          [|simpl in Hv; lia].
        specialize (Hafter r Hr). lia. }
      etransitivity; [|apply longestStep_mono]. simpl. lia.
    + inversion Hsorted as [|? ? Hsorted' Hall]; subst.
      rewrite Forall_forall in Hall. unfold date_lt in Hall.
      assert (Hyz : y < date z) by (apply Hafter; now left).
      assert (HX' : X = date z \/ In X (map date l)).
      { simpl in HX. destruct HX as [Heq|HX]; [left; lia|now right]. }
      assert (HXz : date z <= X).
      { destruct HX' as [->|HX']; [lia|].
        apply in_map_iff in HX'. destruct HX' as (c & <- & Hc).
        specialize (Hall c Hc). lia. }
      simpl fold_left.
      destruct (completed z) eqn:Hdone.
      * apply IH with (y := date z) (X := X); simpl;
          [exact Hsorted'|exact Hall|lia|exact HX'|].
        intros v Hv.
        destruct (Hcov v Hv) as [(r & [<-|Hr] & Hd & Hc)|Hrun];
          [right; lia|left; now exists r|].
        simpl in Hrun.
        destruct (Z.eq_dec (date z) (y + 1)) as [Heq|Hne]; [right; lia|].
        exfalso.
        destruct (Hcov (y + 1) ltac:(lia)) as [(r & [<-|Hr] & Hd & _)|Hrun'];
          [lia| |simpl in Hrun'; lia].
        specialize (Hall r Hr). lia.
      * apply IH with (y := date z) (X := X); simpl;
          [exact Hsorted'|exact Hall|lia|exact HX'|].
        intros v Hv.
        destruct (Hcov v Hv) as [(r & [<-|Hr] & Hd & Hc)|Hrun];
          [congruence|left; now exists r|].
        simpl in Hrun. exfalso.
        destruct (Hcov (date z) ltac:(lia)) as [(r & [<-|Hr] & Hd & Hc)|Hrun'];
          [congruence| |simpl in Hrun'; lia].
        specialize (Hall r Hr). lia.
Qed.

Lemma longestStreakOf_nonneg (l : list CheckIn) : 0 <= Analytics.longestStreakOf l.
Proof. unfold Analytics.longestStreakOf. apply (longestStep_mono l (0, 0)). Qed.

(** On records with strictly increasing dates the overview loop returns
    at least the length of every run of consecutive days that all have a
    completed record. *)
Lemma longestStreakOf_ge_run (l : list CheckIn) (X k : Z) :
  StronglySorted date_lt l ->
  In X (map date l) ->
  (forall v, X - k < v <= X ->
     exists r, In r l /\ date r = v /\ completed r = true) ->
  k <= Analytics.longestStreakOf l.
Proof.
  intros Hsorted HX Hcov.
  destruct l as [|z l]; [destruct HX|].
  unfold Analytics.longestStreakOf.
  apply overview_covers_run with (y := date z - 1) (X := X); simpl.
  - exact Hsorted.
  - inversion Hsorted as [|? ? _ Hall]; subst.
    rewrite Forall_forall in Hall. unfold date_lt in Hall.
    intros c [<-|Hc]; [lia|]. specialize (Hall c Hc). lia.
  - lia.
  - now right.
  - intros v Hv. left. now apply Hcov.
Qed.

(* ------------------------------------------------------------------ *)
(** ** Longest streak against current streak *)

Lemma hasCompleted_in_completed (table : list CheckIn) (h : string) (d : Z) :
  hasCompleted table h d = true ->
  exists c, In c (Checkins.completedCheckIns table h)
            /\ date c = d /\ completed c = true.
Proof.
  intros H. apply hasCompleted_In in H.
  destruct H as (c & Hc & Hh & Hd & Hdone). exists c.
  split; [|auto]. unfold Checkins.completedCheckIns.
  apply order_by_date_In, filter_In. split; [exact Hc|].
  rewrite Hdone. simpl. rewrite andb_true_r. now apply String.eqb_eq.
Qed.

Lemma hasCompleted_in_all (table : list CheckIn) (h : string) (d : Z) :
  hasCompleted table h d = true ->
  exists c, In c (Analytics.allCheckIns table h)
            /\ date c = d /\ completed c = true.
Proof.
  intros H. apply hasCompleted_In in H.
  destruct H as (c & Hc & Hh & Hd & Hdone). exists c.
  split; [|auto]. unfold Analytics.allCheckIns.
  apply order_by_date_In, filter_In. split; [exact Hc|].
  now apply String.eqb_eq.
Qed.

Lemma completedCheckIns_strict (table : list CheckIn) (h : string) :
  unique_per_day table ->
  StronglySorted date_lt (Checkins.completedCheckIns table h).
Proof.
  intros Hu. unfold Checkins.completedCheckIns.
  apply order_by_date_strict with (h := h); [exact Hu|].
  intros c Hc. apply andb_prop in Hc. destruct Hc as [Hh _].
  now apply String.eqb_eq.
Qed.

Lemma allCheckIns_strict (table : list CheckIn) (h : string) :
  unique_per_day table ->
  StronglySorted date_lt (Analytics.allCheckIns table h).
Proof.
  intros Hu. unfold Analytics.allCheckIns.
  apply order_by_date_strict with (h := h); [exact Hu|].
  intros c Hc. now apply String.eqb_eq.
Qed.

(** C10. On every stored history with at most one record per
    (habit, date), both endpoints that report streaks return a longest
    streak that is at least the current streak they return. *)
Theorem longest_streak_ge_current_streak :
  forall (table : list CheckIn) (habit : Habit) (now : Z) (fuel : nat),
    unique_per_day table ->
    (List.length table < fuel)%nat ->
    exists info o,
      Checkins.getStreak fuel table (h_id habit) now = Some info /\
      Analytics.overview fuel habit table now = Some o /\
      Checkins.current_streak info <= Checkins.longest_streak info /\
      Analytics.current_streak o <= Analytics.longest_streak o.
Proof.
  intros table habit now fuel Hu Hfuel.
  destruct (current_streak_run table (h_id habit) now fuel Hu Hfuel)
    as (n & Hcalc & Hloop & Hn & Hall & Hstop).
  unfold Checkins.getStreak, Analytics.overview.
  rewrite Hcalc, Hloop.
  eexists. eexists.
  split; [reflexivity|]. split; [reflexivity|]. simpl.
  destruct (Z.eq_dec n 0) as [->|Hpos].
  - split; [apply scanLongest_nonneg|apply longestStreakOf_nonneg].
  - assert (Hrun : forall v, toISODate now - n < v <= toISODate now ->
                     hasCompleted table (h_id habit) v = true).
    { intros v Hv.
      replace v with (toISODate now - (toISODate now - v)) by lia.
      apply Hall. lia. }
    split.
    + apply scanLongest_ge_run with (X := toISODate now).
      * now apply completedCheckIns_strict.
      * destruct (hasCompleted_in_completed table (h_id habit) (toISODate now))
          as (c & Hc & Hd & _); [apply Hrun; lia|].
        rewrite <- Hd. now apply in_map.
      * intros v Hv.
        destruct (hasCompleted_in_completed table (h_id habit) v (Hrun v Hv))
          as (c & Hc & Hd & _).
        rewrite <- Hd. now apply in_map.
    + apply longestStreakOf_ge_run with (X := toISODate now).
      * now apply allCheckIns_strict.
      * destruct (hasCompleted_in_all table (h_id habit) (toISODate now))
          as (c & Hc & Hd & _); [apply Hrun; lia|].
        rewrite <- Hd. now apply in_map.
      * intros v Hv. apply hasCompleted_in_all. now apply Hrun.
Qed.

(* ------------------------------------------------------------------ *)
(** ** Longest streak on a history with a gap *)

Lemma order_by_date_id (l : list CheckIn) :
  StronglySorted date_le l -> order_by_date l = l.
Proof.
  induction 1 as [|a l Hs IH Hall]; simpl; [reflexivity|].
  rewrite IH. destruct l as [|b l]; simpl; [reflexivity|].
  inversion Hall as [|? ? Hab _]; subst. unfold date_le in Hab.
  apply Z.leb_le in Hab. now rewrite Hab.
Qed.

Ltac sorted_by_date :=
  repeat (constructor; [|repeat constructor; unfold date_le; simpl; lia]);
  constructor.


Lemma scan_cons (st : Checkins.Scan) (c : CheckIn) (l : list CheckIn) :
  fold_left Checkins.scanStep (c :: l) st
  = fold_left Checkins.scanStep l (Checkins.scanStep st c).
Proof. reflexivity. Qed.

Ltac scan_next y b :=
  rewrite scan_cons; rewrite (scanStep_after _ _ y) by reflexivity;
  match goal with
  | |- context [?a - y =? 1] =>
      replace (a - y =? 1) with b
        by (symmetry; first [apply Z.eqb_eq | apply Z.eqb_neq]; simpl; lia)
  end;
  cbn [Checkins.longestStreak Checkins.currentCount Checkins.lastDate
       date checkInOn].

(** C1. On scenario B (completed on D, D+1, D+2, D+5 and D+6, nothing
    else stored) the scan of [GET /:habitId/streak] returns 3: it extends
    the run on a gap of exactly one day and starts a new run on any other
    gap.  The loop of [GET /overview] compares no dates: it counts
    consecutive completed records and returns 5 on the same history. *)
Theorem longest_streak_on_scenario_B :
  forall D, Checkins.scanLongest (Checkins.completedCheckIns (scenarioB D) "habit-1") = 3
  /\ Analytics.longestStreakOf (Analytics.allCheckIns (scenarioB D) "habit-1") = 5.
Proof.
  intros D.
  assert (Hsorted : order_by_date (scenarioB D) = scenarioB D).
  { apply order_by_date_id. unfold scenarioB. sorted_by_date. }
  split.
  - unfold Checkins.completedCheckIns.
    change (filter _ (scenarioB D)) with (scenarioB D).
    rewrite Hsorted. unfold Checkins.scanLongest, scenarioB.
    rewrite scan_cons.
    change (Checkins.scanStep _ (checkInOn 1 D true None))
      with (Checkins.mkScan 0 1 (Some (parseDate D))).
    scan_next D true. scan_next (D + 1) true.
    scan_next (D + 2) false. scan_next (D + 5) true.
    reflexivity.
  - unfold Analytics.allCheckIns.
    change (filter _ (scenarioB D)) with (scenarioB D).
    rewrite Hsorted. reflexivity.
Qed.

(* ------------------------------------------------------------------ *)
(** ** Check-in: create or update *)

Lemma keys_map (f : CheckIn -> CheckIn) (l : list CheckIn) :
  (forall c, recordKey (f c) = recordKey c) ->
  map recordKey (map f l) = map recordKey l.
Proof.
  intros H. rewrite map_map. apply map_ext. exact H.
Qed.

(** The number of records on a (habit, date) is a function of the keys. *)
Lemma recordsOn_keyCount (table : list CheckIn) (h : string) (d : Z) :
  recordsOn table h d = keyCount (map recordKey table) h d.
Proof.
  unfold recordsOn, keyCount.
  induction table as [|a l IH]; simpl; [reflexivity|].
  destruct (String.eqb (habit_id a) h && (date a =? d)); simpl; now rewrite IH.
Qed.

Lemma keyCount_app (k1 k2 : list (string * Z)) (h : string) (d : Z) :
  keyCount (k1 ++ k2) h d = (keyCount k1 h d + keyCount k2 h d)%nat.
Proof. unfold keyCount. now rewrite filter_app, length_app. Qed.

Lemma keyCount_self (h : string) (d : Z) : keyCount [(h, d)] h d = 1%nat.
Proof.
  unfold keyCount. simpl. now rewrite String.eqb_refl, Z.eqb_refl.
Qed.

Lemma recordsOn_le1 (table : list CheckIn) (h : string) (d : Z) :
  unique_per_day table -> (recordsOn table h d <= 1)%nat.
Proof.
  intros Hu. unfold recordsOn.
  apply at_most_one_match with (k := (h, d)); [exact Hu|].
  intros c Hc. apply andb_prop in Hc. destruct Hc as [Hh Hd].
  apply String.eqb_eq in Hh. apply Z.eqb_eq in Hd.
  unfold recordKey. now rewrite Hh, Hd.
Qed.

Lemma recordsOn_zero_notin (table : list CheckIn) (h : string) (d : Z) :
  recordsOn table h d = 0%nat -> ~ In (h, d) (map recordKey table).
Proof.
  unfold recordsOn. intros H Hin.
  apply in_map_iff in Hin. destruct Hin as (c & Hk & Hc).
  unfold recordKey in Hk. injection Hk as Hh Hd.
  assert (Hf : In c (filter (fun c => String.eqb (habit_id c) h && (date c =? d)) table)).
  { apply filter_In. split; [exact Hc|].
    apply andb_true_intro. split; [now apply String.eqb_eq|now apply Z.eqb_eq]. }
  destruct (filter _ table); [destruct Hf|discriminate].
Qed.

(** The lookup of today's row, in terms of the number of rows stored for
    the (habit, date). *)
Lemma lookup_single (table : list CheckIn) (h : string) (d : Z) :
  match single (filter (fun c => String.eqb (habit_id c) h && (date c =? d)) table) with
  | Some _ => recordsOn table h d = 1%nat
  | None => recordsOn table h d <> 1%nat
  end.
Proof.
  unfold recordsOn.
  destruct (filter _ table) as [|a [|b l]]; simpl; [discriminate|reflexivity|discriminate].
Qed.

(** What an accepted request does to the keys of the table: unchanged
    when the lookup finds exactly one row for today (that row is updated
    in place), one key appended otherwise. *)
Lemma postCheckIn_accepted (habits : list Habit) (table : list CheckIn)
    (user : string) (body : Checkins.Body) (now : Z)
    (h : string) (done : bool) (hb : Habit) :
  Checkins.b_habit_id body = Some h ->
  h <> EmptyString ->
  Checkins.b_completed body = Some done ->
  single (filter (fun x => String.eqb (h_id x) h
                           && String.eqb (h_user_id x) user) habits) = Some hb ->
  map recordKey (fst (Checkins.postCheckIn habits table user body now)) =
  match single (filter (fun c => String.eqb (habit_id c) h
                                 && (date c =? toISODate now)) table) with
  | Some _ => map recordKey table
  | None => (map recordKey table ++ [(h, toISODate now)])%list
  end.
Proof.
  intros Hh Hne Hdone Hhabit. unfold Checkins.postCheckIn.
  rewrite Hh, Hdone.
  apply String.eqb_neq in Hne. rewrite Hne, Hhabit.
  destruct (single (filter _ table)) as [e|]; cbv zeta.
  - destruct (single (filter _ (map _ table))) as [r|]; simpl;
      apply keys_map; intros x; destruct (Nat.eqb _ _); reflexivity.
  - simpl. now rewrite map_app.
Qed.

Lemma single_Some {A : Type} (l : list A) (a : A) :
  single l = Some a -> l = [a].
Proof.
  destruct l as [|x [|y l]]; simpl; intros H; try discriminate.
  now injection H as ->.
Qed.

(** An accepted request that finds today's row rewrites the payload of
    the rows carrying its id and touches nothing else. *)
Lemma postCheckIn_update (habits : list Habit) (table : list CheckIn)
    (user : string) (body : Checkins.Body) (now : Z)
    (h : string) (done : bool) (hb : Habit) (e : CheckIn) :
  Checkins.b_habit_id body = Some h ->
  h <> EmptyString ->
  Checkins.b_completed body = Some done ->
  single (filter (fun x => String.eqb (h_id x) h
                           && String.eqb (h_user_id x) user) habits) = Some hb ->
  single (filter (fun c => String.eqb (habit_id c) h
                           && (date c =? toISODate now)) table) = Some e ->
  fst (Checkins.postCheckIn habits table user body now)
  = map (fun c =>
           if Nat.eqb (id c) (id e)
           then mkCheckIn (id c) (habit_id c) (user_id c) (date c) done
                  (Some (timeOfDay now))
                  (Checkins.notes_or_null (Checkins.b_notes body))
           else c) table.
Proof.
  intros Hh Hne Hdone Hhabit He. unfold Checkins.postCheckIn.
  rewrite Hh, Hdone.
  apply String.eqb_neq in Hne. rewrite Hne, Hhabit. cbv zeta. rewrite He.
  destruct (single (filter _ (map _ table))); reflexivity.
Qed.

(** Every request, accepted or not, keeps at most one record per
    (habit, date). *)
Lemma postCheckIn_unique (habits : list Habit) (table : list CheckIn)
    (user : string) (body : Checkins.Body) (now : Z) :
  unique_per_day table ->
  unique_per_day (fst (Checkins.postCheckIn habits table user body now)).
Proof.
  intros Hu.
  destruct (Checkins.b_habit_id body) as [h|] eqn:Hh;
    [|unfold Checkins.postCheckIn; rewrite Hh; exact Hu].
  destruct (Checkins.b_completed body) as [done|] eqn:Hdone;
    [|unfold Checkins.postCheckIn; rewrite Hh, Hdone; exact Hu].
  destruct (String.eqb h EmptyString) eqn:Hne;
    [unfold Checkins.postCheckIn; rewrite Hh, Hdone, Hne; exact Hu|].
  destruct (single (filter (fun x => String.eqb (h_id x) h
                                     && String.eqb (h_user_id x) user) habits))
    as [hb|] eqn:Hhabit;
    [|unfold Checkins.postCheckIn; rewrite Hh, Hdone, Hne, Hhabit; exact Hu].
  apply String.eqb_neq in Hne.
  pose proof (postCheckIn_accepted habits table user body now h done hb
                Hh Hne Hdone Hhabit) as Hkeys.
  pose proof (lookup_single table h (toISODate now)) as Hlook.
  pose proof (recordsOn_le1 table h (toISODate now) Hu) as Hle.
  unfold unique_per_day in *. rewrite Hkeys.
  destruct (single (filter _ table)) as [e|]; [exact Hu|].
  apply NoDup_app; [exact Hu|repeat constructor; intros []|].
  intros k Hk [<-|[]]. revert Hk. apply recordsOn_zero_notin. lia.
Qed.

Lemma runCheckIns_unique (habits : list Habit)
    (requests : list (string * Checkins.Body * Z)) :
  forall table,
    unique_per_day table -> unique_per_day (runCheckIns habits table requests).
Proof.
  unfold runCheckIns.
  induction requests as [|[[user body] now] requests IH]; intros table Hu;
    simpl; [exact Hu|].
  apply IH. now apply postCheckIn_unique.
Qed.

(** After an accepted request exactly one record is stored for the habit
    on that day. *)
Lemma postCheckIn_one_record (habits : list Habit) (table : list CheckIn)
    (user : string) (body : Checkins.Body) (now : Z)
    (h : string) (done : bool) (hb : Habit) :
  unique_per_day table ->
  Checkins.b_habit_id body = Some h ->
  h <> EmptyString ->
  Checkins.b_completed body = Some done ->
  single (filter (fun x => String.eqb (h_id x) h
                           && String.eqb (h_user_id x) user) habits) = Some hb ->
  recordsOn (fst (Checkins.postCheckIn habits table user body now))
    h (toISODate now) = 1%nat.
Proof.
  intros Hu Hh Hne Hdone Hhabit.
  pose proof (postCheckIn_accepted habits table user body now h done hb
                Hh Hne Hdone Hhabit) as Hkeys.
  pose proof (lookup_single table h (toISODate now)) as Hlook.
  pose proof (recordsOn_le1 table h (toISODate now) Hu) as Hle.
  rewrite recordsOn_keyCount, Hkeys.
  destruct (single (filter _ table)) as [e|].
  - now rewrite <- recordsOn_keyCount.
  - rewrite keyCount_app, keyCount_self, <- recordsOn_keyCount. lia.
Qed.

(** C9. Two accepted check-ins for the same habit on the same day, with
    the same body, leave exactly one stored record for that (habit, date):
    the first call leaves one, the second finds it and updates it in place,
    so the table keeps the same keys and the same number of rows, and the
    stored record carries the payload of the second call.  Every sequence
    of check-in requests keeps at most one record per (habit, date). *)
Theorem check_in_twice_keeps_one_record :
  forall (habits : list Habit) (table : list CheckIn) (user : string)
         (body : Checkins.Body) (now1 now2 : Z)
         (h : string) (done : bool) (hb : Habit),
    unique_per_day table ->
    Checkins.b_habit_id body = Some h ->
    h <> EmptyString ->
    Checkins.b_completed body = Some done ->
    single (filter (fun x => String.eqb (h_id x) h
                             && String.eqb (h_user_id x) user) habits) = Some hb ->
    toISODate now2 = toISODate now1 ->
    let t1 := fst (Checkins.postCheckIn habits table user body now1) in
    let t2 := fst (Checkins.postCheckIn habits t1 user body now2) in
    recordsOn t1 h (toISODate now1) = 1%nat /\
    recordsOn t2 h (toISODate now1) = 1%nat /\
    map recordKey t2 = map recordKey t1 /\
    List.length t2 = List.length t1 /\
    (exists r, In r t2 /\ habit_id r = h /\ date r = toISODate now1 /\
               completed r = done /\
               check_in_time r = Some (timeOfDay now2) /\
               notes r = Checkins.notes_or_null (Checkins.b_notes body)) /\
    unique_per_day t2 /\
    (forall requests, unique_per_day (runCheckIns habits table requests)).
Proof.
  intros habits table user body now1 now2 h done hb Hu Hh Hne Hdone Hhabit Hday
         t1 t2.
  assert (H1 : recordsOn t1 h (toISODate now1) = 1%nat).
  { subst t1. eapply postCheckIn_one_record; eassumption. }
  assert (Hu1 : unique_per_day t1) by (subst t1; now apply postCheckIn_unique).
  assert (Hkeys : map recordKey t2 = map recordKey t1).
  { subst t2.
    rewrite (postCheckIn_accepted habits t1 user body now2 h done hb
               Hh Hne Hdone Hhabit).
    pose proof (lookup_single t1 h (toISODate now2)) as Hlook.
    rewrite Hday in *.
    destruct (single (filter _ t1)); [reflexivity|contradiction]. }
  split; [exact H1|]. split; [|split; [exact Hkeys|split; [|split; [|split]]]].
  - now rewrite recordsOn_keyCount, Hkeys, <- recordsOn_keyCount.
  - rewrite <- (length_map recordKey t2), Hkeys. apply length_map.
  - pose proof (lookup_single t1 h (toISODate now2)) as Hlook.
    destruct (single (filter (fun c => String.eqb (habit_id c) h
                                       && (date c =? toISODate now2)) t1))
      as [e|] eqn:He; [|rewrite Hday in Hlook; contradiction].
    assert (Hin : In e (filter (fun c => String.eqb (habit_id c) h
                                         && (date c =? toISODate now2)) t1)).
    { rewrite (single_Some _ e He). now left. }
    apply filter_In in Hin. destruct Hin as [Hin Hkey].
    apply andb_prop in Hkey. destruct Hkey as [Hkh Hkd].
    apply String.eqb_eq in Hkh. apply Z.eqb_eq in Hkd.
    exists (mkCheckIn (id e) (habit_id e) (user_id e) (date e) done
              (Some (timeOfDay now2))
              (Checkins.notes_or_null (Checkins.b_notes body))).
    split; [|simpl; rewrite <- Hday; auto].
    subst t2.
    rewrite (postCheckIn_update habits t1 user body now2 h done hb e
               Hh Hne Hdone Hhabit He).
    apply in_map_iff. exists e. split; [|exact Hin].
    now rewrite Nat.eqb_refl.
  - subst t2. now apply postCheckIn_unique.
  - intros requests. now apply runCheckIns_unique.
Qed.

(* ------------------------------------------------------------------ *)
(** ** The calendar *)

Lemma calendarCheck_cycle :
  forallb (fun y => forallb (calendarCheck y) (zrange 12)) (zrange 400) = true.
Proof. vm_compute. reflexivity. Qed.

Lemma zrange_In (n : nat) (x : Z) : 0 <= x < Z.of_nat n -> In x (zrange n).
Proof.
  intros H. unfold zrange. apply in_map_iff. exists (Z.to_nat x).
  split; [lia|]. apply in_seq. lia.
Qed.

Lemma dayFromYear_cycle (y q : Z) :
  dayFromYear (y + 400 * q) = dayFromYear y + 146097 * q.
Proof.
  unfold dayFromYear.
  replace (y + 400 * q - 1969) with (y - 1969 + (100 * q) * 4) by lia.
  replace (y + 400 * q - 1901) with (y - 1901 + (4 * q) * 100) by lia.
  replace (y + 400 * q - 1601) with (y - 1601 + q * 400) by lia.
  rewrite !Z.div_add by discriminate. lia.
Qed.

Lemma isLeap_cycle (y q : Z) : isLeap (y + 400 * q) = isLeap y.
Proof.
  unfold isLeap.
  replace (y + 400 * q) with (y + (100 * q) * 4) at 1 by lia.
  replace (y + 400 * q) with (y + (4 * q) * 100) at 1 by lia.
  replace (y + 400 * q) with (y + q * 400) by lia.
  now rewrite !Z.mod_add by discriminate.
Qed.

Lemma makeDay_cycle (y q m d : Z) :
  makeDay (y + 400 * q) m d = makeDay y m d + 146097 * q.
Proof.
  unfold makeDay.
  replace (y + 400 * q + m / 12) with (y + m / 12 + 400 * q) by lia.
  rewrite dayFromYear_cycle, isLeap_cycle. lia.
Qed.

Lemma dateFromDay_cycle (d q : Z) : dateFromDay (d + 146097 * q) = dateFromDay d.
Proof.
  unfold dateFromDay.
  replace (d + 146097 * q + 719468) with (d + 719468 + q * 146097) by lia.
  now rewrite Z.mod_add by discriminate.
Qed.

Lemma makeDay_normal (y m d : Z) :
  makeDay y m d = makeDay (y + m / 12) (m mod 12) d.
Proof.
  unfold makeDay.
  rewrite Z.mod_mod by discriminate.
  assert (H : m mod 12 / 12 = 0) by (apply Z.div_small, Z.mod_pos_bound; lia).
  rewrite H. now rewrite Z.add_0_r.
Qed.

Lemma makeDay_next_month (y m d : Z) :
  makeDay y (m + 1) d = makeDay (y + m / 12) (m mod 12 + 1) d.
Proof.
  unfold makeDay.
  assert (H1 : (m + 1) / 12 = m / 12 + (m mod 12 + 1) / 12).
  { pose proof (Z.div_mod m 12 ltac:(lia)).
    pose proof (Z.mod_pos_bound m 12 ltac:(lia)).
    replace (m + 1) with ((m mod 12 + 1) + (m / 12) * 12) by lia.
    rewrite Z.div_add by discriminate. lia. }
  assert (H2 : (m + 1) mod 12 = (m mod 12 + 1) mod 12).
  { rewrite <- Zplus_mod_idemp_l. reflexivity. }
  rewrite H1, H2. now rewrite Z.add_assoc.
Qed.

Lemma calendarCheck_range (r M : Z) :
  0 <= r < 400 -> 0 <= M < 12 -> calendarCheck r M = true.
Proof.
  intros Hr HM.
  pose proof calendarCheck_cycle as Hall.
  rewrite forallb_forall in Hall.
  specialize (Hall r (zrange_In 400 r ltac:(lia))).
  rewrite forallb_forall in Hall.
  exact (Hall M (zrange_In 12 M ltac:(lia))).
Qed.


Lemma calendarCheck_true (y m : Z) :
  calendarCheck y m = true ->
  dateFromDay (makeDay y (m + 1) 0) = monthLength y m
  /\ 28 <= monthLength y m <= 31.
Proof.
  unfold calendarCheck. intros Hall.
  apply andb_prop in Hall. destruct Hall as [Hall H31].
  apply andb_prop in Hall. destruct Hall as [Heq H28].
  apply Z.eqb_eq in Heq. apply Z.leb_le in H28, H31.
  split; [exact Heq|lia].
Qed.

Lemma monthLength_cycle (y q m : Z) :
  monthLength (y + 400 * q) m = monthLength y m.
Proof. unfold monthLength. rewrite !makeDay_cycle. lia. Qed.

Lemma monthLength_normal (y m : Z) :
  monthLength y m = monthLength (y + m / 12) (m mod 12).
Proof.
  unfold monthLength. now rewrite makeDay_next_month, (makeDay_normal y m 1).
Qed.

Lemma year_cycle (Y : Z) : Y = Y mod 400 + 400 * (Y / 400).
Proof. pose proof (Z.div_mod Y 400 ltac:(lia)). lia. Qed.

Lemma calendar_month_end (y m : Z) :
  dateFromDay (makeDay y (m + 1) 0) = monthLength y m
  /\ 28 <= monthLength y m <= 31.
Proof.
  assert (HM : 0 <= m mod 12 < 12) by (apply Z.mod_pos_bound; lia).
  assert (Hr : 0 <= (y + m / 12) mod 400 < 400) by (apply Z.mod_pos_bound; lia).
  destruct (calendarCheck_true _ _ (calendarCheck_range _ _ Hr HM)) as [Heq Hlen].
  rewrite monthLength_normal, makeDay_next_month.
  rewrite (year_cycle (y + m / 12)).
  rewrite monthLength_cycle, makeDay_cycle, dateFromDay_cycle.
  split; assumption.
Qed.

Lemma toISODate_makeDate (y m d : Z) :
  toISODate (makeDate y m d) = makeDay (fullYear y) m d.
Proof. unfold toISODate, makeDate. apply Z.div_mul. discriminate. Qed.

Lemma makeDate_parseDate (y m d : Z) :
  makeDate y m d = parseDate (makeDay (fullYear y) m d).
Proof. reflexivity. Qed.

Lemma makeDay_day (y m d : Z) : makeDay y m d = makeDay y m 1 + (d - 1).
Proof. unfold makeDay. lia. Qed.

Lemma getDate_toISODate (t : Z) : getDate t = dateFromDay (toISODate t).
Proof. reflexivity. Qed.

(** [new Date(year, month, 0).getDate()] is the length of month
    [month - 1], a number between 28 and 31, and day 0 of the following
    month is the last day of the month. *)
Lemma getDate_endDate (y m : Z) :
  getDate (makeDate y m 0) = monthLength (fullYear y) (m - 1)
  /\ 28 <= getDate (makeDate y m 0) <= 31
  /\ toISODate (makeDate y m 0)
     = toISODate (makeDate y (m - 1) (getDate (makeDate y m 0))).
Proof.
  rewrite getDate_toISODate, !toISODate_makeDate.
  destruct (calendar_month_end (fullYear y) (m - 1)) as [Heq Hlen].
  replace (m - 1 + 1) with m in Heq by lia.
  rewrite Heq. split; [reflexivity|]. split; [exact Hlen|].
  rewrite (makeDay_day (fullYear y) (m - 1) (monthLength _ _)).
  unfold monthLength. replace (m - 1 + 1) with m by lia. lia.
Qed.

(* ------------------------------------------------------------------ *)
(** ** Objects keyed by day numbers or names *)

Lemma get_None_Z {V : Type} (o : list (Z * V)) (k : Z) :
  ~ In k (map fst o) -> Js.get Z.eqb o k = None.
Proof.
  induction o as [|[k' v] o IH]; simpl; intros H; [reflexivity|].
  destruct (Z.eqb_spec k' k) as [->|Hne]; [exfalso; auto|].
  apply IH. auto.
Qed.

Lemma set_fresh {K V : Type} (eqb : K -> K -> bool) (o : list (K * V))
    (k : K) (v : V) :
  Js.get eqb o k = None -> Js.set eqb o k v = (o ++ [(k, v)])%list.
Proof.
  induction o as [|[k' v'] o IH]; simpl; intros H; [reflexivity|].
  destruct (eqb k' k); [discriminate|]. now rewrite IH.
Qed.

Lemma get_In_Z {V : Type} (o : list (Z * V)) (k : Z) (v : V) :
  NoDup (map fst o) -> In (k, v) o -> Js.get Z.eqb o k = Some v.
Proof.
  induction o as [|[k' v'] o IH]; simpl; intros Hnd Hin; [destruct Hin|].
  inversion Hnd as [|? ? Hnotin Hnd']; subst.
  destruct Hin as [Heq|Hin].
  - injection Heq as -> ->. now rewrite Z.eqb_refl.
  - destruct (Z.eqb_spec k' k) as [->|Hne].
    + exfalso. apply Hnotin. apply in_map_iff. now exists (k, v).
    + now apply IH.
Qed.

(** Writing pairwise distinct new keys one after the other appends them
    in order. *)
Lemma fold_set_fresh {A V : Type} (key : A -> Z) (cell : A -> V) (days : list A) :
  forall acc,
    NoDup (map fst acc ++ map key days) ->
    fold_left (fun o day => Js.set Z.eqb o (key day) (cell day)) days acc
    = (acc ++ map (fun day => (key day, cell day)) days)%list.
Proof.
  induction days as [|day days IH]; intros acc Hnd; simpl.
  - now rewrite app_nil_r.
  - rewrite set_fresh.
    + rewrite IH.
      * now rewrite <- app_assoc.
      * rewrite map_app. simpl. rewrite <- app_assoc. exact Hnd.
    + apply get_None_Z. simpl in Hnd.
      apply NoDup_remove_2 in Hnd. intros Hin. apply Hnd.
      apply in_or_app. now left.
Qed.

Lemma fold_left_pointwise {A B : Type} (f g : A -> B -> A) (l : list B) :
  (forall a b, f a b = g a b) ->
  forall a, fold_left f l a = fold_left g l a.
Proof.
  intros H. induction l as [|b l IH]; intros a; simpl; [reflexivity|].
  now rewrite H, IH.
Qed.

(* ------------------------------------------------------------------ *)
(** ** The month calendar *)

Lemma timeClip_valid (t : Z) : Z.abs t <= maxTime -> timeClip t = Some t.
Proof.
  intros H. unfold timeClip.
  destruct (Z.leb_spec (Z.abs t) maxTime); [reflexivity|lia].
Qed.

Lemma newDate_Some (y mi day d : Z) :
  newDate y mi day = Some d -> d = makeDate y mi day.
Proof.
  unfold newDate, timeClip.
  destruct (Z.abs _ <=? maxTime); [|discriminate]. congruence.
Qed.

Lemma monthStart_bounds (leap : bool) (mn : Z) :
  0 <= mn < 12 -> 0 <= monthStart leap mn <= 335.
Proof.
  intros H. unfold monthStart, monthOffsets.
  assert (Hc : mn = 0 \/ mn = 1 \/ mn = 2 \/ mn = 3 \/ mn = 4 \/ mn = 5 \/
               mn = 6 \/ mn = 7 \/ mn = 8 \/ mn = 9 \/ mn = 10 \/ mn = 11) by lia.
  destruct Hc as [-> | [-> | [-> | [-> | [-> | [-> | [-> | [-> | [-> | [-> | [-> | ->]]]]]]]]]]];
    destruct leap; simpl; lia.
Qed.

Lemma fullYear_id (y : Z) : 100 <= y -> fullYear y = y.
Proof.
  intros H. unfold fullYear.
  destruct (Z.leb_spec y 99); [lia|]. now rewrite andb_false_r.
Qed.

(** The dates the handler builds for a year written with four digits are
    valid dates. *)
Lemma newDate_valid (y mi day : Z) :
  100 <= y <= 9999 -> -1 <= mi <= 12 -> 0 <= day <= 31 ->
  newDate y mi day = Some (makeDate y mi day).
Proof.
  intros Hy Hm Hd. unfold newDate. apply timeClip_valid.
  unfold makeDate, makeDay. rewrite fullYear_id by lia. cbv zeta.
  pose proof (monthStart_bounds (isLeap (y + mi / 12)) (mi mod 12)
                (Z.mod_pos_bound mi 12 ltac:(lia))) as Hs.
  assert (Hq : -1 <= mi / 12 <= 1).
  { pose proof (Z.div_mod mi 12 ltac:(lia)).
    pose proof (Z.mod_pos_bound mi 12 ltac:(lia)). lia. }
  set (ym := y + mi / 12) in *.
  assert (Hym : 99 <= ym <= 10000) by (subst ym; lia).
  assert (Hdy : -700000 <= dayFromYear ym <= 3000000).
  { unfold dayFromYear.
    pose proof (Z.div_mod (ym - 1969) 4 ltac:(lia)).
    pose proof (Z.mod_pos_bound (ym - 1969) 4 ltac:(lia)).
    pose proof (Z.div_mod (ym - 1901) 100 ltac:(lia)).
    pose proof (Z.mod_pos_bound (ym - 1901) 100 ltac:(lia)).
    pose proof (Z.div_mod (ym - 1601) 400 ltac:(lia)).
    pose proof (Z.mod_pos_bound (ym - 1601) 400 ltac:(lia)).
    lia. }
  unfold maxTime, msPerDay. lia.
Qed.

Lemma calendarStep_set (yearNum monthNum hsd now : Z) (checkIns : list CheckIn)
    (calendar : list (Z * Analytics.Cell)) (day : Z) :
  newDate yearNum (monthNum - 1) day
  = Some (makeDate yearNum (monthNum - 1) day) ->
  Analytics.calendarStep yearNum monthNum hsd now checkIns calendar day
  = Some (Js.set Z.eqb calendar (toISODate (makeDate yearNum (monthNum - 1) day))
            (cellOf yearNum monthNum hsd now checkIns day)).
Proof.
  intros Hvalid. unfold Analytics.calendarStep, cellOf. rewrite Hvalid. cbv zeta.
  destruct (_ <? hsd); [reflexivity|].
  destruct (_ >? now); [reflexivity|].
  destruct (find _ checkIns); reflexivity.
Qed.

(** The loop over days that are all valid dates never throws. *)
Lemma fold_calendarStep (y m hsd now : Z) (checkIns : list CheckIn)
    (days : list Z) :
  (forall day, In day days ->
     newDate y (m - 1) day = Some (makeDate y (m - 1) day)) ->
  forall acc,
    fold_left
      (fun calendar day =>
         match calendar with
         | Some c => Analytics.calendarStep y m hsd now checkIns c day
         | None => None
         end) days (Some acc)
    = Some (fold_left
              (fun c day => Js.set Z.eqb c (toISODate (makeDate y (m - 1) day))
                              (cellOf y m hsd now checkIns day)) days acc).
Proof.
  induction days as [|day days IH]; intros Hvalid acc; cbn [fold_left];
    [reflexivity|].
  rewrite (calendarStep_set y m hsd now checkIns acc day
             (Hvalid day (or_introl eq_refl))).
  apply IH. intros d Hd. apply Hvalid. now right.
Qed.

Lemma daysUpTo_In (n day : Z) : In day (Analytics.daysUpTo n) <-> 1 <= day <= n.
Proof.
  unfold Analytics.daysUpTo. rewrite in_map_iff. split.
  - intros (k & <- & Hk). apply in_seq in Hk. lia.
  - intros H. exists (Z.to_nat day). split; [lia|]. apply in_seq. lia.
Qed.

Lemma daysUpTo_length (n : Z) :
  0 <= n -> Z.of_nat (List.length (Analytics.daysUpTo n)) = n.
Proof.
  intros H. unfold Analytics.daysUpTo. rewrite length_map, length_seq. lia.
Qed.

Lemma month_keys_NoDup (y m n : Z) :
  NoDup (map (fun day => toISODate (makeDate y (m - 1) day)) (Analytics.daysUpTo n)).
Proof.
  apply Injective_map_NoDup_in.
  - intros a b _ _ Hab. rewrite !toISODate_makeDate in Hab.
    rewrite (makeDay_day _ _ a), (makeDay_day _ _ b) in Hab. lia.
  - unfold Analytics.daysUpTo. apply Injective_map_NoDup; [|apply seq_NoDup].
    intros a b Hab. lia.
Qed.

Lemma monthly_fields (habits : list Habit) (table : list CheckIn)
    (h : string) (y m now : Z) (cal : list (Z * Analytics.Cell)) :
  Analytics.monthCalendar habits table h y m now = Some cal ->
  Analytics.monthly habits table h y m now
  = Some (Analytics.mkMonthly cal (Analytics.monthStatsOf cal)).
Proof. intros H. unfold Analytics.monthly. now rewrite H. Qed.

(** A year or month that makes an Invalid Date is answered with an error:
    no calendar is produced. *)
Lemma monthly_invalid_date (habits : list Habit) (table : list CheckIn)
    (h : string) (y m now : Z) :
  newDate y (m - 1) 1 = None \/ newDate y m 0 = None ->
  Analytics.monthly habits table h y m now = None.
Proof.
  intros H. unfold Analytics.monthly, Analytics.monthCalendar.
  destruct H as [-> | H]; [reflexivity|].
  rewrite H. destruct (newDate y (m - 1) 1); reflexivity.
Qed.

(** [GET /monthly/300000/1]: January of the year 300000 lies beyond the
    range of time values, so the date is invalid and the route answers with
    an error. *)
Lemma monthly_year_300000 :
  newDate 300000 0 1 = None /\
  Analytics.monthly [sampleHabit] scenarioC_sparse "habit-1" 300000 1
    (noonOf monday) = None.
Proof.
  split; [vm_compute; reflexivity|].
  apply monthly_invalid_date. left. vm_compute. reflexivity.
Qed.

(** For a four-digit year and a month 1..12 the handler answers, and the
    calendar is the list of the days of the month, each with the cell the
    loop computes for it from the rows of the monthly query. *)
Lemma monthly_calendar (habits : list Habit) (table : list CheckIn)
    (h : string) (y m now : Z) :
  100 <= y <= 9999 -> 1 <= m <= 12 ->
  exists hsd rows cal,
    hsd = match single (filter (fun x => String.eqb (h_id x) h) habits) with
          | Some hb => parseDate (start_date hb)
          | None => makeDate y (m - 1) 1
          end /\
    rows = filter (fun c => String.eqb (habit_id c) h
                            && (toISODate (makeDate y (m - 1) 1) <=? date c)
                            && (date c <=? toISODate (makeDate y m 0))) table /\
    cal = map (fun day => (toISODate (makeDate y (m - 1) day),
                           cellOf y m hsd now rows day))
              (Analytics.daysUpTo (getDate (makeDate y m 0))) /\
    Analytics.monthly habits table h y m now
    = Some (Analytics.mkMonthly cal (Analytics.monthStatsOf cal)).
Proof.
  intros Hy Hm.
  eexists. eexists. eexists. split; [reflexivity|]. split; [reflexivity|].
  split; [reflexivity|].
  apply monthly_fields.
  unfold Analytics.monthCalendar.
  rewrite (newDate_valid y (m - 1) 1) by lia.
  rewrite (newDate_valid y m 0) by lia. cbv zeta.
  rewrite fold_calendarStep.
  - rewrite (fold_set_fresh (fun day => toISODate (makeDate y (m - 1) day))).
    + reflexivity.
    + cbn [map fst app]. apply month_keys_NoDup.
  - intros day Hday. apply daysUpTo_In in Hday.
    destruct (getDate_endDate y m) as (_ & Hlen & _).
    apply newDate_valid; lia.
Qed.

(** *** The calendar against the civil calendar *)

Lemma civilCheck_cycle :
  forallb (fun y => forallb (fun i => civilCheck y (i + 1)) (zrange 12))
    (zrange 400) = true.
Proof. vm_compute. reflexivity. Qed.

Lemma isoDate_cycle (y q m d : Z) :
  isoDate (y + 400 * q) m d = isoDate y m d + 146097 * q.
Proof.
  unfold isoDate. destruct (m <=? 2); cbv zeta.
  - replace (y + 400 * q - 1) with (y - 1 + (100 * q) * 4) at 2 by lia.
    replace (y + 400 * q - 1) with (y - 1 + (4 * q) * 100) at 2 by lia.
    replace (y + 400 * q - 1) with (y - 1 + q * 400) at 2 by lia.
    rewrite !Z.div_add by discriminate. lia.
  - replace (y + 400 * q) with (y + (100 * q) * 4) at 2 by lia.
    replace (y + 400 * q) with (y + (4 * q) * 100) at 2 by lia.
    replace (y + 400 * q) with (y + q * 400) at 2 by lia.
    rewrite !Z.div_add by discriminate. lia.
Qed.

Lemma daysInMonth_cycle (y q m : Z) :
  daysInMonth (y + 400 * q) m = daysInMonth y m.
Proof. unfold daysInMonth. now rewrite isLeap_cycle. Qed.

Lemma civilCheck_true (y m : Z) :
  1 <= m <= 12 -> civilCheck y m = true.
Proof.
  intros Hm.
  assert (Hr : 0 <= y mod 400 < 400) by (apply Z.mod_pos_bound; lia).
  pose proof civilCheck_cycle as Hall.
  rewrite forallb_forall in Hall.
  specialize (Hall (y mod 400) (zrange_In 400 _ Hr)).
  rewrite forallb_forall in Hall.
  assert (Hm' : 0 <= m - 1 < Z.of_nat 12) by (simpl; lia).
  specialize (Hall (m - 1) (zrange_In 12 _ Hm')).
  replace (m - 1 + 1) with m in Hall by lia.
  unfold civilCheck in *.
  rewrite (year_cycle y).
  rewrite makeDay_cycle, isoDate_cycle, monthLength_cycle, daysInMonth_cycle.
  apply andb_prop in Hall. destruct Hall as [H1 H2].
  apply Z.eqb_eq in H1. apply Z.eqb_eq in H2.
  rewrite H1, H2, !Z.eqb_refl. reflexivity.
Qed.

(** The dates the loop builds are the days of month [m] of year [y], and
    the loop runs to the last day of that month. *)
Lemma month_dates (y m : Z) :
  100 <= y -> 1 <= m <= 12 ->
  (forall day, toISODate (makeDate y (m - 1) day) = isoDate y m day) /\
  getDate (makeDate y m 0) = daysInMonth y m /\
  28 <= daysInMonth y m <= 31.
Proof.
  intros Hy Hm.
  pose proof (civilCheck_true y m Hm) as Hc. unfold civilCheck in Hc.
  apply andb_prop in Hc. destruct Hc as [H1 H2].
  apply Z.eqb_eq in H1. apply Z.eqb_eq in H2.
  destruct (getDate_endDate y m) as (Hlen & Hb & _).
  rewrite (fullYear_id y Hy) in Hlen.
  split; [|split].
  - intros day. rewrite toISODate_makeDate, (fullYear_id y Hy).
    rewrite (makeDay_day y (m - 1) day), H1. unfold isoDate. lia.
  - now rewrite Hlen.
  - rewrite <- H2, <- Hlen. exact Hb.
Qed.

Lemma parseDate_ltb (a b : Z) : (parseDate a <? parseDate b) = (a <? b).
Proof.
  pose proof (parseDate_lt a b) as H.
  destruct (Z.ltb_spec a b); destruct (Z.ltb_spec (parseDate a) (parseDate b));
    try reflexivity; lia.
Qed.

Lemma midnight_gtb (d now : Z) : (parseDate d >? now) = (d >? toISODate now).
Proof.
  pose proof (midnight_gt_now d now) as H.
  rewrite !Z.gtb_ltb.
  destruct (Z.ltb_spec (toISODate now) d); destruct (Z.ltb_spec now (parseDate d));
    try reflexivity; lia.
Qed.

Lemma unique_key_eq (table : list CheckIn) (a b : CheckIn) :
  unique_per_day table ->
  In a table -> In b table -> recordKey a = recordKey b -> a = b.
Proof.
  unfold unique_per_day.
  induction table as [|c l IH]; simpl; intros Hu Ha Hb Hk; [destruct Ha|].
  inversion Hu as [|? ? Hnotin Hu']; subst.
  destruct Ha as [->|Ha]; destruct Hb as [->|Hb]; auto.
  - exfalso. apply Hnotin. rewrite Hk. now apply in_map.
  - exfalso. apply Hnotin. rewrite <- Hk. now apply in_map.
Qed.

(** Under the invariant, the record the calendar loop finds on a day of
    the queried range is completed exactly when the day has a completed
    record. *)
Lemma find_on_day (table : list CheckIn) (h : string) (lo hi d : Z) :
  unique_per_day table ->
  lo <= d <= hi ->
  match find (fun c => date c =? d)
             (filter (fun c => String.eqb (habit_id c) h
                               && (lo <=? date c) && (date c <=? hi)) table) with
  | Some c => completed c
  | None => false
  end = hasCompleted table h d.
Proof.
  intros Hu Hd.
  assert (Hrow : forall c, In c table -> habit_id c = h -> date c = d ->
            In c (filter (fun c => String.eqb (habit_id c) h
                                   && (lo <=? date c) && (date c <=? hi)) table)).
  { intros c Hc Hh Hdate. apply filter_In. split; [exact Hc|].
    rewrite Hdate. apply String.eqb_eq in Hh. rewrite Hh. simpl.
    apply andb_true_intro. split; apply Z.leb_le; lia. }
  destruct (find _ _) as [c|] eqn:Hfind.
  - apply find_some in Hfind. destruct Hfind as [Hin Hdate].
    apply Z.eqb_eq in Hdate. apply filter_In in Hin. destruct Hin as [Hin Hq].
    apply andb_prop in Hq. destruct Hq as [Hq _].
    apply andb_prop in Hq. destruct Hq as [Hh _]. apply String.eqb_eq in Hh.
    apply Bool.eq_iff_eq_true. split.
    + intros Hdone. unfold hasCompleted. apply existsb_exists. exists c.
      split; [exact Hin|]. rewrite Hdone, andb_true_r.
      apply andb_true_intro. split; [now apply String.eqb_eq|now apply Z.eqb_eq].
    + intros Hhas. apply hasCompleted_In in Hhas.
      destruct Hhas as (c' & Hc' & Hh' & Hd' & Hdone').
      assert (c' = c) as <-; [|exact Hdone'].
      apply (unique_key_eq table); auto.
      unfold recordKey. now rewrite Hh, Hh', Hd', Hdate.
  - symmetry. destruct (hasCompleted table h d) eqn:Hhas; [exfalso|reflexivity].
    apply hasCompleted_In in Hhas.
    destruct Hhas as (c' & Hc' & Hh' & Hd' & _).
    pose proof (find_none _ _ Hfind c' (Hrow c' Hc' Hh' Hd')) as Hno.
    apply Z.eqb_neq in Hno. contradiction.
Qed.

(** [isoDate] counts the days of the civil calendar: day 0 is 1970-01-01,
    the first of a month comes [daysInMonth] days after the first of the
    month before, and January follows December. *)
Lemma isoDate_calendar (y m d : Z) :
  isoDate 1970 1 1 = 0 /\
  isoDate y m (d + 1) = isoDate y m d + 1 /\
  (1 <= m <= 11 -> isoDate y (m + 1) 1 = isoDate y m 1 + daysInMonth y m) /\
  isoDate (y + 1) 1 1 = isoDate y 12 1 + daysInMonth y 12.
Proof.
  split; [reflexivity|]. split; [unfold isoDate; lia|].
  assert (Hstep : forall y m, 1 <= m <= 12 ->
            makeDay y m 1 = isoDate y m 1 + daysInMonth y m).
  { intros y0 m0 Hm0.
    pose proof (civilCheck_true y0 m0 Hm0) as Hc. unfold civilCheck in Hc.
    apply andb_prop in Hc. destruct Hc as [H1 H2].
    apply Z.eqb_eq in H1. apply Z.eqb_eq in H2.
    rewrite <- H1, <- H2. unfold monthLength.
    replace (m0 - 1 + 1) with m0 by lia.
    rewrite (makeDay_day y0 m0 1), (makeDay_day y0 m0 0). lia. }
  assert (Hiso : forall y m, 1 <= m <= 12 -> makeDay y (m - 1) 1 = isoDate y m 1).
  { intros y0 m0 Hm0.
    pose proof (civilCheck_true y0 m0 Hm0) as Hc. unfold civilCheck in Hc.
    apply andb_prop in Hc. destruct Hc as [H1 _]. now apply Z.eqb_eq in H1. }
  split.
  - intros Hm. rewrite <- (Hstep y m) by lia. rewrite <- (Hiso y (m + 1)) by lia.
    now replace (m + 1 - 1) with m by lia.
  - rewrite <- (Hstep y 12) by lia. rewrite <- (Hiso (y + 1) 1) by lia.
    rewrite (makeDay_normal y 12 1). reflexivity.
Qed.

(** C4. For a stored history with at most one record per (habit, date), a
    habit that exists, a year written with four digits and a month 1..12,
    [GET /monthly/:year/:month] answers with a calendar that holds the
    dates of day 1 to the last day of that month of that year, each exactly
    once and in order, and the cell of each date is tagged [Future] when the
    date is before the habit's start date or after today, [Completed] when
    the date has a record with [completed = true], and [Missed] otherwise.
    In particular a date on or after the start and not after today that has
    no completed record is [Missed], and every date before the start is
    [Future]. *)
Theorem month_calendar_tags_every_date_once :
  forall (habits : list Habit) (table : list CheckIn) (h : string)
         (y m now : Z) (hb : Habit),
    unique_per_day table ->
    single (filter (fun x => String.eqb (h_id x) h) habits) = Some hb ->
    100 <= y <= 9999 ->
    1 <= m <= 12 ->
    let lastDay := daysInMonth y m in
    let dateOf := isoDate y m in
    let today := toISODate now in
    exists r,
      Analytics.monthly habits table h y m now = Some r /\
      map fst (Analytics.calendar r) = map dateOf (Analytics.daysUpTo lastDay) /\
      NoDup (map fst (Analytics.calendar r)) /\
      28 <= lastDay <= 31 /\
      (forall day, dateOf (day + 1) = dateOf day + 1) /\
      (forall day, 1 <= day <= lastDay ->
         exists cell,
           Js.get Z.eqb (Analytics.calendar r) (dateOf day) = Some cell /\
           Analytics.status cell =
             (if (dateOf day <? start_date hb) || (dateOf day >? today)
              then Analytics.Future
              else if hasCompleted table h (dateOf day)
                   then Analytics.Completed else Analytics.Missed) /\
           (dateOf day < start_date hb -> Analytics.status cell = Analytics.Future) /\
           (start_date hb <= dateOf day <= today ->
            hasCompleted table h (dateOf day) = false ->
            Analytics.status cell = Analytics.Missed)).
Proof.
  intros habits table h y m now hb Hu Hhabit Hy Hm lastDay dateOf today.
  destruct (monthly_calendar habits table h y m now Hy Hm)
    as (hsd & rows & cal & Hhsd & Hrows & Hcal & Hmonthly).
  rewrite Hhabit in Hhsd.
  destruct (month_dates y m ltac:(lia) Hm) as (Hdate & Hlast & Hlen).
  fold dateOf in Hdate. fold lastDay in Hlast, Hlen. rewrite Hlast in Hcal.
  destruct (getDate_endDate y m) as (_ & _ & Hend).
  rewrite Hlast, Hdate in Hend. fold lastDay in Hend.
  exists (Analytics.mkMonthly cal (Analytics.monthStatsOf cal)).
  split; [exact Hmonthly|]. cbn [Analytics.calendar].
  assert (Hkeys : map fst cal = map dateOf (Analytics.daysUpTo lastDay)).
  { rewrite Hcal, map_map. apply map_ext. intros day. apply Hdate. }
  assert (Hnd : NoDup (map fst cal)).
  { rewrite Hcal, map_map. apply month_keys_NoDup. }
  assert (Hnext : forall day, dateOf (day + 1) = dateOf day + 1).
  { intros day. unfold dateOf, isoDate. lia. }
  assert (Hplus : forall day, dateOf day = dateOf 1 + (day - 1)).
  { intros day. unfold dateOf, isoDate. lia. }
  split; [exact Hkeys|]. split; [exact Hnd|]. split; [exact Hlen|].
  split; [exact Hnext|].
  intros day Hday.
  exists (cellOf y m hsd now rows day).
  assert (Hstatus : Analytics.status (cellOf y m hsd now rows day) =
           (if (dateOf day <? start_date hb) || (dateOf day >? today)
            then Analytics.Future
            else if hasCompleted table h (dateOf day)
                 then Analytics.Completed else Analytics.Missed)).
  { unfold cellOf. rewrite Hhsd, makeDate_parseDate, parseDate_ltb, midnight_gtb.
    rewrite toISODate_parseDate, <- toISODate_makeDate, Hdate.
    fold today.
    destruct (dateOf day <? start_date hb); [reflexivity|].
    destruct (dateOf day >? today); [reflexivity|]. simpl orb. cbv iota.
    rewrite <- (find_on_day table h (dateOf 1) (toISODate (makeDate y m 0))
                  (dateOf day) Hu).
    - rewrite Hrows, Hdate. destruct (find _ _) as [c|]; [|reflexivity].
      simpl. destruct (completed c); reflexivity.
    - rewrite Hend. rewrite (Hplus day), (Hplus lastDay). lia. }
  split; [|split; [exact Hstatus|split]].
  - apply get_In_Z; [exact Hnd|]. rewrite Hcal.
    apply in_map_iff. exists day. split; [now rewrite Hdate|].
    now apply daysUpTo_In.
  - intros Hbefore. rewrite Hstatus.
    apply Z.ltb_lt in Hbefore. now rewrite Hbefore.
  - intros [Hstart Htoday] Hnone. rewrite Hstatus, Hnone.
    apply Z.ltb_ge in Hstart. rewrite Hstart.
    replace (dateOf day >? today) with false; [reflexivity|].
    symmetry. rewrite Z.gtb_ltb. apply Z.ltb_ge. exact Htoday.
Qed.

(* ------------------------------------------------------------------ *)
(** ** Rounded percentages *)

Lemma Math_round_bounds (x : Q) :
  (inject_Z (Js.Math_round x) - (1 # 2) <= x)%Q /\ (x < inject_Z (Js.Math_round x) + (1 # 2))%Q.
Proof.
  unfold Js.Math_round.
  pose proof (Qfloor_le (x + (1 # 2))) as Hlo.
  pose proof (Qlt_floor (x + (1 # 2))) as Hhi.
  rewrite inject_Z_plus in Hhi. change (inject_Z 1) with 1%Q in Hhi. split; lra.
Qed.

Lemma Math_round_comp (x y : Q) : (x == y)%Q -> Js.Math_round x = Js.Math_round y.
Proof.
  intros H. unfold Js.Math_round. apply Qfloor_comp. now rewrite H.
Qed.

Lemma Math_round_mono (x y : Q) : (x <= y)%Q -> Js.Math_round x <= Js.Math_round y.
Proof.
  intros H. unfold Js.Math_round. apply Qfloor_resp_le. lra.
Qed.

Lemma ratio_bounds (c t : Z) :
  0 <= c <= t -> 0 < t -> (0 <= inject_Z c / inject_Z t <= 1)%Q.
Proof.
  intros Hc Ht.
  assert (Ht' : (0 < inject_Z t)%Q) by (unfold Qlt; simpl; lia).
  split.
  - apply Qle_shift_div_l; [exact Ht'|]. rewrite Qmult_0_l.
    unfold Qle; simpl; lia.
  - apply Qle_shift_div_r; [exact Ht'|]. rewrite Qmult_1_l.
    unfold Qle; simpl; lia.
Qed.

Lemma filter_length_le {A} (p : A -> bool) (l : list A) :
  (List.length (filter p l) <= List.length l)%nat.
Proof. induction l as [|a l IH]; simpl; [lia|]. destruct (p a); simpl; lia. Qed.

(** For up to seven rows the score computed in doubles is the exact
    percentage rounded to the nearest integer. *)
Lemma scoreAgrees_week :
  forallb (fun t => forallb (fun c => implb ((1 <=? t) && (c <=? t)) (scoreAgrees t c))
                      (zrange 8)) (zrange 8) = true.
Proof. vm_compute. reflexivity. Qed.

Lemma score_week (t c : Z) :
  1 <= t <= 7 -> 0 <= c <= t ->
  Js.roundNumber (Js.mul (Js.div (Js.num c) (Js.num t)) (Js.num 100))
  = Js.Math_round (inject_Z c / inject_Z t * 100).
Proof.
  intros Ht Hc. pose proof scoreAgrees_week as Hall.
  rewrite forallb_forall in Hall.
  assert (Ht' : 0 <= t < Z.of_nat 8) by (simpl; lia).
  specialize (Hall t (zrange_In 8 t Ht')).
  rewrite forallb_forall in Hall.
  assert (Hc' : 0 <= c < Z.of_nat 8) by (simpl; lia).
  specialize (Hall c (zrange_In 8 c Hc')).
  replace (1 <=? t) with true in Hall by (symmetry; apply Z.leb_le; lia).
  replace (c <=? t) with true in Hall by (symmetry; apply Z.leb_le; lia).
  apply Z.eqb_eq. exact Hall.
Qed.

(** For a month of 28 to 31 days the integer [Math.round(successRate * 100)]
    computed in doubles is the exact value rounded to the nearest integer. *)
Lemma rateAgrees_month :
  forallb (fun t => forallb (fun c => implb (c <=? t) (rateAgrees t c)) (zrange 32))
    [28; 29; 30; 31] = true.
Proof. vm_compute. reflexivity. Qed.

Lemma rate_month (t c : Z) :
  28 <= t <= 31 -> 0 <= c <= t ->
  Js.roundNumber
    (Js.mul (Js.mul (Js.div (Js.num c) (Js.num t)) (Js.num 100)) (Js.num 100))
  = Js.Math_round (inject_Z c / inject_Z t * 100 * 100).
Proof.
  intros Ht Hc. pose proof rateAgrees_month as Hall.
  rewrite forallb_forall in Hall.
  assert (Hin : In t [28; 29; 30; 31]) by (simpl; lia).
  specialize (Hall t Hin).
  rewrite forallb_forall in Hall.
  assert (Hc' : 0 <= c < Z.of_nat 32) by (simpl; lia).
  specialize (Hall c (zrange_In 32 c Hc')).
  replace (c <=? t) with true in Hall by (symmetry; apply Z.leb_le; lia).
  apply Z.eqb_eq. exact Hall.
Qed.

(** With forty rows of which twenty-three are completed the score is 57:
    the quotient 23/40 is rounded to a double before it is multiplied by
    100, and the product is just below 57.5, while the exact percentage
    57.5 rounds to 58. *)
Lemma consistencyScoreOf_forty_rows :
  Analytics.consistencyScoreOf (rowsWith 40 23) = 57 /\
  Js.Math_round (100 * 23 / 40) = 58.
Proof. split; vm_compute; reflexivity. Qed.

Lemma distinct_in_range (l : list Z) (lo : Z) (n : nat) :
  NoDup l -> (forall x, In x l -> lo <= x < lo + Z.of_nat n) ->
  (List.length l <= n)%nat.
Proof.
  intros Hnd Hin.
  assert (Hincl : incl l (map (fun i => lo + Z.of_nat i) (seq 0 n))).
  { intros x Hx. specialize (Hin x Hx). apply in_map_iff.
    exists (Z.to_nat (x - lo)). split; [lia|apply in_seq; lia]. }
  pose proof (NoDup_incl_length Hnd Hincl) as H.
  rewrite length_map, length_seq in H. exact H.
Qed.

(** Under the invariant the query of [GET /weekly] returns at most one row
    for each of the seven days of its range. *)
Lemma week_rows_le_7 (table : list CheckIn) (h : string) (today : Z) :
  unique_per_day table ->
  (List.length (Analytics.weekCheckIns table h today) <= 7)%nat.
Proof.
  intros Hu. unfold Analytics.weekCheckIns. cbv zeta.
  rewrite order_by_date_length, <- (length_map date).
  apply (distinct_in_range _ (toISODate today - 6) 7).
  - apply (unique_dates_of_habit _ h); [exact Hu|].
    intros c Hc. apply andb_prop in Hc. destruct Hc as [Hc _].
    apply andb_prop in Hc. destruct Hc as [Hc _]. now apply String.eqb_eq.
  - intros x Hx. apply in_map_iff in Hx. destruct Hx as (c & <- & Hc).
    apply filter_In in Hc. destruct Hc as [_ Hc].
    apply andb_prop in Hc. destruct Hc as [Hc Hhi].
    apply andb_prop in Hc. destruct Hc as [_ Hlo].
    rewrite toISODate_addDays in Hlo.
    apply Z.leb_le in Hlo. apply Z.leb_le in Hhi. simpl Z.of_nat. lia.
Qed.

Lemma consistencyScoreOf_spec (rows : list CheckIn) :
  (List.length rows <= 7)%nat ->
  let totalDays := Z.of_nat (List.length rows) in
  let completedDays := Z.of_nat (List.length (filter completed rows)) in
  let score := Analytics.consistencyScoreOf rows in
  score = (if totalDays =? 0 then 0
           else Js.Math_round (100 * inject_Z completedDays / inject_Z totalDays)) /\
  (totalDays = 0 \/
   (inject_Z score - (1 # 2) <= 100 * inject_Z completedDays / inject_Z totalDays
    /\ 100 * inject_Z completedDays / inject_Z totalDays < inject_Z score + (1 # 2))%Q) /\
  0 <= score <= 100.
Proof.
  intros Hlen totalDays completedDays score.
  assert (Hc : 0 <= completedDays <= totalDays).
  { subst completedDays totalDays. pose proof (filter_length_le completed rows). lia. }
  assert (Ht7 : totalDays <= 7) by (subst totalDays; lia).
  subst score. unfold Analytics.consistencyScoreOf.
  fold totalDays. fold completedDays.
  destruct (Z.eqb_spec totalDays 0) as [Hz|Hnz].
  - rewrite Hz. cbn [Z.gtb Z.compare]. repeat split; auto; lia.
  - assert (Hpos : 0 < totalDays) by lia.
    replace (totalDays >? 0) with true by (symmetry; apply Z.gtb_lt; lia).
    rewrite (score_week totalDays completedDays) by lia.
    assert (Ht' : (0 < inject_Z totalDays)%Q) by (unfold Qlt; simpl; lia).
    assert (Heq : (inject_Z completedDays / inject_Z totalDays * 100
                   == 100 * inject_Z completedDays / inject_Z totalDays)%Q).
    { field. lra. }
    pose proof (ratio_bounds completedDays totalDays Hc Hpos) as Hr.
    split; [now apply Math_round_comp|]. split.
    + right. rewrite <- Heq. apply Math_round_bounds.
    + split.
      * apply Z.le_trans with (Js.Math_round 0); [apply Z.le_refl|].
        apply Math_round_mono.
        set (q := (inject_Z completedDays / inject_Z totalDays)%Q) in *. lra.
      * apply Z.le_trans with (Js.Math_round 100); [|apply Z.le_refl].
        apply Math_round_mono.
        set (q := (inject_Z completedDays / inject_Z totalDays)%Q) in *. lra.
Qed.

(** C5. For a stored history with at most one record per (habit, date),
    the consistency score of [GET /weekly] is
    [round(100 * completedDays / totalObservedDays)] over the rows of the
    queried seven-day range, of which there are at most seven (the nearest
    integer, so within one half of the exact percentage, and between 0 and
    100), and 0 when the range holds no row.  On the week of scenario C,
    with a record on each of the seven days and only Monday, Tuesday and
    Wednesday completed, it is [round(100 * 3 / 7) = 43]; the days are the
    observed ones, so with no record on the other four days it is
    [round(100 * 3 / 3) = 100]. *)
Theorem consistency_score_is_rounded_percentage :
  forall (table : list CheckIn) (h : string) (today : Z),
    unique_per_day table ->
    let rows := Analytics.weekCheckIns table h today in
    let totalDays := Z.of_nat (List.length rows) in
    let completedDays := Z.of_nat (List.length (filter completed rows)) in
    let score := Analytics.consistency_score (Analytics.weekly table h today) in
    totalDays <= 7 /\
    score = (if totalDays =? 0 then 0
             else Js.Math_round (100 * inject_Z completedDays / inject_Z totalDays)) /\
    (totalDays = 0 \/
     (inject_Z score - (1 # 2) <= 100 * inject_Z completedDays / inject_Z totalDays
      /\ 100 * inject_Z completedDays / inject_Z totalDays < inject_Z score + (1 # 2))%Q) /\
    0 <= score <= 100 /\
    List.length (Analytics.weekCheckIns scenarioC_full "habit-1" (noonOf (monday + 6)))
      = 7%nat /\
    Analytics.consistency_score
      (Analytics.weekly scenarioC_full "habit-1" (noonOf (monday + 6))) = 43 /\
    Js.Math_round (100 * 3 / 7) = 43 /\
    List.length (Analytics.weekCheckIns scenarioC_sparse "habit-1" (noonOf (monday + 6)))
      = 3%nat /\
    Analytics.consistency_score
      (Analytics.weekly scenarioC_sparse "habit-1" (noonOf (monday + 6))) = 100.
Proof.
  intros table h today Hu rows totalDays completedDays score.
  pose proof (week_rows_le_7 table h today Hu) as Hlen. fold rows in Hlen.
  destruct (consistencyScoreOf_spec rows Hlen) as (Hscore & Hround & Hbounds).
  split; [subst totalDays; lia|].
  split; [exact Hscore|]. split; [exact Hround|]. split; [exact Hbounds|].
  repeat split; vm_compute; reflexivity.
Qed.

(* ------------------------------------------------------------------ *)
(** ** Monthly success rate *)

Lemma monthStatsOf_fields (cal : list (Z * Analytics.Cell)) :
  let totalDays := Z.of_nat (List.length cal) in
  let completedDays :=
    Z.of_nat (List.length
      (filter (fun kv => Analytics.Status_eqb (Analytics.status (snd kv))
                           Analytics.Completed) cal)) in
  Analytics.total_days (Analytics.monthStatsOf cal) = totalDays /\
  Analytics.completed_days (Analytics.monthStatsOf cal) = completedDays /\
  Analytics.m_success_rate (Analytics.monthStatsOf cal)
  = (inject_Z
       (Js.roundNumber
          (Js.mul (if totalDays >? 0
                   then Js.mul (Js.div (Js.num completedDays) (Js.num totalDays))
                          (Js.num 100)
                   else Js.num 0) (Js.num 100))) / 100)%Q.
Proof. repeat split; reflexivity. Qed.

Lemma monthly_total_days (habits : list Habit) (table : list CheckIn)
    (h : string) (y m now : Z) :
  100 <= y <= 9999 -> 1 <= m <= 12 ->
  exists r,
    Analytics.monthly habits table h y m now = Some r /\
    Analytics.month_stats r = Analytics.monthStatsOf (Analytics.calendar r) /\
    Z.of_nat (List.length (Analytics.calendar r)) = daysInMonth y m /\
    28 <= daysInMonth y m <= 31.
Proof.
  intros Hy Hm.
  destruct (monthly_calendar habits table h y m now Hy Hm)
    as (hsd & rows & cal & _ & _ & Hcal & Hmonthly).
  destruct (month_dates y m ltac:(lia) Hm) as (_ & Hlast & Hlen).
  exists (Analytics.mkMonthly cal (Analytics.monthStatsOf cal)).
  split; [exact Hmonthly|]. split; [reflexivity|]. split; [|exact Hlen].
  cbn [Analytics.calendar]. rewrite Hcal, length_map, Hlast.
  apply daysUpTo_length. lia.
Qed.

(** C7. For a year written with four digits and a month 1..12, the
    success rate of [GET /monthly/:year/:month] is
    [completedDays / totalDays * 100] rounded to two decimal places (a
    multiple of 1/100 within 1/200 of the exact percentage), where
    [totalDays] is the number of days of the whole month, 28 to 31, whatever
    today and the habit's start date are, so days tagged [Future] count in
    the denominator.  For January 2024 seen on the 7th, with three
    completed days, it is 9.68 (3 of 31 days). *)
Theorem monthly_success_rate_counts_every_day :
  forall (habits : list Habit) (table : list CheckIn) (h : string) (y m now : Z),
    100 <= y <= 9999 ->
    1 <= m <= 12 ->
    exists r,
      Analytics.monthly habits table h y m now = Some r /\
      let st := Analytics.month_stats r in
      let exact :=
        (inject_Z (Analytics.completed_days st) / inject_Z (Analytics.total_days st)
         * 100)%Q in
      Analytics.total_days st = daysInMonth y m /\
      28 <= Analytics.total_days st <= 31 /\
      Analytics.total_days st = Z.of_nat (List.length (Analytics.calendar r)) /\
      Analytics.completed_days st
        = Z.of_nat (List.length
            (filter (fun kv => Analytics.Status_eqb (Analytics.status (snd kv))
                                 Analytics.Completed)
                    (Analytics.calendar r))) /\
      (Analytics.m_success_rate st
         == inject_Z (Js.Math_round (exact * 100)) / 100)%Q /\
      (Analytics.m_success_rate st - (1 # 200) <= exact)%Q /\
      (exact < Analytics.m_success_rate st + (1 # 200))%Q /\
      (exists jan,
         Analytics.monthly [sampleHabit] scenarioC_sparse "habit-1"
           2024 1 (noonOf (monday + 6)) = Some jan /\
         Analytics.total_days (Analytics.month_stats jan) = 31 /\
         Analytics.completed_days (Analytics.month_stats jan) = 3 /\
         (Analytics.m_success_rate (Analytics.month_stats jan) == 968 # 100)%Q).
Proof.
  intros habits table h y m now Hy Hm.
  destruct (monthly_total_days habits table h y m now Hy Hm)
    as (r & Hr & Hs & Htotal & Hlen).
  exists r. split; [exact Hr|]. intros st exact.
  destruct (monthStatsOf_fields (Analytics.calendar r)) as (Htd & Hcd & Hsr).
  cbv zeta in Htd, Hcd, Hsr. rewrite <- Hs in Htd, Hcd, Hsr.
  fold st in Htd, Hcd, Hsr.
  assert (Hc : 0 <= Analytics.completed_days st <= Analytics.total_days st).
  { rewrite Hcd, Htd.
    pose proof (filter_length_le
                  (fun kv => Analytics.Status_eqb (Analytics.status (snd kv))
                               Analytics.Completed) (Analytics.calendar r)). lia. }
  assert (Hrate : (Analytics.m_success_rate st
                   == inject_Z (Js.Math_round (exact * 100)) / 100)%Q).
  { rewrite Hsr, <- Htd, <- Hcd.
    replace (Analytics.total_days st >? 0) with true
      by (symmetry; apply Z.gtb_lt; lia).
    rewrite (rate_month (Analytics.total_days st) (Analytics.completed_days st))
      by lia.
    reflexivity. }
  split; [lia|]. split; [lia|].
  split; [exact Htd|]. split; [exact Hcd|]. split; [exact Hrate|].
  destruct (Math_round_bounds (exact * 100)) as [Hlo Hhi].
  assert (Hdiv : (inject_Z (Js.Math_round (exact * 100)) / 100
                  == inject_Z (Js.Math_round (exact * 100)) * (1 # 100))%Q)
    by reflexivity.
  split; [rewrite Hrate, Hdiv; lra|]. split; [rewrite Hrate, Hdiv; lra|].
  eexists. split; [vm_compute; reflexivity|].
  repeat split; vm_compute; reflexivity.
Qed.

(* ------------------------------------------------------------------ *)
(** ** Selection by strict comparison *)

Lemma gtb_lt (a b : Q) : Js.gtb a b = true <-> (b < a)%Q.
Proof.
  unfold Js.gtb. rewrite negb_true_iff, <- not_true_iff_false, Qle_bool_iff.
  split; [apply Qnot_le_lt|apply Qlt_not_le].
Qed.

Lemma gtb_le (a b : Q) : Js.gtb a b = false <-> (a <= b)%Q.
Proof. unfold Js.gtb. now rewrite negb_false_iff, Qle_bool_iff. Qed.

Lemma ltb_lt (a b : Q) : Js.ltb a b = true <-> (a < b)%Q.
Proof.
  unfold Js.ltb. rewrite negb_true_iff, <- not_true_iff_false, Qle_bool_iff.
  split; [apply Qnot_le_lt|apply Qlt_not_le].
Qed.

Lemma ltb_ge (a b : Q) : Js.ltb a b = false <-> (b <= a)%Q.
Proof. unfold Js.ltb. now rewrite negb_false_iff, Qle_bool_iff. Qed.

Lemma firstAbove_spec (ratios : list (string * Q)) :
  forall init, isFirstMax init ratios (fst (firstAbove init ratios)).
Proof.
  unfold firstAbove.
  induction ratios as [|e rs IH]; intros init; simpl.
  - left. split; [intros e []|reflexivity].
  - destruct (Js.gtb (snd e) (snd init)) eqn:Hgt.
    + apply gtb_lt in Hgt. right.
      destruct (IH e) as [[Hall Heq]|(l1 & e' & l2 & Hrs & Heq & Hlt & H1 & H2)].
      * exists [], e, rs.
        split; [reflexivity|]. split; [exact Heq|]. split; [exact Hgt|].
        split; [intros x []|exact Hall].
      * exists (e :: l1), e', l2.
        split; [simpl; now rewrite Hrs|]. split; [exact Heq|].
        split; [eapply Qlt_trans; eassumption|].
        split; [|exact H2]. intros x [<-|Hx]; auto.
    + apply gtb_le in Hgt.
      destruct (IH init) as [[Hall Heq]|(l1 & e' & l2 & Hrs & Heq & Hlt & H1 & H2)].
      * left. split; [|exact Heq]. intros x [<-|Hx]; auto.
      * right. exists (e :: l1), e', l2.
        split; [simpl; now rewrite Hrs|]. split; [exact Heq|].
        split; [exact Hlt|]. split; [|exact H2].
        intros x [<-|Hx]; auto. eapply Qle_lt_trans; eassumption.
Qed.

Lemma firstBelow_spec (ratios : list (string * Q)) :
  forall init, isFirstMin init ratios (fst (firstBelow init ratios)).
Proof.
  unfold firstBelow.
  induction ratios as [|e rs IH]; intros init; simpl.
  - left. split; [intros e []|reflexivity].
  - destruct (Js.ltb (snd e) (snd init)) eqn:Hlt0.
    + apply ltb_lt in Hlt0. right.
      destruct (IH e) as [[Hall Heq]|(l1 & e' & l2 & Hrs & Heq & Hlt & H1 & H2)].
      * exists [], e, rs.
        split; [reflexivity|]. split; [exact Heq|]. split; [exact Hlt0|].
        split; [intros x []|exact Hall].
      * exists (e :: l1), e', l2.
        split; [simpl; now rewrite Hrs|]. split; [exact Heq|].
        split; [eapply Qlt_trans; eassumption|].
        split; [|exact H2]. intros x [<-|Hx]; auto.
    + apply ltb_ge in Hlt0.
      destruct (IH init) as [[Hall Heq]|(l1 & e' & l2 & Hrs & Heq & Hlt & H1 & H2)].
      * left. split; [|exact Heq]. intros x [<-|Hx]; auto.
      * right. exists (e :: l1), e', l2.
        split; [simpl; now rewrite Hrs|]. split; [exact Heq|].
        split; [exact Hlt|]. split; [|exact H2].
        intros x [<-|Hx]; auto. eapply Qlt_le_trans; eassumption.
Qed.

(** The loop of the insight builder runs both selections side by side. *)
Lemma bestWorst_fold (counts : list (string * Insight.DayCount)) :
  forall st,
    (Insight.bestDay (fold_left Insight.bestWorstStep counts st),
     Insight.bestRatio (fold_left Insight.bestWorstStep counts st))
    = firstAbove (Insight.bestDay st, Insight.bestRatio st) (ratiosOf counts)
    /\ (Insight.worstDay (fold_left Insight.bestWorstStep counts st),
        Insight.worstRatio (fold_left Insight.bestWorstStep counts st))
       = firstBelow (Insight.worstDay st, Insight.worstRatio st) (ratiosOf counts).
Proof.
  unfold firstAbove, firstBelow, ratiosOf.
  induction counts as [|[day c] counts IH]; intros st;
    cbn [fold_left map fst snd]; [now split|].
  destruct (IH (Insight.bestWorstStep st (day, c))) as [Hb Hw].
  rewrite Hb, Hw. unfold Insight.bestWorstStep.
  destruct (Js.gtb (Insight.ratioOf c) (Insight.bestRatio st));
    cbn [Insight.worstRatio Insight.bestRatio Insight.bestDay Insight.worstDay];
    destruct (Js.ltb (Insight.ratioOf c) (Insight.worstRatio st));
    cbn [Insight.worstRatio Insight.bestRatio Insight.bestDay Insight.worstDay];
    split; reflexivity.
Qed.

(* ------------------------------------------------------------------ *)
(** ** The day buckets of the weekly insight *)

Lemma get_None_str {V : Type} (o : list (string * V)) (k : string) :
  ~ In k (map fst o) -> Js.get String.eqb o k = None.
Proof.
  induction o as [|[k' v] o IH]; simpl; intros H; [reflexivity|].
  destruct (String.eqb_spec k' k) as [->|Hne]; [exfalso; auto|].
  apply IH. auto.
Qed.

Lemma update_last {V : Type} (o : list (string * V)) (k : string) (v : V)
    (f : V -> V) :
  ~ In k (map fst o) ->
  Js.update String.eqb (o ++ [(k, v)]) k f = (o ++ [(k, f v)])%list.
Proof.
  induction o as [|[k' v'] o IH]; simpl; intros H.
  - now rewrite String.eqb_refl.
  - destruct (String.eqb_spec k' k) as [->|Hne]; [exfalso; auto|].
    rewrite IH; auto.
Qed.

(** A day whose name is not yet a key gets a new bucket, appended after
    the existing ones, with one observation. *)
Lemma bumpCount_fresh (counts : list (string * Insight.DayCount))
    (dayName : string) (done : bool) :
  ~ In dayName (map fst counts) ->
  bumpCount counts dayName done
  = (counts ++ [(dayName, Insight.mkDayCount (if done then 1 else 0) 1)])%list.
Proof.
  intros H. unfold bumpCount. cbv zeta.
  rewrite (get_None_str counts dayName H).
  rewrite (set_fresh String.eqb counts dayName _ (get_None_str counts dayName H)).
  rewrite (update_last counts dayName _ _ H).
  destruct done; [rewrite (update_last counts dayName _ _ H)|]; reflexivity.
Qed.

Lemma weekStep_fields (ws : Z) (rows : list CheckIn) (acc : Insight.WeekAcc) (i : Z) :
  Insight.dayCounts (Insight.weekStep ws rows acc i)
  = bumpCount (Insight.dayCounts acc) (Insight.dayNameOf (addDays ws i))
      (doneOn rows (toISODate (addDays ws i)))
  /\ Insight.weekCheckIns (Insight.weekStep ws rows acc i)
     = (Insight.weekCheckIns acc ++ [doneOn rows (toISODate (addDays ws i))])%list.
Proof. split; reflexivity. Qed.

Lemma fold_weekStep_counts (ws : Z) (rows : list CheckIn) (idx : list Z) :
  forall acc,
    NoDup (map fst (Insight.dayCounts acc)
           ++ map (fun i => Insight.dayNameOf (addDays ws i)) idx) ->
    Insight.dayCounts (fold_left (Insight.weekStep ws rows) idx acc)
    = (Insight.dayCounts acc
       ++ map (fun i => (Insight.dayNameOf (addDays ws i),
                         Insight.mkDayCount
                           (if doneOn rows (toISODate (addDays ws i)) then 1 else 0)
                           1)) idx)%list.
Proof.
  induction idx as [|i idx IH]; intros acc Hnd; cbn [fold_left map].
  - now rewrite app_nil_r.
  - assert (Hfresh : ~ In (Insight.dayNameOf (addDays ws i))
                        (map fst (Insight.dayCounts acc))).
    { cbn [map] in Hnd. apply NoDup_remove_2 in Hnd. intros Hin. apply Hnd.
      apply in_or_app. now left. }
    rewrite IH.
    + rewrite (proj1 (weekStep_fields ws rows acc i)).
      rewrite (bumpCount_fresh _ _ _ Hfresh). now rewrite <- app_assoc.
    + rewrite (proj1 (weekStep_fields ws rows acc i)).
      rewrite (bumpCount_fresh _ _ _ Hfresh).
      rewrite map_app. cbn [map fst]. rewrite <- app_assoc. exact Hnd.
Qed.

Lemma getDay_addDays (ws i : Z) :
  getDay (addDays ws i) = ((toISODate ws + 4) mod 7 + i) mod 7.
Proof.
  unfold getDay. fold (toISODate (addDays ws i)). rewrite toISODate_addDays.
  rewrite Zplus_mod_idemp_l. f_equal. lia.
Qed.

(** Seven consecutive days carry seven different day names. *)
Lemma week_labels_NoDup (ws : Z) :
  NoDup (map (fun i => Insight.dayNameOf (addDays ws i)) [0; 1; 2; 3; 4; 5; 6]).
Proof.
  unfold Insight.dayNameOf. cbn [map]. rewrite !getDay_addDays.
  pose proof (Z.mod_pos_bound (toISODate ws + 4) 7 ltac:(lia)) as Hg.
  set (g := (toISODate ws + 4) mod 7) in *.
  assert (Hcases : g = 0 \/ g = 1 \/ g = 2 \/ g = 3 \/ g = 4 \/ g = 5 \/ g = 6)
    by lia.
  clearbody g.
  destruct Hcases as [-> | [-> | [-> | [-> | [-> | [-> | ->]]]]]];
    cbv; repeat constructor; simpl; intuition discriminate.
Qed.

(** The buckets of the insight builder, in the order of [Object.entries]:
    one per day of the window, oldest day first, each with one
    observation. *)
Lemma weekAcc_counts (table : list CheckIn) (h : string) (today : Z) :
  Insight.dayCounts (Insight.weekAcc table h today)
  = map (fun i =>
           (Insight.dayNameOf (addDays (addDays today (-6)) i),
            Insight.mkDayCount
              (if doneOn (Insight.windowCheckIns table h today)
                         (toISODate (addDays (addDays today (-6)) i))
               then 1 else 0) 1))
        [0; 1; 2; 3; 4; 5; 6].
Proof.
  unfold Insight.weekAcc. cbv zeta.
  rewrite fold_weekStep_counts; [reflexivity|].
  cbn [Insight.dayCounts map app]. apply week_labels_NoDup.
Qed.

Lemma weeklyInsight_days (habit : Habit) (table : list CheckIn)
    (partnerId : option string) (today : Z) :
  Insight.ctx_bestDay (Insight.weeklyInsight habit table partnerId today)
  = Insight.bestDay
      (Insight.bestWorst (Insight.dayCounts (Insight.weekAcc table (h_id habit) today)))
  /\ Insight.ctx_worstDay (Insight.weeklyInsight habit table partnerId today)
     = Insight.worstDay
         (Insight.bestWorst (Insight.dayCounts (Insight.weekAcc table (h_id habit) today))).
Proof. split; reflexivity. Qed.

Lemma bestWorst_spec (counts : list (string * Insight.DayCount)) :
  isFirstMax ("Monday", 0%Q) (ratiosOf counts)
    (Insight.bestDay (Insight.bestWorst counts))
  /\ isFirstMin ("Monday", 1%Q) (ratiosOf counts)
       (Insight.worstDay (Insight.bestWorst counts)).
Proof.
  unfold Insight.bestWorst.
  destruct (bestWorst_fold counts
              (Insight.mkBest "Monday" "Monday" 0%Q 1%Q)) as [Hbest Hworst].
  apply (f_equal fst) in Hbest. apply (f_equal fst) in Hworst.
  cbn [fst Insight.bestDay Insight.bestRatio Insight.worstDay Insight.worstRatio]
    in Hbest, Hworst.
  rewrite Hbest, Hworst.
  split; [apply firstAbove_spec|apply firstBelow_spec].
Qed.

(** The selection of the insight builder on the buckets it fills: the
    best and the worst bucket are chosen by the completed/total ratio with
    strict comparisons (greater than an initial 0 for the best, less than an
    initial 1 for the worst), over the buckets in the order the seven days
    of the window are visited, oldest day first; a tie goes to the bucket
    visited first, and "Monday" stays when no bucket has a ratio above 0
    (best) or below 1 (worst). *)
Lemma weekly_insight_buckets_in_window_order :
  forall (habit : Habit) (table : list CheckIn) (partnerId : option string)
         (today : Z),
    let ws := addDays today (-6) in
    let rows := Insight.windowCheckIns table (h_id habit) today in
    let ctx := Insight.weeklyInsight habit table partnerId today in
    let counts := Insight.dayCounts (Insight.weekAcc table (h_id habit) today) in
    counts = map (fun i =>
                    (Insight.dayNameOf (addDays ws i),
                     Insight.mkDayCount
                       (if doneOn rows (toISODate (addDays ws i)) then 1 else 0) 1))
                 [0; 1; 2; 3; 4; 5; 6] /\
    isFirstMax ("Monday", 0%Q) (ratiosOf counts) (Insight.ctx_bestDay ctx) /\
    isFirstMin ("Monday", 1%Q) (ratiosOf counts) (Insight.ctx_worstDay ctx).
Proof.
  intros habit table partnerId today ws rows ctx counts.
  subst ws rows ctx counts.
  split; [apply weekAcc_counts|].
  destruct (weeklyInsight_days habit table partnerId today) as [Hb Hw].
  rewrite Hb, Hw. apply bestWorst_spec.
Qed.

(** C8. The insight builder does not select the days the rule names.
    On Sunday 2024-01-07, with completed check-ins on Monday, Tuesday and
    Wednesday of that week only, the window runs from Monday to Sunday; the
    first weekday from Monday attaining the maximum ratio is Monday and the
    first attaining the minimum is Thursday, and the builder reports
    "Tuesday" and "Friday": each day is counted under the name of the
    following weekday ([dayNames] begins with Monday and is indexed by
    [getDay()], which numbers Sunday 0).  On Wednesday 2024-01-03, with no
    check-in at all, every weekday has ratio 0, so the first weekday from
    Monday attaining the minimum is Monday, and the builder reports
    "Friday": its buckets are created as the days of the window are met,
    from Thursday 2023-12-28 on, and gone through in that order. *)
Theorem weekly_insight_days_on_scenario_C :
  let sunday := noonOf (monday + 6) in
  let wednesday := noonOf (monday + 2) in
  let ctx := Insight.weeklyInsight sampleHabit scenarioC_sparse None sunday in
  let rows := Insight.windowCheckIns scenarioC_sparse "habit-1" sunday in
  let empty := Insight.weeklyInsight sampleHabit [] None wednesday in
  map weekdayOf (windowDays sunday)
  = ["Monday"; "Tuesday"; "Wednesday"; "Thursday"; "Friday"; "Saturday"; "Sunday"] /\
  map (doneOn rows) (windowDays sunday)
  = [true; true; true; false; false; false; false] /\
  claimedBestDay rows (windowDays sunday) = "Monday" /\
  claimedWorstDay rows (windowDays sunday) = "Thursday" /\
  Insight.ctx_bestDay ctx = "Tuesday" /\
  Insight.ctx_worstDay ctx = "Friday" /\
  map weekdayOf (windowDays wednesday)
  = ["Thursday"; "Friday"; "Saturday"; "Sunday"; "Monday"; "Tuesday"; "Wednesday"] /\
  claimedBestDay [] (windowDays wednesday) = "Monday" /\
  claimedWorstDay [] (windowDays wednesday) = "Monday" /\
  Insight.ctx_bestDay empty = "Monday" /\
  Insight.ctx_worstDay empty = "Friday" /\
  map fst (Insight.dayCounts (Insight.weekAcc [] "habit-1" wednesday))
  = ["Friday"; "Saturday"; "Sunday"; "Monday"; "Tuesday"; "Wednesday"; "Thursday"].
Proof. cbv zeta. repeat split; vm_compute; reflexivity. Qed.

(* ------------------------------------------------------------------ *)
(** ** Weekly statistics *)

Lemma weeklyOf_fields (rows : list CheckIn) :
  exists acc,
    acc = fold_left Analytics.weeklyStep rows
            (Analytics.mkWeeklyAcc
               (fold_left (fun o day => Js.set String.eqb o day
                                          (Analytics.mkDayStat 0 0))
                          Analytics.dayNames []) 0 0) /\
    Analytics.day_stats (Analytics.weeklyOf rows) = Analytics.dayStats acc /\
    Analytics.best_day (Analytics.weeklyOf rows)
      = Analytics.bestDayOf (Analytics.dayStats acc) /\
    Analytics.average_checkin_time (Analytics.weeklyOf rows)
      = Analytics.avgTimeOf (Analytics.totalCheckInTimes acc)
          (Analytics.checkInTimeSum acc) /\
    Analytics.consistency_score (Analytics.weeklyOf rows)
      = Analytics.consistencyScoreOf rows.
Proof. eexists. repeat split; reflexivity. Qed.

Lemma update_keys {V : Type} (o : list (string * V)) (k : string) (f : V -> V) :
  map fst (Js.update String.eqb o k f) = map fst o.
Proof.
  induction o as [|[k' v] o IH]; simpl; [reflexivity|].
  destruct (String.eqb k' k); simpl; [reflexivity|now rewrite IH].
Qed.

Lemma weeklyStep_keys (acc : Analytics.WeeklyAcc) (c : CheckIn) :
  map fst (Analytics.dayStats (Analytics.weeklyStep acc c))
  = map fst (Analytics.dayStats acc).
Proof.
  unfold Analytics.weeklyStep. cbv zeta.
  destruct (completed c); [destruct (check_in_time c)|];
    cbn [Analytics.dayStats]; now rewrite !update_keys.
Qed.

Lemma fold_weeklyStep_keys (rows : list CheckIn) :
  forall acc,
    map fst (Analytics.dayStats (fold_left Analytics.weeklyStep rows acc))
    = map fst (Analytics.dayStats acc).
Proof.
  induction rows as [|c rows IH]; intros acc; cbn [fold_left]; [reflexivity|].
  now rewrite IH, weeklyStep_keys.
Qed.

(** The day buckets of [GET /weekly] are always the seven names of
    [dayNames], in that order. *)
Lemma weekly_day_stats_keys (rows : list CheckIn) :
  map fst (Analytics.day_stats (Analytics.weeklyOf rows)) = Analytics.dayNames.
Proof.
  destruct (weeklyOf_fields rows) as (acc & Hacc & Hstats & _).
  rewrite Hstats, Hacc, fold_weeklyStep_keys. reflexivity.
Qed.

Lemma bestDayOf_fold (stats : list (string * Analytics.DayStat)) :
  forall st,
    fold_left Analytics.bestStep stats st = firstAbove st (statRatios stats).
Proof.
  unfold firstAbove, statRatios.
  induction stats as [|[day c] stats IH]; intros [bestDay bestRatio];
    cbn [fold_left map fst snd]; [reflexivity|].
  rewrite IH. unfold Analytics.bestStep. cbn [fst snd].
  destruct (Js.gtb (Analytics.ratioOf c) bestRatio); reflexivity.
Qed.

(** The best day of [GET /weekly] is the first bucket, from the bucket
    named "Monday" to the one named "Sunday", that attains the largest
    completed/total ratio; a bucket without observation has ratio 0 and
    "Monday" stays when no ratio is above 0. *)
Lemma weekly_best_day_rule (rows : list CheckIn) :
  isFirstMax ("Monday", 0%Q)
    (statRatios (Analytics.day_stats (Analytics.weeklyOf rows)))
    (Analytics.best_day (Analytics.weeklyOf rows)).
Proof.
  destruct (weeklyOf_fields rows) as (acc & _ & Hstats & Hbest & _).
  rewrite Hstats, Hbest. unfold Analytics.bestDayOf.
  rewrite bestDayOf_fold. apply firstAbove_spec.
Qed.

(** C3, on the code. In the week from Monday 2024-01-01 to Sunday
    2024-01-07 with completions on Monday, Tuesday and Wednesday only
    (with no record, or with a not-completed record, on the other four
    days), [GET /weekly] answers "Tuesday": [getDay] numbers Monday 1, and
    [dayNames[1]] is "Tuesday", so the three completed days fill the buckets
    "Tuesday", "Wednesday" and "Thursday" and the bucket "Monday" holds
    Sunday. *)
Theorem best_day_on_scenario_C :
  getDay (parseDate monday) = 1 /\
  Analytics.dayNameOf (parseDate monday) = "Tuesday" /\
  Analytics.best_day
    (Analytics.weekly scenarioC_sparse "habit-1" (noonOf (monday + 6))) = "Tuesday" /\
  Analytics.best_day
    (Analytics.weekly scenarioC_full "habit-1" (noonOf (monday + 6))) = "Tuesday" /\
  Js.get String.eqb
    (Analytics.day_stats
       (Analytics.weekly scenarioC_sparse "habit-1" (noonOf (monday + 6))))
    "Monday" = Some (Analytics.mkDayStat 0 0) /\
  Js.get String.eqb
    (Analytics.day_stats
       (Analytics.weekly scenarioC_sparse "habit-1" (noonOf (monday + 6))))
    "Thursday" = Some (Analytics.mkDayStat 1 1).
Proof. repeat split; vm_compute; reflexivity. Qed.

(* ------------------------------------------------------------------ *)
(** ** Average check-in time *)

Lemma weeklyStep_times (acc : Analytics.WeeklyAcc) (c : CheckIn) :
  Analytics.totalCheckInTimes (Analytics.weeklyStep acc c)
  = Analytics.totalCheckInTimes acc + (if timed c then 1 else 0)
  /\ Analytics.checkInTimeSum (Analytics.weeklyStep acc c)
     = Analytics.checkInTimeSum acc + (if timed c then minutesOf c else 0).
Proof.
  unfold Analytics.weeklyStep, timed, minutesOf. cbv zeta.
  destruct (completed c); [destruct (check_in_time c)|]; simpl; split; lia.
Qed.

(** The two accumulators of the weekly loop: the number of completed rows
    with a recorded time, and the sum of their minutes since midnight. *)
Lemma fold_weeklyStep_times (rows : list CheckIn) :
  forall acc,
    Analytics.totalCheckInTimes (fold_left Analytics.weeklyStep rows acc)
    = Analytics.totalCheckInTimes acc
      + Z.of_nat (List.length (filter timed rows))
    /\ Analytics.checkInTimeSum (fold_left Analytics.weeklyStep rows acc)
       = Analytics.checkInTimeSum acc + sumMinutes (filter timed rows).
Proof.
  induction rows as [|c rows IH]; intros acc; cbn [fold_left filter].
  - simpl. split; lia.
  - destruct (IH (Analytics.weeklyStep acc c)) as [Hn Hs].
    destruct (weeklyStep_times acc c) as [Hn1 Hs1].
    rewrite Hn, Hs, Hn1, Hs1.
    destruct (timed c); simpl; split; lia.
Qed.

(** The average is reported exactly when it is positive: with no timed
    row, or with timed rows whose minutes add up to 0, it is absent. *)
Lemma avgTimeOf_absent (count sum : Z) :
  0 <= count -> 0 <= sum ->
  (Analytics.avgTimeOf count sum = None <-> count = 0 \/ sum = 0).
Proof.
  intros Hcount Hsum. unfold Analytics.avgTimeOf. cbv zeta.
  destruct count as [|p|p]; [| |lia].
  - simpl. split; auto.
  - replace (Z.pos p >? 0) with true by reflexivity.
    destruct (Js.gtb (inject_Z sum / inject_Z (Z.pos p)) 0) eqn:Hgt.
    + apply gtb_lt in Hgt. split; [discriminate|].
      intros [Hc|Hs]; [discriminate|]. subst sum.
      exfalso. revert Hgt. unfold Qlt, Qdiv, Qmult, Qinv. simpl. lia.
    + apply gtb_le in Hgt. split; [|reflexivity]. intros _. right.
      revert Hgt. unfold Qle, Qdiv, Qmult, Qinv. simpl. lia.
Qed.

Lemma weekly_average_absent (rows : list CheckIn) :
  (forall c, In c rows -> 0 <= minutesOf c) ->
  (Analytics.average_checkin_time (Analytics.weeklyOf rows) = None
   <-> filter timed rows = [] \/ sumMinutes (filter timed rows) = 0).
Proof.
  intros Hmin.
  destruct (weeklyOf_fields rows) as (acc & Hacc & _ & _ & Havg & _).
  rewrite Havg, Hacc.
  destruct (fold_weeklyStep_times rows
              (Analytics.mkWeeklyAcc
                 (fold_left (fun o day => Js.set String.eqb o day
                                            (Analytics.mkDayStat 0 0))
                            Analytics.dayNames []) 0 0)) as [Hn Hs].
  rewrite Hn, Hs. cbn [Analytics.totalCheckInTimes Analytics.checkInTimeSum].
  rewrite !Z.add_0_l.
  assert (Hsum : 0 <= sumMinutes (filter timed rows)).
  { assert (Hall : forall l, (forall c, In c l -> 0 <= minutesOf c) ->
                             0 <= sumMinutes l).
    { induction l as [|c l IH]; simpl; intros H; [lia|].
      pose proof (H c (or_introl eq_refl)).
      assert (0 <= sumMinutes l) by (apply IH; intros x Hx; apply H; now right).
      lia. }
    apply Hall. intros c Hc. apply filter_In in Hc. now apply Hmin. }
  rewrite avgTimeOf_absent by lia.
  destruct (filter timed rows) as [|c l]; simpl List.length.
  - split; auto.
  - split; intros [H|H]; [lia|now right|discriminate|now right].
Qed.

(** C6, on the code. A completed check-in recorded at 00:00:30 is the
    only timed day of its week, and the average check-in time is absent;
    and two timed days at 00:59 and 01:00 are rendered "0:60".  With no
    timed day the average is absent, and times 14:05 and 09:07 give
    "11:36". *)
Theorem average_time_at_midnight_is_absent :
  filter timed
    (Analytics.weekCheckIns [checkInOn 1 monday true (Some (mkTime 0 0 30))]
       "habit-1" (noonOf monday))
  = [checkInOn 1 monday true (Some (mkTime 0 0 30))] /\
  Analytics.average_checkin_time
    (Analytics.weekly [checkInOn 1 monday true (Some (mkTime 0 0 30))]
       "habit-1" (noonOf monday)) = None /\
  Analytics.average_checkin_time
    (Analytics.weekly [checkInOn 1 monday true (Some (mkTime 0 59 0));
                       checkInOn 2 (monday + 1) true (Some (mkTime 1 0 0))]
       "habit-1" (noonOf (monday + 1))) = Some "0:60" /\
  Analytics.average_checkin_time
    (Analytics.weekly [checkInOn 1 monday true None;
                       checkInOn 2 (monday + 1) false (Some (mkTime 8 0 0))]
       "habit-1" (noonOf (monday + 1))) = None /\
  Analytics.average_checkin_time
    (Analytics.weekly [checkInOn 1 monday true (Some (mkTime 14 5 30));
                       checkInOn 2 (monday + 1) true (Some (mkTime 9 7 30))]
       "habit-1" (noonOf (monday + 1))) = Some "11:36".
Proof. repeat split; vm_compute; reflexivity. Qed.

(* ------------------------------------------------------------------ *)
(** ** The theorems at concrete histories *)

Ltac unique_keys :=
  unfold unique_per_day; simpl; repeat constructor; simpl; intuition discriminate.

(** Scenario A: completed on today, today-1 and today-2 and nothing on
    today-3 gives a current streak of 3. *)
Lemma current_streak_on_scenario_A :
  exists n,
    Checkins.calculateStreak 4 (scenarioA monday) "habit-1" (noonOf monday) = Some n
    /\ n = 3.
Proof.
  destruct (current_streak_counts_back_from_today
              (scenarioA monday) sampleHabit (noonOf monday) 4)
    as (n & info & o & Hcalc & _ & _ & _ & _ & _ & _ & _ & _ & Hthree).
  - unique_keys.
  - simpl. lia.
  - exists n. split; [exact Hcalc|]. apply Hthree; reflexivity.
Defined.

(** Scenario B seen on its last day: both endpoints report a longest
    streak that is at least their current streak. *)
Lemma longest_ge_current_on_scenario_B :
  exists info o,
    Checkins.getStreak 6 (scenarioB monday) (h_id sampleHabit)
      (noonOf (monday + 6)) = Some info /\
    Analytics.overview 6 sampleHabit (scenarioB monday) (noonOf (monday + 6))
      = Some o /\
    Checkins.current_streak info <= Checkins.longest_streak info /\
    Analytics.current_streak o <= Analytics.longest_streak o.
Proof.
  apply (longest_streak_ge_current_streak
           (scenarioB monday) sampleHabit (noonOf (monday + 6)) 6).
  - unique_keys.
  - simpl. lia.
Defined.

(** Two check-ins on the same day into an empty table leave one record. *)
Lemma check_in_twice_on_empty_table :
  recordsOn
    (fst (Checkins.postCheckIn [sampleHabit]
            (fst (Checkins.postCheckIn [sampleHabit] [] "user-1" sampleBody
                    (noonOf monday)))
            "user-1" sampleBody (noonOf monday + 1000)))
    "habit-1" (toISODate (noonOf monday)) = 1%nat.
Proof.
  refine (proj1 (proj2 (check_in_twice_keeps_one_record
            [sampleHabit] [] "user-1" sampleBody (noonOf monday)
            (noonOf monday + 1000) "habit-1" true sampleHabit _ _ _ _ _ _))).
  - unique_keys.
  - reflexivity.
  - discriminate.
  - reflexivity.
  - reflexivity.
  - reflexivity.
Defined.

(** Scenario E: January 2024 seen on the 7th for a habit that starts on
    the 4th; the calendar holds each date of the month once. *)
Lemma month_calendar_on_scenario_E :
  exists r,
    Analytics.monthly [midMonthHabit] scenarioC_sparse "habit-1"
      2024 1 (noonOf (monday + 6)) = Some r
    /\ NoDup (map fst (Analytics.calendar r))
    /\ 28 <= daysInMonth 2024 1 <= 31.
Proof.
  pose proof (month_calendar_tags_every_date_once
                [midMonthHabit] scenarioC_sparse "habit-1" 2024 1
                (noonOf (monday + 6)) midMonthHabit) as H.
  cbv zeta in H.
  destruct H as (r & Hr & _ & Hnd & Hlen & _).
  - unique_keys.
  - reflexivity.
  - lia.
  - lia.
  - exists r. split; [exact Hr|]. split; [exact Hnd|exact Hlen].
Defined.

(** Scenario C: on the full week, with a record on each of the seven days
    and three of them completed, the consistency score is 43. *)
Lemma consistency_score_on_scenario_C :
  unique_per_day scenarioC_full /\
  Analytics.consistency_score
    (Analytics.weekly scenarioC_full "habit-1" (noonOf (monday + 6)))
  = Js.Math_round (100 * 3 / 7).
Proof.
  assert (Hu : unique_per_day scenarioC_full) by unique_keys.
  split; [exact Hu|].
  pose proof (consistency_score_is_rounded_percentage
                scenarioC_full "habit-1" (noonOf (monday + 6)) Hu) as H.
  cbv zeta in H. destruct H as (_ & Hscore & _).
  rewrite Hscore. vm_compute. reflexivity.
Defined.

(** January 2024 seen on the 7th: the 31 days of the month are counted. *)
Lemma monthly_success_rate_on_january :
  exists r,
    Analytics.monthly [sampleHabit] scenarioC_sparse "habit-1"
      2024 1 (noonOf (monday + 6)) = Some r
    /\ Analytics.total_days (Analytics.month_stats r) = 31.
Proof.
  destruct (monthly_success_rate_counts_every_day
              [sampleHabit] scenarioC_sparse "habit-1" 2024 1
              (noonOf (monday + 6)))
    as (r & Hr & Htotal & _).
  - lia.
  - lia.
  - exists r. split; [exact Hr|]. rewrite Htotal. reflexivity.
Defined.

(* ------------------------------------------------------------------ *)
(** ** The seven-day grid *)

Lemma hasCompleted_filter (table : list CheckIn) (h : string) (d : Z) :
  hasCompleted table h d
  = existsb completed
      (filter (fun c => String.eqb (habit_id c) h && (date c =? d)) table).
Proof. unfold hasCompleted. now rewrite existsb_filter. Qed.

(** Under the invariant, the row a point query on (habit, date) returns is
    completed exactly when the day has a completed record. *)
Lemma single_on_day (table : list CheckIn) (h : string) (d : Z) :
  unique_per_day table ->
  match single (filter (fun c => String.eqb (habit_id c) h && (date c =? d)) table) with
  | Some data => completed data
  | None => false
  end = hasCompleted table h d.
Proof.
  intros Hu. rewrite hasCompleted_filter.
  pose proof (recordsOn_le1 table h d Hu) as Hle. unfold recordsOn in Hle.
  destruct (filter _ table) as [|a [|b l]]; simpl in *;
    [reflexivity|now rewrite orb_false_r|lia].
Qed.

Lemma getLastSevenDays_grid (table : list CheckIn) (h : string) (now : Z) :
  unique_per_day table ->
  Checkins.getLastSevenDays table h now
  = map (fun i => hasCompleted table h (toISODate now - i)) [6; 5; 4; 3; 2; 1; 0].
Proof.
  intros Hu. unfold Checkins.getLastSevenDays. apply map_ext. intros i.
  rewrite toISODate_addDays.
  replace (toISODate now + - i) with (toISODate now - i) by lia.
  now apply single_on_day.
Qed.

Lemma grid_nth (g : Z -> bool) (j : Z) :
  0 <= j <= 6 ->
  nth (Z.to_nat (6 - j)) (map g [6; 5; 4; 3; 2; 1; 0]) false = g j.
Proof.
  intros Hj.
  assert (Hc : j = 0 \/ j = 1 \/ j = 2 \/ j = 3 \/ j = 4 \/ j = 5 \/ j = 6) by lia.
  destruct Hc as [-> | [-> | [-> | [-> | [-> | [-> | ->]]]]]]; reflexivity.
Qed.

(** X1. [getLastSevenDays] returns seven flags, oldest day first; on a
    store with at most one record per (habit, date) the flag of the day
    [j] days ago ([j = 0] for today, at index [6 - j]) tells whether that
    day has a completed record. *)
Theorem last_seven_days_are_the_completed_days :
  forall (table : list CheckIn) (h : string) (now : Z),
    unique_per_day table ->
    List.length (Checkins.getLastSevenDays table h now) = 7%nat /\
    forall j, 0 <= j <= 6 ->
      nth (Z.to_nat (6 - j)) (Checkins.getLastSevenDays table h now) false
      = hasCompleted table h (toISODate now - j).
Proof.
  intros table h now Hu. split; [reflexivity|].
  intros j Hj. rewrite (getLastSevenDays_grid table h now Hu).
  now apply (grid_nth (fun i => hasCompleted table h (toISODate now - i))).
Qed.

Lemma last_seven_days_on_scenario_A :
  nth 6 (Checkins.getLastSevenDays (scenarioA monday) "habit-1" (noonOf monday)) false
  = hasCompleted (scenarioA monday) "habit-1" (toISODate (noonOf monday) - 0).
Proof.
  refine (proj2 (last_seven_days_are_the_completed_days
                   (scenarioA monday) "habit-1" (noonOf monday) _) 0 _).
  - unique_keys.
  - lia.
Defined.



(* ------------------------------------------------------------------ *)
(** ** Longest streak and the number of completed check-ins *)

Lemma scanFinal_le (l : list CheckIn) :
  forall st,
    0 <= Checkins.currentCount st ->
    scanFinal (fold_left Checkins.scanStep l st)
    <= Z.max (Checkins.longestStreak st)
             (Checkins.currentCount st + Z.of_nat (List.length l)).
Proof.
  induction l as [|c l IH]; intros st Hc.
  - simpl. unfold scanFinal. lia.
  - cbn [fold_left List.length].
    assert (Hstep : 0 <= Checkins.currentCount (Checkins.scanStep st c)
                    /\ Z.max (Checkins.longestStreak (Checkins.scanStep st c))
                         (Checkins.currentCount (Checkins.scanStep st c)
                          + Z.of_nat (List.length l))
                       <= Z.max (Checkins.longestStreak st)
                            (Checkins.currentCount st
                             + Z.of_nat (S (List.length l)))).
    { unfold Checkins.scanStep. cbv zeta.
      destruct (Checkins.lastDate st); [destruct (_ =? 1)|];
        cbn [Checkins.longestStreak Checkins.currentCount]; lia. }
    destruct Hstep as [Hc' Hle].
    etransitivity; [apply IH; exact Hc'|exact Hle].
Qed.

Lemma scanLongest_le_length (l : list CheckIn) :
  Checkins.scanLongest l <= Z.of_nat (List.length l).
Proof.
  unfold Checkins.scanLongest.
  etransitivity; [apply (scanFinal_le l); simpl; lia|]. simpl. lia.
Qed.

Lemma scanLongest_pos (l : list CheckIn) :
  l <> [] -> 1 <= Checkins.scanLongest l.
Proof.
  destruct l as [|z l]; [congruence|]. intros _.
  unfold Checkins.scanLongest. simpl fold_left.
  change (1 <= scanFinal (fold_left Checkins.scanStep l
            (Checkins.mkScan 0 1 (Some (parseDate (date z)))))).
  etransitivity; [|eapply scanFinal_mono; reflexivity].
  unfold scanFinal; simpl. lia.
Qed.

(** The loop of [calculateStreak] is the walk whose test is the point
    query for a completed row of the habit on the day. *)
Lemma calculateStreak_loop_query (table : list CheckIn) (h : string) :
  forall fuel t s,
    Checkins.calculateStreak_loop fuel table h t s
    = walkBack
        (fun d => isSome (single (filter (fun c => String.eqb (habit_id c) h
                                                   && (date c =? d)
                                                   && Bool.eqb (completed c) true)
                                    table)))
        fuel t s.
Proof.
  induction fuel as [|fuel IH]; intros t s; simpl; [reflexivity|].
  destruct (single _); simpl; [apply IH|reflexivity].
Qed.

(** Whatever is stored, [calculateStreak] returns: the walk stops within
    as many steps as there are rows, plus one. *)
Lemma calculateStreak_total (table : list CheckIn) (h : string) (fuel : nat)
    (now : Z) :
  (List.length table < fuel)%nat ->
  exists n, Checkins.calculateStreak fuel table h now = Some n.
Proof.
  intros Hfuel. unfold Checkins.calculateStreak.
  rewrite calculateStreak_loop_query.
  apply (walkBack_terminates _ (map date table)); [|now rewrite length_map].
  intros d Hd. destruct (single _) as [c|] eqn:E; [|discriminate Hd].
  apply single_Some in E.
  assert (Hc : In c (filter (fun c => String.eqb (habit_id c) h
                                      && (date c =? d)
                                      && Bool.eqb (completed c) true) table))
    by (rewrite E; now left).
  apply filter_In in Hc. destruct Hc as [Hin Hq].
  apply andb_prop in Hq. destruct Hq as [Hq _].
  apply andb_prop in Hq. destruct Hq as [_ Hq]. apply Z.eqb_eq in Hq.
  rewrite <- Hq. now apply in_map.
Qed.

(** X3. Whatever is stored, [GET /:habitId/streak] answers, and the
    longest streak it answers is at most the number of completed check-ins
    it answers, it is 0 exactly when there is none, and it is at least 1 as
    soon as there is one.  (The loop of the current streak is given more
    steps than there are rows, which is all it can take.) *)
Theorem longest_streak_within_total_checkins :
  forall (table : list CheckIn) (h : string) (now : Z) (fuel : nat),
    (List.length table < fuel)%nat ->
    exists info,
      Checkins.getStreak fuel table h now = Some info /\
      0 <= Checkins.longest_streak info <= Checkins.total_checkins info /\
      (Checkins.longest_streak info = 0 <-> Checkins.total_checkins info = 0) /\
      (1 <= Checkins.total_checkins info -> 1 <= Checkins.longest_streak info).
Proof.
  intros table h now fuel Hfuel. unfold Checkins.getStreak.
  destruct (calculateStreak_total table h fuel now Hfuel) as [n Hn].
  rewrite Hn. eexists. split; [reflexivity|].
  cbn [Checkins.longest_streak Checkins.total_checkins].
  pose proof (scanLongest_nonneg (Checkins.completedCheckIns table h)) as H0.
  pose proof (scanLongest_le_length (Checkins.completedCheckIns table h)) as Hle.
  unfold Checkins.completedCheckIns in Hle at 2.
  rewrite order_by_date_length in Hle.
  assert (Hpos : 1 <= Z.of_nat (List.length
                   (filter (fun c => String.eqb (habit_id c) h
                                     && Bool.eqb (completed c) true) table)) ->
                 1 <= Checkins.scanLongest (Checkins.completedCheckIns table h)).
  { intros H1. apply scanLongest_pos. intros Hnil.
    apply (f_equal (@List.length CheckIn)) in Hnil.
    unfold Checkins.completedCheckIns in Hnil.
    rewrite order_by_date_length in Hnil. simpl in Hnil. lia. }
  split; [lia|]. split; [|exact Hpos]. split; lia.
Qed.

Lemma longest_streak_within_total_on_scenario_B :
  exists info,
    Checkins.getStreak 6 (scenarioB monday) "habit-1" (noonOf (monday + 6))
      = Some info /\
    0 <= Checkins.longest_streak info <= Checkins.total_checkins info.
Proof.
  destruct (longest_streak_within_total_checkins
              (scenarioB monday) "habit-1" (noonOf (monday + 6)) 6)
    as (info & Hinfo & Hbounds & _).
  - simpl. lia.
  - exists info. split; [exact Hinfo|exact Hbounds].
Defined.

(* ------------------------------------------------------------------ *)
(** ** Check-in: what a request does to the table *)

(** Every request leaves the table as it is, or rewrites the rows with the
    id of the one row found for (habit, today), or appends one row for
    (habit, today) when the lookup finds none. *)
Lemma postCheckIn_cases (habits : list Habit) (table : list CheckIn)
    (user : string) (body : Checkins.Body) (now : Z) :
  fst (Checkins.postCheckIn habits table user body now) = table
  \/ exists h done hb,
       Checkins.b_habit_id body = Some h /\ h <> EmptyString /\
       Checkins.b_completed body = Some done /\
       single (filter (fun x => String.eqb (h_id x) h
                                && String.eqb (h_user_id x) user) habits) = Some hb /\
       ((exists e,
           single (filter (fun c => String.eqb (habit_id c) h
                                    && (date c =? toISODate now)) table) = Some e /\
           fst (Checkins.postCheckIn habits table user body now)
           = map (updateRow e done body now) table)
        \/ (single (filter (fun c => String.eqb (habit_id c) h
                                     && (date c =? toISODate now)) table) = None /\
            fst (Checkins.postCheckIn habits table user body now)
            = (table ++ [newRow table h user done body now])%list)).
Proof.
  unfold Checkins.postCheckIn.
  destruct (Checkins.b_habit_id body) as [h|]; [|now left].
  destruct (Checkins.b_completed body) as [done|]; [|now left].
  destruct (String.eqb_spec h EmptyString) as [Heq|Hne]; [now left|].
  destruct (single (filter _ habits)) as [hb|] eqn:Hhabit; [|now left].
  right. exists h, done, hb. repeat (split; [reflexivity || assumption|]).
  cbv zeta.
  destruct (single (filter _ table)) as [e|].
  - left. exists e. split; [reflexivity|].
    destruct (single (filter _ (map _ table))); reflexivity.
  - right. split; reflexivity.
Qed.

Lemma list_max_ge (l : list nat) (n : nat) : In n l -> (n <= list_max l)%nat.
Proof.
  induction l as [|a l IH]; simpl; intros H; [destruct H|].
  destruct H as [->|H]; [lia|]. specialize (IH H). lia.
Qed.

Lemma fresh_id_fresh (table : list CheckIn) : ~ In (fresh_id table) (map id table).
Proof.
  unfold fresh_id. intros H. apply list_max_ge in H. lia.
Qed.

Lemma updateRow_id (e : CheckIn) (done : bool) (body : Checkins.Body) (now : Z)
    (c : CheckIn) :
  id (updateRow e done body now c) = id c
  /\ recordKey (updateRow e done body now c) = recordKey c.
Proof. unfold updateRow. destruct (Nat.eqb _ _); split; reflexivity. Qed.

Lemma single_In {A : Type} (p : A -> bool) (l : list A) (a : A) :
  single (filter p l) = Some a -> In a l /\ p a = true.
Proof.
  intros H. apply single_Some in H. apply filter_In. rewrite H. now left.
Qed.

Lemma unique_id_eq (table : list CheckIn) (a b : CheckIn) :
  uniqueIds table -> In a table -> In b table -> id a = id b -> a = b.
Proof.
  unfold uniqueIds.
  induction table as [|c l IH]; simpl; intros Hu Ha Hb Hk; [destruct Ha|].
  inversion Hu as [|? ? Hnotin Hu']; subst.
  destruct Ha as [->|Ha]; destruct Hb as [->|Hb]; auto.
  - exfalso. apply Hnotin. rewrite Hk. now apply in_map.
  - exfalso. apply Hnotin. rewrite <- Hk. now apply in_map.
Qed.

(** X4. On a table whose primary keys are distinct, a check-in request
    keeps them distinct, removes no row and adds at most one, and touches
    only the rows of the requested habit dated today: every other stored
    row is still there unchanged, and every row of the new table is an old
    row or a row of that habit dated today. *)
Theorem check_in_touches_only_today :
  forall (habits : list Habit) (table : list CheckIn) (user : string)
         (body : Checkins.Body) (now : Z),
    uniqueIds table ->
    let table' := fst (Checkins.postCheckIn habits table user body now) in
    uniqueIds table' /\
    (List.length table <= List.length table' <= List.length table + 1)%nat /\
    (forall c, In c table ->
       Checkins.b_habit_id body <> Some (habit_id c) \/ date c <> toISODate now ->
       In c table') /\
    (forall c, In c table' ->
       In c table
       \/ (Checkins.b_habit_id body = Some (habit_id c) /\ date c = toISODate now)).
Proof.
  intros habits table user body now Hids table'. subst table'.
  destruct (postCheckIn_cases habits table user body now)
    as [->|(h & done & hb & Hh & Hne & Hdone & Hhabit & Hcase)].
  - split; [exact Hids|]. split; [lia|]. split; auto.
  - destruct Hcase as [(e & He & ->)|(Hnone & ->)].
    + apply single_In in He. destruct He as [Hein Hekey].
      apply andb_prop in Hekey. destruct Hekey as [Hkh Hkd].
      apply String.eqb_eq in Hkh. apply Z.eqb_eq in Hkd.
      split; [|split; [rewrite length_map; lia|split]].
      * unfold uniqueIds. rewrite map_map.
        erewrite map_ext; [exact Hids|].
        intros c. apply updateRow_id.
      * intros c Hc Hother. apply in_map_iff. exists c. split; [|exact Hc].
        unfold updateRow. destruct (Nat.eqb_spec (id c) (id e)) as [Hid|]; auto.
        exfalso. assert (c = e) by (now apply (unique_id_eq table)). subst c.
        destruct Hother as [Ho|Ho]; [apply Ho; now rewrite Hh, Hkh|contradiction].
      * intros c' Hc'. apply in_map_iff in Hc'. destruct Hc' as (c & <- & Hc).
        unfold updateRow. destruct (Nat.eqb_spec (id c) (id e)) as [Hid|];
          [|now left].
        right. assert (c = e) by (now apply (unique_id_eq table)). subst c.
        simpl. now rewrite Hh, Hkh.
    + split; [|split; [rewrite length_app; simpl; lia|split]].
      * unfold uniqueIds. rewrite map_app. simpl.
        apply NoDup_app; [exact Hids|repeat constructor; intros []|].
        intros k Hk [<-|[]]. now apply (fresh_id_fresh table).
      * intros c Hc _. apply in_or_app. now left.
      * intros c Hc. apply in_app_or in Hc. destruct Hc as [Hc|[<-|[]]];
          [now left|right]. simpl. now rewrite Hh.
Qed.

Lemma check_in_touches_only_today_on_scenario_A :
  uniqueIds (fst (Checkins.postCheckIn [sampleHabit] (scenarioA monday) "user-1"
                    sampleBody (noonOf (monday + 1)))).
Proof.
  refine (proj1 (check_in_touches_only_today [sampleHabit] (scenarioA monday)
                   "user-1" sampleBody (noonOf (monday + 1)) _)).
  unfold uniqueIds. simpl. repeat constructor; simpl; intuition discriminate.
Defined.

(* ------------------------------------------------------------------ *)
(** ** Check-in: the streak handed to the text generator *)

Lemma hasCompleted_snoc (table : list CheckIn) (row : CheckIn) (h : string) (d : Z) :
  hasCompleted (table ++ [row]) h d
  = hasCompleted table h d
    || (String.eqb (habit_id row) h && (date row =? d) && completed row).
Proof.
  unfold hasCompleted. rewrite existsb_app. simpl. now rewrite orb_false_r.
Qed.

Lemma recordsOn_zero_hasCompleted (table : list CheckIn) (h : string) (d : Z) :
  recordsOn table h d = 0%nat -> hasCompleted table h d = false.
Proof.
  unfold recordsOn. rewrite hasCompleted_filter.
  destruct (filter _ table); [reflexivity|discriminate].
Qed.

Lemma recordsOn_zero_single (table : list CheckIn) (h : string) (d : Z) :
  recordsOn table h d = 0%nat ->
  single (filter (fun c => String.eqb (habit_id c) h && (date c =? d)) table) = None.
Proof.
  unfold recordsOn. destruct (filter _ table); [reflexivity|discriminate].
Qed.

Lemma newRow_unique (table : list CheckIn) (h user : string) (done : bool)
    (body : Checkins.Body) (now : Z) :
  unique_per_day table ->
  recordsOn table h (toISODate now) = 0%nat ->
  unique_per_day (table ++ [newRow table h user done body now]).
Proof.
  intros Hu Hzero. unfold unique_per_day. rewrite map_app. simpl.
  apply NoDup_app; [exact Hu|repeat constructor; intros []|].
  intros k Hk [<-|[]]. revert Hk. now apply recordsOn_zero_notin.
Qed.

(** What [contextOf] computes for an accepted request when today has no
    check-in yet. *)
Lemma contextOf_new (fuel : nat) (habits : list Habit) (table : list CheckIn)
    (user : string) (body : Checkins.Body) (now : Z)
    (h : string) (done : bool) (hb : Habit) :
  Checkins.b_habit_id body = Some h ->
  h <> EmptyString ->
  Checkins.b_completed body = Some done ->
  single (filter (fun x => String.eqb (h_id x) h
                           && String.eqb (h_user_id x) user) habits) = Some hb ->
  recordsOn table h (toISODate now) = 0%nat ->
  CheckinContext.contextOf fuel habits table user body now
  = match Checkins.calculateStreak fuel
            (table ++ [newRow table h user done body now]) h now with
    | None => None
    | Some streak =>
        Some (if done
              then CheckinContext.Encouragement (habit_name hb) streak
                     (Checkins.getLastSevenDays
                        (table ++ [newRow table h user done body now]) h now)
                     (CheckinContext.toLocaleWeekday now)
                     (CheckinContext.milestoneOf streak)
              else CheckinContext.StreakBreak (habit_name hb) streak
                     (Z.of_nat (List.length
                        (filter (fun c => String.eqb (habit_id c) h
                                          && Bool.eqb (completed c) true)
                           (table ++ [newRow table h user done body now]))))
                     streak)
    end.
Proof.
  intros Hh Hne Hdone Hhabit Hzero. unfold CheckinContext.contextOf.
  rewrite Hh, Hdone. apply String.eqb_neq in Hne. rewrite Hne, Hhabit.
  cbv zeta. rewrite (recordsOn_zero_single table h (toISODate now) Hzero).
  fold (newRow table h user done body now).
  destruct done; destruct (Checkins.calculateStreak _ _ _ _); reflexivity.
Qed.

(** X5. When the first check-in of the day is recorded as not completed,
    the streak-break context is built after the insert, so the broken
    streak length and the previous longest streak it carries are both 0,
    however long the streak that ended; the total of active days is the
    number of completed check-ins of the habit. *)
Theorem missed_check_in_reports_broken_streak_zero :
  forall (fuel : nat) (habits : list Habit) (table : list CheckIn)
         (user : string) (body : Checkins.Body) (now : Z)
         (h : string) (hb : Habit),
    unique_per_day table ->
    Checkins.b_habit_id body = Some h ->
    h <> EmptyString ->
    Checkins.b_completed body = Some false ->
    single (filter (fun x => String.eqb (h_id x) h
                             && String.eqb (h_user_id x) user) habits) = Some hb ->
    recordsOn table h (toISODate now) = 0%nat ->
    (List.length table + 1 < fuel)%nat ->
    CheckinContext.contextOf fuel habits table user body now
    = Some (CheckinContext.StreakBreak (habit_name hb) 0
              (Z.of_nat (List.length
                 (filter (fun c => String.eqb (habit_id c) h && completed c) table)))
              0).
Proof.
  intros fuel habits table user body now h hb Hu Hh Hne Hdone Hhabit Hzero Hfuel.
  rewrite (contextOf_new fuel habits table user body now h false hb
             Hh Hne Hdone Hhabit Hzero).
  set (row := newRow table h user false body now).
  assert (Hu' : unique_per_day (table ++ [row])) by (now apply newRow_unique).
  assert (Hfuel' : (List.length (table ++ [row]) < fuel)%nat)
    by (rewrite length_app; simpl; lia).
  destruct (current_streak_run (table ++ [row]) h now fuel Hu' Hfuel')
    as (n & Hcalc & _ & Hn & Hall & Hstop).
  assert (n = 0) as ->.
  { destruct (Z.eq_dec n 0) as [|Hpos]; [assumption|exfalso].
    specialize (Hall 0 ltac:(lia)). rewrite Z.sub_0_r in Hall.
    rewrite hasCompleted_snoc in Hall.
    rewrite (recordsOn_zero_hasCompleted table h (toISODate now) Hzero) in Hall.
    subst row. simpl in Hall. rewrite andb_false_r in Hall. discriminate. }
  rewrite Hcalc. do 3 f_equal.
  rewrite filter_app, length_app. subst row. simpl.
  rewrite andb_false_r. simpl. rewrite Nat.add_0_r.
  f_equal. apply filter_ext.
  intros c. now destruct (completed c).
Qed.

Lemma missed_check_in_after_scenario_A :
  CheckinContext.contextOf 6 [sampleHabit] (scenarioA monday) "user-1"
    (Checkins.mkBody (Some "habit-1") (Some false) None) (noonOf (monday + 1))
  = Some (CheckinContext.StreakBreak "Morning run" 0 3 0).
Proof.
  refine (missed_check_in_reports_broken_streak_zero 6 [sampleHabit]
            (scenarioA monday) "user-1"
            (Checkins.mkBody (Some "habit-1") (Some false) None)
            (noonOf (monday + 1)) "habit-1" sampleHabit _ _ _ _ _ _ _).
  - unique_keys.
  - reflexivity.
  - discriminate.
  - reflexivity.
  - reflexivity.
  - reflexivity.
  - simpl. lia.
Defined.




(* ------------------------------------------------------------------ *)
(** ** The overview numbers *)

Lemma filter_perm_length {A : Type} (p : A -> bool) (l l' : list A) :
  Permutation l l' -> List.length (filter p l) = List.length (filter p l').
Proof.
  induction 1 as [|a l l' _ IH|a b l|l1 l2 l3 _ IH1 _ IH2]; simpl.
  - reflexivity.
  - destruct (p a); simpl; now rewrite IH.
  - destruct (p a); destruct (p b); reflexivity.
  - now rewrite IH1.
Qed.

Lemma filter_filter_length {A : Type} (p q : A -> bool) (l : list A) :
  List.length (filter p (filter q l))
  = List.length (filter (fun a => q a && p a) l).
Proof.
  induction l as [|a l IH]; simpl; [reflexivity|].
  destruct (q a); simpl; [destruct (p a); simpl; now rewrite IH|exact IH].
Qed.


Lemma days_between (now s : Z) :
  (getTime now - getTime (parseDate s)) / (1000 * 60 * 60 * 24) = toISODate now - s.
Proof.
  unfold getTime, parseDate, toISODate, msPerDay.
  replace (now - s * (1000 * 60 * 60 * 24))
    with (now + (- s) * (1000 * 60 * 60 * 24)) by lia.
  rewrite Z.div_add by discriminate. lia.
Qed.

Lemma overview_fields (fuel : nat) (habit : Habit) (table : list CheckIn)
    (now : Z) (o : Analytics.Overview) :
  Analytics.overview fuel habit table now = Some o ->
  Analytics.longest_streak o
    = Analytics.longestStreakOf (Analytics.allCheckIns table (h_id habit)) /\
  Analytics.total_checkins o
    = countZ completed (Analytics.allCheckIns table (h_id habit)) /\
  Analytics.days_since_started o
    = (getTime now - getTime (parseDate (start_date habit))) / (1000 * 60 * 60 * 24) /\
  Analytics.success_rate o
    = (inject_Z
         (Js.roundNumber
            (Js.mul
               (if Z.of_nat (List.length (Analytics.allCheckIns table (h_id habit))) >? 0
                then Js.mul
                       (Js.div
                          (Js.num (countZ completed
                                     (Analytics.allCheckIns table (h_id habit))))
                          (Js.num (Z.of_nat (List.length
                                     (Analytics.allCheckIns table (h_id habit))))))
                       (Js.num 100)
                else Js.num 0) (Js.num 100))) / 100)%Q.
Proof.
  unfold Analytics.overview. cbv zeta.
  destruct (Analytics.currentStreak_loop _ _ _ _); [|discriminate].
  intros H. injection H as <-. repeat split; reflexivity.
Qed.

(** Whatever is stored, [GET /overview] answers: the loop of the current
    streak stops within as many steps as there are rows, plus one. *)
Lemma overview_total (fuel : nat) (habit : Habit) (table : list CheckIn)
    (now : Z) :
  (List.length table < fuel)%nat ->
  exists o, Analytics.overview fuel habit table now = Some o.
Proof.
  intros Hfuel. unfold Analytics.overview. cbv zeta.
  rewrite currentStreak_loop_walk.
  destruct (streak_walk_total table (h_id habit) fuel
              (parseDate (toISODate now)) Hfuel) as (n & _ & Hn & _).
  rewrite Hn. eexists. reflexivity.
Qed.

(** With 160 rows of which 23 are completed the success rate answered is
    14.37: the quotient 23/160 is rounded to a double before it is
    multiplied by 100 twice, and the product is just below 1437.5, while
    the exact percentage 14.375 rounds to 14.38. *)
Lemma overview_rate_of_doubles :
  option_map Analytics.success_rate
    (Analytics.overview 200 sampleHabit (rowsWith 160 23) (noonOf monday))
  = Some (1437 / 100)%Q /\
  Js.Math_round (inject_Z 23 / inject_Z 160 * 100 * 100) = 1438.
Proof. split; vm_compute; reflexivity. Qed.



(* ------------------------------------------------------------------ *)
(** ** The weekday buckets of GET /weekly *)

Lemma get_update {V : Type} (o : list (string * V)) (k k' : string) (f : V -> V) :
  Js.get String.eqb (Js.update String.eqb o k f) k'
  = if String.eqb k k'
    then option_map f (Js.get String.eqb o k')
    else Js.get String.eqb o k'.
Proof.
  induction o as [|[k0 v] o IH]; simpl.
  - now destruct (String.eqb k k').
  - destruct (String.eqb_spec k0 k) as [->|Hne]; simpl.
    + destruct (String.eqb_spec k k') as [->|Hne']; [reflexivity|].
      reflexivity.
    + destruct (String.eqb_spec k0 k') as [->|Hne'].
      * destruct (String.eqb_spec k k') as [->|]; [congruence|reflexivity].
      * exact IH.
Qed.

(** One pass of the weekly loop adds the row to the bucket of its day
    name and leaves the other buckets alone. *)
Lemma weeklyStep_get (acc : Analytics.WeeklyAcc) (c : CheckIn) (name : string) :
  Js.get String.eqb (Analytics.dayStats (Analytics.weeklyStep acc c)) name
  = option_map
      (fun s => Analytics.mkDayStat
                  (Analytics.st_completed s
                   + (if inBucket name c && completed c then 1 else 0))
                  (Analytics.st_total s + (if inBucket name c then 1 else 0)))
      (Js.get String.eqb (Analytics.dayStats acc) name).
Proof.
  unfold Analytics.weeklyStep, inBucket. cbv zeta.
  destruct (completed c); [destruct (check_in_time c)|];
    cbn [Analytics.dayStats]; rewrite !get_update;
    destruct (String.eqb _ name);
    destruct (Js.get String.eqb (Analytics.dayStats acc) name) as [[sc stt]|];
    simpl; rewrite ?Z.add_0_r; reflexivity.
Qed.

Lemma fold_weeklyStep_get (rows : list CheckIn) (name : string) :
  forall acc,
    Js.get String.eqb
      (Analytics.dayStats (fold_left Analytics.weeklyStep rows acc)) name
    = option_map
        (fun s => Analytics.mkDayStat
                    (Analytics.st_completed s
                     + countZ (fun c => inBucket name c && completed c) rows)
                    (Analytics.st_total s + countZ (inBucket name) rows))
        (Js.get String.eqb (Analytics.dayStats acc) name).
Proof.
  unfold countZ.
  induction rows as [|c rows IH]; intros acc; cbn [fold_left filter].
  - destruct (Js.get _ _ name) as [[sc stt]|]; simpl; [|reflexivity].
    now rewrite !Z.add_0_r.
  - rewrite IH, weeklyStep_get.
    destruct (Js.get _ (Analytics.dayStats acc) name) as [[sc stt]|];
      [|reflexivity].
    cbn [option_map Analytics.st_completed Analytics.st_total].
    destruct (inBucket name c); destruct (completed c);
      cbn [andb List.length]; do 2 f_equal; lia.
Qed.

Lemma dayNameOf_in (t : Z) : In (Analytics.dayNameOf t) Analytics.dayNames.
Proof.
  unfold Analytics.dayNameOf.
  pose proof (Z.mod_pos_bound (t / msPerDay + 4) 7 ltac:(lia)) as Hg.
  fold (getDay t) in Hg.
  assert (Hc : getDay t = 0 \/ getDay t = 1 \/ getDay t = 2 \/ getDay t = 3
               \/ getDay t = 4 \/ getDay t = 5 \/ getDay t = 6) by lia.
  destruct Hc as [-> | [-> | [-> | [-> | [-> | [-> | ->]]]]]];
    simpl; tauto.
Qed.

(** The sums over the buckets grow by one observation per row. *)
Lemma update_sumTotal (o : list (string * Analytics.DayStat)) (k : string)
    (f : Analytics.DayStat -> Analytics.DayStat) (dc dt : Z) :
  In k (map fst o) ->
  (forall s, Analytics.st_completed (f s) = Analytics.st_completed s + dc) ->
  (forall s, Analytics.st_total (f s) = Analytics.st_total s + dt) ->
  sumCompleted (Js.update String.eqb o k f) = sumCompleted o + dc
  /\ sumTotal (Js.update String.eqb o k f) = sumTotal o + dt.
Proof.
  intros Hin Hc Ht.
  induction o as [|[k0 v] o IH]; simpl in *; [destruct Hin|].
  destruct (String.eqb_spec k0 k) as [->|Hne]; simpl.
  - rewrite Hc, Ht. split; lia.
  - destruct Hin as [Heq|Hin]; [congruence|].
    destruct (IH Hin) as [H1 H2]. rewrite H1, H2. split; lia.
Qed.

Lemma weeklyStep_sums (acc : Analytics.WeeklyAcc) (c : CheckIn) :
  map fst (Analytics.dayStats acc) = Analytics.dayNames ->
  sumCompleted (Analytics.dayStats (Analytics.weeklyStep acc c))
  = sumCompleted (Analytics.dayStats acc) + (if completed c then 1 else 0)
  /\ sumTotal (Analytics.dayStats (Analytics.weeklyStep acc c))
     = sumTotal (Analytics.dayStats acc) + 1.
Proof.
  intros Hkeys.
  assert (Hin : In (Analytics.dayNameOf (parseDate (date c)))
                   (map fst (Analytics.dayStats acc))).
  { rewrite Hkeys. apply dayNameOf_in. }
  destruct (update_sumTotal (Analytics.dayStats acc)
              (Analytics.dayNameOf (parseDate (date c)))
              (fun s => Analytics.mkDayStat (Analytics.st_completed s)
                          (Analytics.st_total s + 1)) 0 1 Hin)
    as [H1c H1t]; [intros; simpl; lia|intros; reflexivity|].
  assert (Hin' : In (Analytics.dayNameOf (parseDate (date c)))
                    (map fst (Js.update String.eqb (Analytics.dayStats acc)
                                (Analytics.dayNameOf (parseDate (date c)))
                                (fun s => Analytics.mkDayStat
                                            (Analytics.st_completed s)
                                            (Analytics.st_total s + 1))))).
  { now rewrite update_keys. }
  destruct (update_sumTotal _ _
              (fun s => Analytics.mkDayStat (Analytics.st_completed s + 1)
                          (Analytics.st_total s)) 1 0 Hin')
    as [H2c H2t]; [intros; reflexivity|intros; simpl; lia|].
  unfold Analytics.weeklyStep. cbv zeta.
  destruct (completed c); [destruct (check_in_time c)|];
    cbn [Analytics.dayStats]; rewrite ?H2c, ?H2t, ?H1c, ?H1t; split; lia.
Qed.

Lemma fold_weeklyStep_sums (rows : list CheckIn) :
  forall acc,
    map fst (Analytics.dayStats acc) = Analytics.dayNames ->
    sumCompleted (Analytics.dayStats (fold_left Analytics.weeklyStep rows acc))
    = sumCompleted (Analytics.dayStats acc) + countZ completed rows
    /\ sumTotal (Analytics.dayStats (fold_left Analytics.weeklyStep rows acc))
       = sumTotal (Analytics.dayStats acc) + Z.of_nat (List.length rows).
Proof.
  unfold countZ.
  induction rows as [|c rows IH]; intros acc Hkeys; cbn [fold_left filter].
  - simpl. split; lia.
  - destruct (weeklyStep_sums acc c Hkeys) as [Hc Ht].
    destruct (IH (Analytics.weeklyStep acc c)) as [Hc' Ht'].
    { now rewrite weeklyStep_keys. }
    rewrite Hc', Ht', Hc, Ht.
    destruct (completed c); cbn [List.length]; split; lia.
Qed.

(** The bucket of a day name after the loop over the rows. *)
Lemma weeklyOf_get (rows : list CheckIn) (name : string) :
  In name Analytics.dayNames ->
  Js.get String.eqb (Analytics.day_stats (Analytics.weeklyOf rows)) name
  = Some (Analytics.mkDayStat
            (countZ (fun c => inBucket name c && completed c) rows)
            (countZ (inBucket name) rows)).
Proof.
  intros Hname.
  destruct (weeklyOf_fields rows) as (acc & Hacc & Hstats & _).
  rewrite Hstats, Hacc, fold_weeklyStep_get.
  cbn [Analytics.dayStats].
  simpl in Hname.
  destruct Hname as [<- | [<- | [<- | [<- | [<- | [<- | [<- | []]]]]]]];
    reflexivity.
Qed.

(** X8. The day buckets of [GET /weekly] over any rows: the keys are the
    seven day names; the bucket of a day name counts, as [total], the rows
    whose date carries that name and, as [completed], those of them that are
    completed, so [completed] never exceeds [total]; every row is counted in
    exactly one bucket, the totals adding up to the number of rows and the
    completed counts to the number of completed rows; and the best day is
    one of the seven names. *)
Theorem weekly_buckets_count_each_row_once :
  forall (rows : list CheckIn),
    let w := Analytics.weeklyOf rows in
    map fst (Analytics.day_stats w) = Analytics.dayNames /\
    (forall name, In name Analytics.dayNames ->
       Js.get String.eqb (Analytics.day_stats w) name
       = Some (Analytics.mkDayStat
                 (countZ (fun c => inBucket name c && completed c) rows)
                 (countZ (inBucket name) rows))) /\
    (forall name s, Js.get String.eqb (Analytics.day_stats w) name = Some s ->
       0 <= Analytics.st_completed s <= Analytics.st_total s) /\
    sumTotal (Analytics.day_stats w) = Z.of_nat (List.length rows) /\
    sumCompleted (Analytics.day_stats w) = countZ completed rows /\
    In (Analytics.best_day w) Analytics.dayNames.
Proof.
  intros rows w. subst w.
  pose proof (weekly_day_stats_keys rows) as Hkeys.
  pose proof (weekly_best_day_rule rows) as Hbest.
  pose proof (weeklyOf_get rows) as Hget.
  destruct (weeklyOf_fields rows) as (acc & Hacc & Hstats & _).
  rewrite Hstats in *.
  split; [exact Hkeys|]. split; [exact Hget|]. split; [|split; [|split]].
  - intros name s Hs.
    assert (Hname : In name Analytics.dayNames).
    { rewrite <- Hkeys. clear - Hs.
      induction (Analytics.dayStats acc) as [|[k v] o IH]; simpl in *;
        [discriminate|].
      destruct (String.eqb_spec k name) as [->|]; [now left|right; auto]. }
    rewrite (Hget name Hname) in Hs. injection Hs as <-. simpl.
    unfold countZ.
    assert (Hle : (List.length (filter (fun c => inBucket name c && completed c) rows)
                   <= List.length (filter (inBucket name) rows))%nat).
    { clear. induction rows as [|c rows IH]; simpl; [lia|].
      destruct (inBucket name c); destruct (completed c); simpl; lia. }
    lia.
  - rewrite Hacc.
    match goal with
    | |- context [fold_left Analytics.weeklyStep rows ?a] =>
        destruct (fold_weeklyStep_sums rows a eq_refl) as [_ Ht]
    end.
    rewrite Ht. reflexivity.
  - rewrite Hacc.
    match goal with
    | |- context [fold_left Analytics.weeklyStep rows ?a] =>
        destruct (fold_weeklyStep_sums rows a eq_refl) as [Hc _]
    end.
    rewrite Hc. reflexivity.
  - destruct Hbest as [[_ ->]|(l1 & e & l2 & Hr & -> & _)]; [simpl; tauto|].
    rewrite <- Hkeys.
    assert (Hin : In (fst e) (map fst (statRatios (Analytics.dayStats acc)))).
    { rewrite Hr, map_app. apply in_or_app. right. now left. }
    unfold statRatios in Hin. rewrite map_map in Hin. exact Hin.
Qed.

(* ------------------------------------------------------------------ *)
(** ** Day names: the buckets against the calendar *)

Lemma getDay_range (t : Z) : 0 <= getDay t < 7.
Proof. unfold getDay. apply Z.mod_pos_bound. lia. Qed.

Lemma getDay_cases (t : Z) :
  getDay t = 0 \/ getDay t = 1 \/ getDay t = 2 \/ getDay t = 3
  \/ getDay t = 4 \/ getDay t = 5 \/ getDay t = 6.
Proof. pose proof (getDay_range t). lia. Qed.

Lemma getDay_parseDate (d : Z) : getDay (parseDate d) = (d + 4) mod 7.
Proof. unfold getDay. fold (toISODate (parseDate d)). now rewrite toISODate_parseDate. Qed.

Lemma getDay_next (t : Z) : getDay (addDays t 1) = (getDay t + 1) mod 7.
Proof. rewrite getDay_addDays. reflexivity. Qed.

(** X9. For every date the weekday bucket used by [GET /weekly] and by
    [POST /weekly-insight], [dayNames[date.getDay()]], carries the name of
    the following weekday, the name [toLocaleDateString] (used by
    [POST /] for the same purpose) gives to the next day; it is never the
    name of the date's own weekday. *)
Theorem bucket_name_is_the_next_weekday :
  forall (t : Z),
    Analytics.dayNameOf t = CheckinContext.toLocaleWeekday (addDays t 1) /\
    Insight.dayNameOf t = CheckinContext.toLocaleWeekday (addDays t 1) /\
    Analytics.dayNameOf t <> CheckinContext.toLocaleWeekday t /\
    Insight.dayNameOf t <> CheckinContext.toLocaleWeekday t.
Proof.
  intros t.
  unfold Analytics.dayNameOf, Insight.dayNameOf, CheckinContext.toLocaleWeekday.
  rewrite getDay_next.
  destruct (getDay_cases t) as [-> | [-> | [-> | [-> | [-> | [-> | ->]]]]]];
    (split; [reflexivity|split; [reflexivity|split; discriminate]]).
Qed.

(* ------------------------------------------------------------------ *)
(** ** GET /weekly on a table with one record per day *)

Lemma dayNameOf_getDay (t t' : Z) :
  Analytics.dayNameOf t = Analytics.dayNameOf t' -> getDay t = getDay t'.
Proof.
  unfold Analytics.dayNameOf.
  destruct (getDay_cases t) as [-> | [-> | [-> | [-> | [-> | [-> | ->]]]]]];
    destruct (getDay_cases t') as [-> | [-> | [-> | [-> | [-> | [-> | ->]]]]]];
    simpl; intros H; first [reflexivity | discriminate H].
Qed.

(** Within seven consecutive days a bucket name determines the day. *)
Lemma bucket_day_unique (lo a b : Z) :
  lo <= a <= lo + 6 -> lo <= b <= lo + 6 ->
  Analytics.dayNameOf (parseDate a) = Analytics.dayNameOf (parseDate b) ->
  a = b.
Proof.
  intros Ha Hb H. apply dayNameOf_getDay in H.
  rewrite !getDay_parseDate in H.
  pose proof (Z.div_mod (a + 4) 7 ltac:(lia)).
  pose proof (Z.div_mod (b + 4) 7 ltac:(lia)).
  lia.
Qed.

(** Every day name is the bucket of one of any seven consecutive days. *)
Lemma bucket_day_exists (hi : Z) (name : string) :
  In name Analytics.dayNames ->
  exists i, 0 <= i <= 6 /\ name = Analytics.dayNameOf (parseDate (hi - i)).
Proof.
  intros Hname.
  assert (Hall : forall g, 0 <= g < 7 ->
            exists i, 0 <= i <= 6 /\ getDay (parseDate (hi - i)) = g).
  { intros g Hg. exists ((hi + 4 - g) mod 7).
    pose proof (Z.mod_pos_bound (hi + 4 - g) 7 ltac:(lia)) as Hb.
    split; [lia|]. rewrite getDay_parseDate.
    pose proof (Z.div_mod (hi + 4 - g) 7 ltac:(lia)) as Hd.
    replace (hi - (hi + 4 - g) mod 7 + 4)
      with (g + ((hi + 4 - g) / 7) * 7) by lia.
    rewrite Z.mod_add by lia. apply Z.mod_small. lia. }
  unfold Analytics.dayNameOf.
  simpl in Hname.
  destruct Hname as [<- | [<- | [<- | [<- | [<- | [<- | [<- | []]]]]]]].
  - destruct (Hall 0 ltac:(lia)) as (i & Hi & Hg). exists i. rewrite Hg. now split.
  - destruct (Hall 1 ltac:(lia)) as (i & Hi & Hg). exists i. rewrite Hg. now split.
  - destruct (Hall 2 ltac:(lia)) as (i & Hi & Hg). exists i. rewrite Hg. now split.
  - destruct (Hall 3 ltac:(lia)) as (i & Hi & Hg). exists i. rewrite Hg. now split.
  - destruct (Hall 4 ltac:(lia)) as (i & Hi & Hg). exists i. rewrite Hg. now split.
  - destruct (Hall 5 ltac:(lia)) as (i & Hi & Hg). exists i. rewrite Hg. now split.
  - destruct (Hall 6 ltac:(lia)) as (i & Hi & Hg). exists i. rewrite Hg. now split.
Qed.

Lemma count_existsb {A : Type} (p : A -> bool) (l : list A) :
  (List.length (filter p l) <= 1)%nat ->
  Z.of_nat (List.length (filter p l)) = if existsb p l then 1 else 0.
Proof.
  intros H. rewrite existsb_filter_nonempty.
  destruct (filter p l) as [|a [|b l']]; simpl in *; try reflexivity; lia.
Qed.

(** The rows of the weekly window that fall in the bucket of a day of the
    window are the records of that day. *)
Lemma window_bucket_rows (table : list CheckIn) (h : string) (today : Z)
    (i : Z) (r : CheckIn -> bool) :
  0 <= i <= 6 ->
  countZ (fun c => inBucket (Analytics.dayNameOf (parseDate (toISODate today - i))) c
                   && r c)
         (Analytics.weekCheckIns table h today)
  = countZ (fun c => String.eqb (habit_id c) h && (date c =? toISODate today - i)
                     && r c) table.
Proof.
  intros Hi. unfold countZ, Analytics.weekCheckIns. cbv zeta.
  rewrite toISODate_addDays.
  rewrite <- (filter_perm_length _ _ _ (order_by_date_perm _)).
  rewrite filter_filter_length.
  f_equal. f_equal. apply filter_ext. intros c.
  unfold inBucket.
  destruct (String.eqb (habit_id c) h); [|reflexivity]. cbn [andb].
  destruct (Z.eqb_spec (date c) (toISODate today - i)) as [->|Hne].
  - rewrite String.eqb_refl.
    replace (toISODate today + -6 <=? toISODate today - i) with true
      by (symmetry; apply Z.leb_le; lia).
    replace (toISODate today - i <=? toISODate today) with true
      by (symmetry; apply Z.leb_le; lia).
    reflexivity.
  - destruct (Z.leb_spec (toISODate today + -6) (date c)); [|reflexivity].
    destruct (Z.leb_spec (date c) (toISODate today)); [|reflexivity].
    cbn [andb].
    destruct (String.eqb_spec (Analytics.dayNameOf (parseDate (date c)))
                (Analytics.dayNameOf (parseDate (toISODate today - i))))
      as [Heq|]; [|reflexivity].
    exfalso. apply Hne.
    apply (bucket_day_unique (toISODate today - 6)); [lia|lia|exact Heq].
Qed.

Lemma count_andb_true {A : Type} (p : A -> bool) (l : list A) :
  countZ (fun a => p a && true) l = countZ p l.
Proof.
  unfold countZ. f_equal. f_equal. apply filter_ext. intros a. apply andb_true_r.
Qed.

Lemma In_get_str {V : Type} (o : list (string * V)) (k : string) (v : V) :
  NoDup (map fst o) -> In (k, v) o -> Js.get String.eqb o k = Some v.
Proof.
  induction o as [|[k0 v0] o IH]; simpl; intros Hnd Hin; [destruct Hin|].
  inversion Hnd as [|? ? Hnot Hnd']; subst.
  destruct Hin as [Heq|Hin].
  - injection Heq as -> ->. now rewrite String.eqb_refl.
  - destruct (String.eqb_spec k0 k) as [->|Hne].
    + exfalso. apply Hnot. now apply (in_map fst) in Hin.
    + now apply IH.
Qed.

Lemma get_In_str {V : Type} (o : list (string * V)) (k : string) (v : V) :
  Js.get String.eqb o k = Some v -> In (k, v) o.
Proof.
  induction o as [|[k0 v0] o IH]; simpl; [discriminate|].
  destruct (String.eqb_spec k0 k) as [->|Hne].
  - intros H. injection H as ->. now left.
  - intros H. right. now apply IH.
Qed.

Lemma dayNames_NoDup : NoDup Analytics.dayNames.
Proof.
  unfold Analytics.dayNames.
  repeat (constructor; [simpl; intuition discriminate|]). constructor.
Qed.

(** The record of a weekly bucket in the window of a table with one record
    per day. *)
Lemma weekly_window_get (table : list CheckIn) (h : string) (today i : Z) :
  unique_per_day table ->
  0 <= i <= 6 ->
  Js.get String.eqb (Analytics.day_stats (Analytics.weekly table h today))
    (Analytics.dayNameOf (parseDate (toISODate today - i)))
  = Some (Analytics.mkDayStat
            (if hasCompleted table h (toISODate today - i) then 1 else 0)
            (Z.of_nat (recordsOn table h (toISODate today - i)))).
Proof.
  intros Hu Hi. unfold Analytics.weekly.
  rewrite weeklyOf_get by apply dayNameOf_in.
  rewrite <- (count_andb_true (inBucket _)).
  rewrite !window_bucket_rows by exact Hi.
  rewrite count_andb_true.
  do 2 f_equal.
  unfold countZ. rewrite count_existsb.
  - reflexivity.
  - apply (at_most_one_match _ (h, toISODate today - i)); [exact Hu|].
    intros c Hc. apply andb_prop in Hc. destruct Hc as [Hc _].
    apply andb_prop in Hc. destruct Hc as [Hh Hd].
    apply String.eqb_eq in Hh. apply Z.eqb_eq in Hd.
    unfold recordKey. now rewrite Hh, Hd.
Qed.

Lemma weekly_entry_bounds (table : list CheckIn) (h : string) (today : Z)
    (e : string * Analytics.DayStat) :
  unique_per_day table ->
  In e (Analytics.day_stats (Analytics.weekly table h today)) ->
  (Analytics.st_completed (snd e) = 0 \/
   (Analytics.st_completed (snd e) = 1 /\ Analytics.st_total (snd e) = 1))
  /\ 0 <= Analytics.st_total (snd e) <= 1.
Proof.
  intros Hu Hin. destruct e as [name s].
  assert (Hname : In name Analytics.dayNames).
  { unfold Analytics.weekly in Hin. rewrite <- (weekly_day_stats_keys
      (Analytics.weekCheckIns table h today)).
    now apply (in_map fst) in Hin. }
  destruct (bucket_day_exists (toISODate today) name Hname) as (i & Hi & ->).
  apply In_get_str in Hin.
  2:{ unfold Analytics.weekly. rewrite weekly_day_stats_keys.
      apply dayNames_NoDup. }
  rewrite (weekly_window_get table h today i Hu Hi) in Hin.
  injection Hin as <-. cbn [snd Analytics.st_completed Analytics.st_total].
  pose proof (recordsOn_le1 table h (toISODate today - i) Hu) as Hle.
  destruct (hasCompleted table h (toISODate today - i)) eqn:Hc.
  - split; [|lia]. right. split; [reflexivity|].
    destruct (recordsOn table h (toISODate today - i)) as [|[|n]] eqn:Hr;
      [|reflexivity|lia].
    apply recordsOn_zero_hasCompleted in Hr. congruence.
  - split; [now left|lia].
Qed.

Lemma ratioOf_01 (s : Analytics.DayStat) :
  (Analytics.st_completed s = 0 \/
   (Analytics.st_completed s = 1 /\ Analytics.st_total s = 1)) ->
  (Analytics.ratioOf s == if Analytics.st_completed s =? 1 then 1 else 0)%Q.
Proof.
  unfold Analytics.ratioOf.
  intros [H0 | [H1 Ht]].
  - rewrite H0. simpl (0 =? 1).
    destruct (Analytics.st_total s >? 0); [|reflexivity].
    unfold Qdiv. rewrite Qmult_0_l. reflexivity.
  - rewrite H1, Ht. reflexivity.
Qed.

(** X10. [GET /weekly] on a table with at most one record per (habit, day):
    each of the seven days of the window has its own bucket, which holds
    that day's record ([total] is the number of records of the day, 0 or 1,
    [completed] is 1 exactly when the day has a completed record); so every
    bucket has [total <= 1] and a ratio of 0 or 1, and the best day is the
    first bucket, in the order Monday to Sunday, whose record is completed,
    and "Monday" when no day of the window is completed. *)
Theorem weekly_window_one_day_per_bucket :
  forall (table : list CheckIn) (h : string) (today : Z),
    unique_per_day table ->
    let w := Analytics.weekly table h today in
    let dayOf := fun i => toISODate today - i in
    (forall i, 0 <= i <= 6 ->
       Js.get String.eqb (Analytics.day_stats w)
         (Analytics.dayNameOf (parseDate (dayOf i)))
       = Some (Analytics.mkDayStat
                 (if hasCompleted table h (dayOf i) then 1 else 0)
                 (Z.of_nat (recordsOn table h (dayOf i))))) /\
    (forall i j, 0 <= i <= 6 -> 0 <= j <= 6 ->
       Analytics.dayNameOf (parseDate (dayOf i))
       = Analytics.dayNameOf (parseDate (dayOf j)) -> i = j) /\
    (forall e, In e (Analytics.day_stats w) ->
       0 <= Analytics.st_completed (snd e) <= Analytics.st_total (snd e)
       /\ Analytics.st_total (snd e) <= 1) /\
    ((Analytics.best_day w = "Monday" /\
      forall i, 0 <= i <= 6 -> hasCompleted table h (dayOf i) = false)
     \/ exists l1 e l2,
          Analytics.day_stats w = (l1 ++ e :: l2)%list /\
          Analytics.best_day w = fst e /\
          Analytics.st_completed (snd e) = 1 /\
          forall x, In x l1 -> Analytics.st_completed (snd x) = 0).
Proof.
  intros table h today Hu w dayOf. subst w dayOf. cbv beta.
  split; [intros i Hi; now apply weekly_window_get|].
  split.
  { intros i j Hi Hj Heq.
    apply (bucket_day_unique (toISODate today - 6)) in Heq; lia. }
  split.
  { intros e He.
    destruct (weekly_entry_bounds table h today e Hu He) as [[H0 | [H1 Ht]] Hb];
      lia. }
  pose proof (weekly_best_day_rule (Analytics.weekCheckIns table h today)) as Hbest.
  fold (Analytics.weekly table h today) in Hbest.
  destruct Hbest as [[Hall Hd] | (l1 & e & l2 & Hr & Hd & Hpos & Hl1 & _)].
  - left. split; [exact Hd|].
    intros i Hi.
    pose proof (weekly_window_get table h today i Hu Hi) as Hget.
    destruct (hasCompleted table h (toISODate today - i)); [|reflexivity].
    exfalso.
    apply get_In_str in Hget.
    pose proof (Hall _ (in_map (fun e => (fst e, Analytics.ratioOf (snd e)))
                          _ _ Hget)) as Hle.
    cbn [fst snd] in Hle.
    pose proof Hget as Hin'.
    destruct (weekly_entry_bounds table h today _ Hu Hin') as [H01 _].
    rewrite (ratioOf_01 _ H01) in Hle. cbn in Hle.
    unfold Qle in Hle. simpl in Hle. lia.
  - right. unfold statRatios in Hr.
    apply map_eq_app in Hr. destruct Hr as (s1 & s2' & Hs & Hm1 & Hm2).
    apply map_eq_cons in Hm2. destruct Hm2 as (x & s2 & -> & Hx & Hm2).
    exists s1, x, s2. split; [exact Hs|].
    assert (Hinx : In x (Analytics.day_stats (Analytics.weekly table h today))).
    { rewrite Hs. apply in_or_app. right. now left. }
    destruct (weekly_entry_bounds table h today x Hu Hinx) as [Hx01 _].
    subst e. cbn [fst snd] in *.
    split; [exact Hd|].
    rewrite (ratioOf_01 _ Hx01) in Hpos.
    split.
    + destruct (Z.eqb_spec (Analytics.st_completed (snd x)) 1); [assumption|].
      unfold Qlt in Hpos. simpl in Hpos. lia.
    + intros y Hy.
      assert (Hiny : In y (Analytics.day_stats (Analytics.weekly table h today))).
      { rewrite Hs. apply in_or_app. now left. }
      destruct (weekly_entry_bounds table h today y Hu Hiny) as [[H0 | [H1 _]] _];
        [exact H0|].
      exfalso.
      assert (Hlt : (Analytics.ratioOf (snd y) < Analytics.ratioOf (snd x))%Q).
      { apply (Hl1 (fst y, Analytics.ratioOf (snd y))).
        rewrite <- Hm1.
        apply (in_map (fun e => (fst e, Analytics.ratioOf (snd e))) _ y Hy). }
      rewrite (ratioOf_01 (snd y)) in Hlt by (right; split; [exact H1|];
        destruct (weekly_entry_bounds table h today y Hu Hiny) as [[?|[_ ?]] _]; lia).
      rewrite (ratioOf_01 _ Hx01) in Hlt.
      rewrite H1 in Hlt. simpl (1 =? 1) in Hlt. cbv iota in Hlt.
      destruct (Analytics.st_completed (snd x) =? 1);
        unfold Qlt in Hlt; simpl in Hlt; lia.
Qed.

(** Week of scenario C seen on its Sunday: the first completed bucket in
    the order Monday to Sunday is "Tuesday", which holds Monday's record. *)
Lemma weekly_window_on_scenario_C :
  unique_per_day scenarioC_full /\
  (let w := Analytics.weekly scenarioC_full "habit-1" (noonOf (monday + 6)) in
   Analytics.best_day w = "Tuesday" /\
   Js.get String.eqb (Analytics.day_stats w) "Tuesday"
   = Some (Analytics.mkDayStat 1 1)) /\
  ((Analytics.best_day
      (Analytics.weekly scenarioC_full "habit-1" (noonOf (monday + 6))) = "Monday" /\
    forall i, 0 <= i <= 6 ->
      hasCompleted scenarioC_full "habit-1" (toISODate (noonOf (monday + 6)) - i)
      = false)
   \/ exists l1 e l2,
        Analytics.day_stats
          (Analytics.weekly scenarioC_full "habit-1" (noonOf (monday + 6)))
        = (l1 ++ e :: l2)%list /\
        Analytics.best_day
          (Analytics.weekly scenarioC_full "habit-1" (noonOf (monday + 6))) = fst e /\
        Analytics.st_completed (snd e) = 1 /\
        forall x, In x l1 -> Analytics.st_completed (snd x) = 0).
Proof.
  assert (Hu : unique_per_day scenarioC_full) by unique_keys.
  split; [exact Hu|]. split; [split; reflexivity|].
  exact (proj2 (proj2 (proj2
    (weekly_window_one_day_per_bucket scenarioC_full "habit-1"
       (noonOf (monday + 6)) Hu)))).
Defined.

(* ------------------------------------------------------------------ *)
(** ** POST /weekly-insight on a table with one record per day *)

(** The day the insight loop finds completed is the day that has a
    completed record. *)
Lemma doneOn_window (table : list CheckIn) (h : string) (today d : Z) :
  unique_per_day table ->
  toISODate today - 6 <= d <= toISODate today ->
  doneOn (Insight.windowCheckIns table h today) d = hasCompleted table h d.
Proof.
  intros Hu Hd. unfold doneOn, Insight.windowCheckIns. cbv zeta.
  rewrite toISODate_addDays.
  destruct (find _ _) as [c|] eqn:Hf.
  - apply find_some in Hf. destruct Hf as [Hin Hdc].
    apply (proj1 (order_by_date_In _ _)) in Hin.
    apply (proj1 (filter_In _ _ _)) in Hin.
    destruct Hin as [Hin Hq].
    apply andb_prop in Hq. destruct Hq as [Hq _].
    apply andb_prop in Hq. destruct Hq as [Hh _].
    destruct (completed c) eqn:Hc; symmetry.
    + unfold hasCompleted. apply existsb_exists. exists c.
      split; [exact Hin|]. now rewrite Hh, Hdc, Hc.
    + destruct (hasCompleted table h d) eqn:Hhc; [|reflexivity].
      apply hasCompleted_In in Hhc.
      destruct Hhc as (c' & Hin' & Hh' & Hd' & Hc').
      apply String.eqb_eq in Hh. apply Z.eqb_eq in Hdc.
      assert (Heq : c = c').
      { apply (unique_key_eq table); try assumption.
        unfold recordKey. congruence. }
      congruence.
  - destruct (hasCompleted table h d) eqn:Hhc; [|reflexivity].
    apply hasCompleted_In in Hhc.
    destruct Hhc as (c' & Hin' & Hh' & Hd' & Hc').
    assert (Hrow : In c' (order_by_date
                     (filter (fun c => String.eqb (habit_id c) h
                                && (toISODate today + -6 <=? date c)
                                && (date c <=? toISODate today)) table))).
    { apply (proj2 (order_by_date_In _ _)), (proj2 (filter_In _ _ _)).
      split; [exact Hin'|].
      rewrite Hh', Hd', String.eqb_refl.
      replace (toISODate today + -6 <=? d) with true
        by (symmetry; apply Z.leb_le; lia).
      replace (d <=? toISODate today) with true
        by (symmetry; apply Z.leb_le; lia).
      reflexivity. }
    pose proof (find_none _ _ Hf c' Hrow) as Hn. cbv beta in Hn.
    rewrite Hd', Z.eqb_refl in Hn. discriminate.
Qed.

Lemma fold_weekStep_grid (ws : Z) (rows : list CheckIn) (idx : list Z) :
  forall acc,
    Insight.weekCheckIns (fold_left (Insight.weekStep ws rows) idx acc)
    = (Insight.weekCheckIns acc
       ++ map (fun i => doneOn rows (toISODate (addDays ws i))) idx)%list
    /\ List.length (Insight.checkInTimes
                      (fold_left (Insight.weekStep ws rows) idx acc))
       = (List.length (Insight.checkInTimes acc) + List.length idx)%nat.
Proof.
  induction idx as [|i idx IH]; intros acc; cbn [fold_left map List.length].
  - rewrite app_nil_r. split; [reflexivity|lia].
  - destruct (IH (Insight.weekStep ws rows acc i)) as [Hg Ht].
    rewrite Hg, Ht. rewrite (proj2 (weekStep_fields ws rows acc i)).
    split; [now rewrite <- app_assoc|].
    unfold Insight.weekStep. cbn [Insight.checkInTimes].
    rewrite length_app. cbn [List.length]. lia.
Qed.

Lemma insight_name_of_day (t : Z) :
  Insight.dayNameOf t = Insight.dayNameOf (parseDate (toISODate t)).
Proof.
  unfold Insight.dayNameOf. rewrite getDay_parseDate. reflexivity.
Qed.

Lemma insight_ratio_01 (b : bool) :
  (Insight.ratioOf (Insight.mkDayCount (if b then 1 else 0) 1)
   == if b then 1 else 0)%Q.
Proof. destruct b; reflexivity. Qed.

(** With one observation per bucket the strict selections pick the first
    completed day and the first day not completed. *)
Lemma first_done_spec (name : Z -> string) (done : Z -> bool) (days : list Z)
    (best : string) :
  isFirstMax ("Monday", 0%Q)
    (map (fun d => (name d, Insight.ratioOf
                              (Insight.mkDayCount (if done d then 1 else 0) 1)))
         days) best ->
  (best = "Monday" /\ forall d, In d days -> done d = false)
  \/ exists l1 d l2,
       days = (l1 ++ d :: l2)%list /\ done d = true /\
       (forall x, In x l1 -> done x = false) /\ best = name d.
Proof.
  intros [[Hall Hb] | (l1 & e & l2 & Hr & Hb & Hpos & Hl1 & _)].
  - left. split; [exact Hb|]. intros d Hd.
    pose proof (Hall _ (in_map (fun d => (name d, Insight.ratioOf
                  (Insight.mkDayCount (if done d then 1 else 0) 1))) _ _ Hd))
      as Hle.
    cbn [fst snd] in Hle. rewrite insight_ratio_01 in Hle.
    destruct (done d); [|reflexivity].
    unfold Qle in Hle. simpl in Hle. lia.
  - right.
    apply map_eq_app in Hr. destruct Hr as (a & rest & -> & Hm1 & Hm2).
    apply map_eq_cons in Hm2. destruct Hm2 as (d & b & -> & <- & _).
    cbn [fst snd] in *. rewrite insight_ratio_01 in Hpos.
    exists a, d, b. split; [reflexivity|].
    assert (Hd : done d = true).
    { destruct (done d); [reflexivity|]. unfold Qlt in Hpos. simpl in Hpos. lia. }
    split; [exact Hd|]. split; [|exact Hb].
    intros x Hx.
    assert (Hlt := Hl1 _ (eq_ind _ (fun l => In _ l)
              (in_map (fun d => (name d, Insight.ratioOf
                 (Insight.mkDayCount (if done d then 1 else 0) 1))) _ _ Hx)
              _ Hm1)).
    cbn [fst snd] in Hlt. rewrite !insight_ratio_01, Hd in Hlt.
    destruct (done x); [|reflexivity].
    unfold Qlt in Hlt. simpl in Hlt. lia.
Qed.

Lemma first_missed_spec (name : Z -> string) (done : Z -> bool) (days : list Z)
    (worst : string) :
  isFirstMin ("Monday", 1%Q)
    (map (fun d => (name d, Insight.ratioOf
                              (Insight.mkDayCount (if done d then 1 else 0) 1)))
         days) worst ->
  (worst = "Monday" /\ forall d, In d days -> done d = true)
  \/ exists l1 d l2,
       days = (l1 ++ d :: l2)%list /\ done d = false /\
       (forall x, In x l1 -> done x = true) /\ worst = name d.
Proof.
  intros [[Hall Hb] | (l1 & e & l2 & Hr & Hb & Hpos & Hl1 & _)].
  - left. split; [exact Hb|]. intros d Hd.
    pose proof (Hall _ (in_map (fun d => (name d, Insight.ratioOf
                  (Insight.mkDayCount (if done d then 1 else 0) 1))) _ _ Hd))
      as Hle.
    cbn [fst snd] in Hle. rewrite insight_ratio_01 in Hle.
    destruct (done d); [reflexivity|].
    unfold Qle in Hle. simpl in Hle. lia.
  - right.
    apply map_eq_app in Hr. destruct Hr as (a & rest & -> & Hm1 & Hm2).
    apply map_eq_cons in Hm2. destruct Hm2 as (d & b & -> & <- & _).
    cbn [fst snd] in *. rewrite insight_ratio_01 in Hpos.
    exists a, d, b. split; [reflexivity|].
    assert (Hd : done d = false).
    { destruct (done d); [|reflexivity]. unfold Qlt in Hpos. simpl in Hpos. lia. }
    split; [exact Hd|]. split; [|exact Hb].
    intros x Hx.
    assert (Hlt := Hl1 _ (eq_ind _ (fun l => In _ l)
              (in_map (fun d => (name d, Insight.ratioOf
                 (Insight.mkDayCount (if done d then 1 else 0) 1))) _ _ Hx)
              _ Hm1)).
    cbn [fst snd] in Hlt. rewrite !insight_ratio_01, Hd in Hlt.
    destruct (done x); [reflexivity|].
    unfold Qlt in Hlt. simpl in Hlt. lia.
Qed.

(** The buckets of the insight builder over the days of the window. *)
Lemma insight_ratios (table : list CheckIn) (h : string) (today : Z) :
  unique_per_day table ->
  ratiosOf (Insight.dayCounts (Insight.weekAcc table h today))
  = map (fun d => (Insight.dayNameOf (parseDate d),
                   Insight.ratioOf
                     (Insight.mkDayCount
                        (if hasCompleted table h d then 1 else 0) 1)))
        (windowDays today).
Proof.
  intros Hu. rewrite weekAcc_counts. unfold ratiosOf, windowDays.
  rewrite !map_map. apply map_ext_in. intros i Hi. cbn [fst snd].
  assert (Hr : 0 <= i <= 6) by (simpl in Hi; lia).
  rewrite insight_name_of_day, !toISODate_addDays.
  replace (toISODate today + -6 + i) with (toISODate today - 6 + i) by lia.
  rewrite doneOn_window by (exact Hu || lia). reflexivity.
Qed.

(** The week grid of the insight builder. *)
Lemma weeklyInsight_grid (habit : Habit) (table : list CheckIn)
    (partnerId : option string) (today : Z) :
  unique_per_day table ->
  Insight.ctx_weekCheckIns (Insight.weeklyInsight habit table partnerId today)
  = map (hasCompleted table (h_id habit)) (windowDays today).
Proof.
  intros Hu.
  change (Insight.ctx_weekCheckIns
            (Insight.weeklyInsight habit table partnerId today))
    with (Insight.weekCheckIns (Insight.weekAcc table (h_id habit) today)).
  unfold Insight.weekAcc. cbv zeta.
  rewrite (proj1 (fold_weekStep_grid _ _ _ _)).
  cbn [Insight.weekCheckIns app]. unfold windowDays. rewrite map_map.
  apply map_ext_in. intros i Hi.
  assert (Hr : 0 <= i <= 6) by (simpl in Hi; lia).
  rewrite !toISODate_addDays.
  replace (toISODate today + -6 + i) with (toISODate today - 6 + i) by lia.
  apply doneOn_window; [exact Hu|lia].
Qed.

(** X11. [POST /weekly-insight] on a table with at most one record per
    (habit, day): the week grid handed to the text generator marks, oldest
    day first, the days of the seven-day window that have a completed
    record, and is the [last_seven_days] grid of [GET /:habitId/streak];
    seven check-in times are handed over; the best day is the bucket name
    of the oldest completed day of the window ("Monday" when no day is
    completed) and the worst day the bucket name of the oldest day without
    a completed record ("Monday" when all seven are completed). *)
Theorem weekly_insight_over_the_window :
  forall (habit : Habit) (table : list CheckIn) (partnerId : option string)
         (today : Z),
    unique_per_day table ->
    let ctx := Insight.weeklyInsight habit table partnerId today in
    let days := windowDays today in
    let done := hasCompleted table (h_id habit) in
    Insight.ctx_weekCheckIns ctx = map done days /\
    Insight.ctx_weekCheckIns ctx
    = Checkins.getLastSevenDays table (h_id habit) today /\
    List.length (Insight.ctx_checkInTimes ctx) = 7%nat /\
    ((Insight.ctx_bestDay ctx = "Monday" /\
      forall d, In d days -> done d = false)
     \/ exists l1 d l2,
          days = (l1 ++ d :: l2)%list /\ done d = true /\
          (forall x, In x l1 -> done x = false) /\
          Insight.ctx_bestDay ctx = Insight.dayNameOf (parseDate d)) /\
    ((Insight.ctx_worstDay ctx = "Monday" /\
      forall d, In d days -> done d = true)
     \/ exists l1 d l2,
          days = (l1 ++ d :: l2)%list /\ done d = false /\
          (forall x, In x l1 -> done x = true) /\
          Insight.ctx_worstDay ctx = Insight.dayNameOf (parseDate d)).
Proof.
  intros habit table partnerId today Hu ctx days done. subst ctx days done.
  pose proof (weeklyInsight_grid habit table partnerId today Hu) as Hgrid.
  split; [exact Hgrid|]. split.
  { rewrite Hgrid, getLastSevenDays_grid by exact Hu.
    unfold windowDays. rewrite map_map. cbn [map].
    repeat (f_equal; [f_equal; lia|]). f_equal. f_equal. lia. }
  split.
  { change (Insight.ctx_checkInTimes
              (Insight.weeklyInsight habit table partnerId today))
      with (Insight.checkInTimes (Insight.weekAcc table (h_id habit) today)).
    unfold Insight.weekAcc. cbv zeta.
    rewrite (proj2 (fold_weekStep_grid _ _ _ _)). reflexivity. }
  destruct (weeklyInsight_days habit table partnerId today) as [Hb Hw].
  destruct (bestWorst_spec
              (Insight.dayCounts (Insight.weekAcc table (h_id habit) today)))
    as [Hmax Hmin].
  rewrite <- Hb in Hmax. rewrite <- Hw in Hmin.
  rewrite (insight_ratios table (h_id habit) today Hu) in Hmax, Hmin.
  split.
  - exact (first_done_spec (fun d => Insight.dayNameOf (parseDate d))
             (hasCompleted table (h_id habit)) (windowDays today) _ Hmax).
  - exact (first_missed_spec (fun d => Insight.dayNameOf (parseDate d))
             (hasCompleted table (h_id habit)) (windowDays today) _ Hmin).
Qed.

(** Scenario A seen on its last day: the four older days of the window
    are not completed, the last three are. *)
Lemma weekly_insight_on_scenario_A :
  unique_per_day (scenarioA monday) /\
  Insight.ctx_weekCheckIns
    (Insight.weeklyInsight sampleHabit (scenarioA monday) None (noonOf monday))
  = [false; false; false; false; true; true; true] /\
  Insight.ctx_weekCheckIns
    (Insight.weeklyInsight sampleHabit (scenarioA monday) None (noonOf monday))
  = Checkins.getLastSevenDays (scenarioA monday) (h_id sampleHabit) (noonOf monday).
Proof.
  assert (Hu : unique_per_day (scenarioA monday)) by unique_keys.
  split; [exact Hu|].
  destruct (weekly_insight_over_the_window sampleHabit (scenarioA monday) None
              (noonOf monday) Hu) as (Hgrid & Hsame & _).
  split; [rewrite Hgrid; reflexivity|exact Hsame].
Defined.

(* ------------------------------------------------------------------ *)
(** ** GET /monthly on a table with one record per day *)

Lemma makeDate_midnight (y m d : Z) :
  makeDate y m d = parseDate (toISODate (makeDate y m d)).
Proof.
  rewrite toISODate_makeDate. reflexivity.
Qed.

Lemma month_day_range (y m day : Z) :
  1 <= day <= getDate (makeDate y m 0) ->
  toISODate (makeDate y (m - 1) 1) <= toISODate (makeDate y (m - 1) day)
  <= toISODate (makeDate y m 0).
Proof.
  intros Hday.
  destruct (getDate_endDate y m) as (_ & _ & Hend).
  rewrite Hend. rewrite !toISODate_makeDate.
  rewrite (makeDay_day _ _ day), (makeDay_day _ _ (getDate (makeDate y m 0))).
  rewrite (makeDay_day _ _ 1). lia.
Qed.

(** The cell written for a day of the month, in terms of dates. *)
Lemma cellOf_cellFor (table : list CheckIn) (h : string) (y m now startIso day : Z) :
  unique_per_day table ->
  1 <= day <= getDate (makeDate y m 0) ->
  cellOf y m (parseDate startIso) now
    (filter (fun c => String.eqb (habit_id c) h
                      && (toISODate (makeDate y (m - 1) 1) <=? date c)
                      && (date c <=? toISODate (makeDate y m 0))) table) day
  = cellFor startIso (toISODate now) (toISODate (makeDate y (m - 1) day))
      (hasCompleted table h (toISODate (makeDate y (m - 1) day))).
Proof.
  intros Hu Hday. unfold cellOf, cellFor. cbv zeta.
  assert (H1 : (makeDate y (m - 1) day <? parseDate startIso)
               = (toISODate (makeDate y (m - 1) day) <? startIso)).
  { rewrite <- (parseDate_ltb (toISODate (makeDate y (m - 1) day)) startIso).
    now rewrite <- makeDate_midnight. }
  assert (H2 : (makeDate y (m - 1) day >? now)
               = (toISODate (makeDate y (m - 1) day) >? toISODate now)).
  { rewrite <- (midnight_gtb (toISODate (makeDate y (m - 1) day)) now).
    now rewrite <- makeDate_midnight. }
  rewrite H1, H2.
  destruct (_ <? startIso); [reflexivity|].
  destruct (_ >? toISODate now); [reflexivity|]. cbn [orb].
  rewrite <- (find_on_day table h _ _ _ Hu (month_day_range y m day Hday)).
  destruct (find _ _) as [c|]; [|reflexivity].
  destruct (completed c); reflexivity.
Qed.

Lemma filter_map_length {A B : Type} (f : A -> B) (p : B -> bool) (l : list A) :
  List.length (filter p (map f l)) = List.length (filter (fun a => p (f a)) l).
Proof.
  induction l as [|a l IH]; simpl; [reflexivity|].
  destruct (p (f a)); simpl; now rewrite IH.
Qed.

Lemma cellFor_completed (startIso today d : Z) (done : bool) :
  Analytics.Status_eqb (Analytics.status (cellFor startIso today d done))
    Analytics.Completed
  = (startIso <=? d) && (d <=? today) && done
  /\ Analytics.c_completed (cellFor startIso today d done)
     = (startIso <=? d) && (d <=? today) && done.
Proof.
  unfold cellFor.
  destruct (Z.ltb_spec d startIso); destruct (Z.leb_spec startIso d); try lia;
    destruct (Z.gtb_spec d today); destruct (Z.leb_spec d today); try lia;
    destruct done; split; reflexivity.
Qed.

(** X12. [GET /monthly] for a year written with four digits and a month
    1..12, on a table with at most one record per (habit, day): the route
    answers, and the calendar holds, for each day 1 .. last day of that
    month, the cell "future" before the habit's start date or after today,
    else "completed" when the date has a completed record, else "missed";
    when no habit row is found the first of the month stands for the start
    date, so no day is "future" on account of it.  The [completed] flag of
    a cell is true exactly when its status is "completed"; [completed_days]
    is the number of days of the month, from the start date to today, that
    have a completed record, at most [total_days]; and for a month that
    begins after today it is 0, with success rate 0. *)
Theorem monthly_completed_days_are_the_checked_days :
  forall (habits : list Habit) (table : list CheckIn) (h : string)
         (y m now : Z),
    unique_per_day table ->
    100 <= y <= 9999 ->
    1 <= m <= 12 ->
    let lastDay := daysInMonth y m in
    let dateOf := isoDate y m in
    let startIso :=
      match single (filter (fun x => String.eqb (h_id x) h) habits) with
      | Some hb => start_date hb
      | None => dateOf 1
      end in
    let counted := fun day =>
      (startIso <=? dateOf day) && (dateOf day <=? toISODate now)
      && hasCompleted table h (dateOf day) in
    exists r,
      Analytics.monthly habits table h y m now = Some r /\
      Analytics.calendar r
      = map (fun day => (dateOf day,
                         cellFor startIso (toISODate now) (dateOf day)
                           (hasCompleted table h (dateOf day))))
            (Analytics.daysUpTo lastDay) /\
      (forall e, In e (Analytics.calendar r) ->
         Analytics.c_completed (snd e)
         = Analytics.Status_eqb (Analytics.status (snd e)) Analytics.Completed) /\
      Analytics.completed_days (Analytics.month_stats r)
      = countZ counted (Analytics.daysUpTo lastDay) /\
      0 <= Analytics.completed_days (Analytics.month_stats r)
        <= Analytics.total_days (Analytics.month_stats r) /\
      (toISODate now < dateOf 1 ->
       Analytics.completed_days (Analytics.month_stats r) = 0 /\
       (Analytics.m_success_rate (Analytics.month_stats r) == 0)%Q).
Proof.
  intros habits table h y m now Hu Hy Hm lastDay dateOf startIso counted.
  destruct (monthly_calendar habits table h y m now Hy Hm)
    as (hsd & rows & cal & Hhsd & Hrows & Hc & Hmonthly).
  destruct (month_dates y m ltac:(lia) Hm) as (Hdate & Hlast & Hlen).
  fold dateOf in Hdate. fold lastDay in Hlast, Hlen.
  exists (Analytics.mkMonthly cal (Analytics.monthStatsOf cal)).
  split; [exact Hmonthly|]. cbn [Analytics.calendar Analytics.month_stats].
  assert (Hplus : forall day, dateOf day = dateOf 1 + (day - 1)).
  { intros day. unfold dateOf, isoDate. lia. }
  assert (Hcal : cal
                 = map (fun day => (dateOf day,
                          cellFor startIso (toISODate now) (dateOf day)
                            (hasCompleted table h (dateOf day))))
                       (Analytics.daysUpTo lastDay)).
  { rewrite Hc, Hlast. apply map_ext_in. intros day Hday.
    apply daysUpTo_In in Hday. rewrite <- Hlast in Hday.
    assert (Hs : hsd = parseDate startIso).
    { subst hsd startIso. cbv beta.
      destruct (single _); [reflexivity|].
      rewrite <- Hdate. apply makeDate_midnight. }
    rewrite Hs, Hrows, (cellOf_cellFor table h y m now startIso day Hu Hday).
    now rewrite Hdate. }
  destruct (monthStatsOf_fields cal) as (Htd & Hcd & Hsr).
  cbv zeta in Htd, Hcd, Hsr.
  set (st := Analytics.monthStatsOf cal) in *.
  assert (Hcount : Analytics.completed_days st
                   = countZ counted (Analytics.daysUpTo lastDay)).
  { rewrite Hcd, Hcal, filter_map_length.
    unfold countZ. do 2 f_equal. apply filter_ext. intros day. cbn [snd].
    apply (proj1 (cellFor_completed _ _ _ _)). }
  assert (Htot : Analytics.total_days st = lastDay).
  { rewrite Htd, Hcal, length_map. apply daysUpTo_length. lia. }
  split; [exact Hcal|]. split.
  { intros e He. rewrite Hcal in He. apply in_map_iff in He.
    destruct He as (day & <- & _). cbn [snd].
    destruct (cellFor_completed startIso (toISODate now) (dateOf day)
                (hasCompleted table h (dateOf day))) as [H1 H2].
    now rewrite H1, H2. }
  split; [exact Hcount|]. split.
  { rewrite Hcount, Htot. unfold countZ.
    pose proof (filter_length_le counted (Analytics.daysUpTo lastDay)) as Hle.
    pose proof (daysUpTo_length lastDay ltac:(lia)). lia. }
  intros Hfuture.
  assert (Hzero : Analytics.completed_days st = 0).
  { rewrite Hcount. unfold countZ.
    replace (filter counted (Analytics.daysUpTo lastDay)) with (@nil Z);
      [reflexivity|].
    symmetry. rewrite <- (filter_ext_in (fun _ => false)).
    - clear. induction (Analytics.daysUpTo lastDay); simpl; auto.
    - intros day Hday. apply daysUpTo_In in Hday.
      subst counted. cbv beta.
      replace (dateOf day <=? toISODate now) with false
        by (symmetry; apply Z.leb_gt; rewrite (Hplus day); lia).
      now rewrite andb_false_r. }
  split; [exact Hzero|].
  rewrite Hsr, <- Hcd, <- Htd, Hzero, Htot.
  replace (lastDay >? 0) with true by (symmetry; apply Z.gtb_lt; lia).
  rewrite (rate_month lastDay 0) by lia.
  rewrite (Math_round_comp _ 0); [reflexivity|].
  change (inject_Z 0) with 0%Q. unfold Qdiv. now rewrite !Qmult_0_l.
Qed.

(** January 2024 seen on its 7th day for the habit started on the 4th:
    the completed records of the 1st to the 3rd precede the start date and
    do not count. *)
Lemma monthly_on_mid_month_habit :
  unique_per_day scenarioC_full /\
  exists r,
    Analytics.monthly [midMonthHabit] scenarioC_full "habit-1" 2024 1
      (noonOf (monday + 6)) = Some r /\
    Analytics.completed_days (Analytics.month_stats r) = 0 /\
    0 <= Analytics.completed_days (Analytics.month_stats r)
      <= Analytics.total_days (Analytics.month_stats r).
Proof.
  assert (Hu : unique_per_day scenarioC_full) by unique_keys.
  split; [exact Hu|].
  destruct (monthly_completed_days_are_the_checked_days [midMonthHabit]
              scenarioC_full "habit-1" 2024 1 (noonOf (monday + 6)) Hu)
    as (r & Hr & _ & _ & Hcount & Hle & _).
  - lia.
  - lia.
  - exists r. split; [exact Hr|]. split; [|exact Hle].
    rewrite Hcount. reflexivity.
Defined.

(* ------------------------------------------------------------------ *)
(** ** Check-in, then reading it back *)

Lemma filter_by_id (table : list CheckIn) (e : CheckIn) :
  uniqueIds table -> In e table ->
  filter (fun c => Nat.eqb (id c) (id e)) table = [e].
Proof.
  unfold uniqueIds. induction table as [|a l IH]; simpl; intros Hnd Hin;
    [destruct Hin|].
  inversion Hnd as [|? ? Hnot Hnd']; subst.
  destruct Hin as [->|Hin].
  - rewrite Nat.eqb_refl. f_equal.
    clear IH Hnd Hnd'. induction l as [|b l IH]; simpl; [reflexivity|].
    destruct (Nat.eqb_spec (id b) (id e)) as [Heq|_].
    + exfalso. apply Hnot. simpl. now left.
    + apply IH. intros H. apply Hnot. simpl. now right.
  - destruct (Nat.eqb_spec (id a) (id e)) as [Heq|_].
    + exfalso. apply Hnot. rewrite Heq. now apply in_map.
    + now apply IH.
Qed.

Lemma filter_map_commute {A : Type} (f : A -> A) (p : A -> bool) (l : list A) :
  (forall a, p (f a) = p a) -> filter p (map f l) = map f (filter p l).
Proof.
  intros H. induction l as [|a l IH]; simpl; [reflexivity|].
  rewrite H. destruct (p a); simpl; now rewrite IH.
Qed.

Lemma updateRow_found (e : CheckIn) (done : bool) (body : Checkins.Body) (now : Z) :
  updateRow e done body now e
  = mkCheckIn (id e) (habit_id e) (user_id e) (date e) done
      (Some (timeOfDay now)) (Checkins.notes_or_null (Checkins.b_notes body)).
Proof. unfold updateRow. now rewrite Nat.eqb_refl. Qed.

(** The response of an accepted [POST /] on a table with distinct primary
    keys is the row written. *)
Lemma postCheckIn_response (habits : list Habit) (table : list CheckIn)
    (user : string) (body : Checkins.Body) (now : Z)
    (h : string) (done : bool) (hb : Habit) :
  uniqueIds table ->
  Checkins.b_habit_id body = Some h ->
  h <> EmptyString ->
  Checkins.b_completed body = Some done ->
  single (filter (fun x => String.eqb (h_id x) h
                           && String.eqb (h_user_id x) user) habits) = Some hb ->
  snd (Checkins.postCheckIn habits table user body now)
  = Checkins.Json
      match single (filter (fun c => String.eqb (habit_id c) h
                                     && (date c =? toISODate now)) table) with
      | Some e => updateRow e done body now e
      | None => newRow table h user done body now
      end.
Proof.
  intros Hids Hh Hne Hd Hhb. unfold Checkins.postCheckIn.
  rewrite Hh, Hd.
  destruct (String.eqb_spec h EmptyString) as [|_]; [contradiction|].
  rewrite Hhb. cbv zeta.
  destruct (single (filter (fun c => String.eqb (habit_id c) h
                                     && (date c =? toISODate now)) table))
    as [e|] eqn:He; [|reflexivity].
  apply single_In in He. destruct He as [Hin _].
  change (fun c : CheckIn =>
            if Nat.eqb (id c) (id e)
            then {| id := id c; habit_id := habit_id c; user_id := user_id c;
                    date := date c; completed := done;
                    check_in_time := Some (timeOfDay now);
                    notes := Checkins.notes_or_null (Checkins.b_notes body) |}
            else c)
    with (updateRow e done body now).
  rewrite (filter_map_commute (updateRow e done body now)
             (fun c => Nat.eqb (id c) (id e))).
  - rewrite (filter_by_id table e Hids Hin). reflexivity.
  - intros a. now rewrite (proj1 (updateRow_id e done body now a)).
Qed.

(** The newest row of a list sorted by strictly increasing date. *)
Lemma newest_first (l : list CheckIn) (row : CheckIn) :
  StronglySorted date_lt l ->
  In row l ->
  (forall c, In c l -> date c <= date row) ->
  hd_error (rev l) = Some row.
Proof.
  induction 1 as [|a l Hs IH Hall]; intros Hin Hmax; [destruct Hin|].
  simpl. destruct l as [|b l'].
  - destruct Hin as [->|[]]. reflexivity.
  - assert (Hrow : In row (b :: l')).
    { destruct Hin as [->|Hin]; [|exact Hin].
      exfalso. rewrite Forall_forall in Hall.
      pose proof (Hall b (or_introl eq_refl)) as Hlt. unfold date_lt in Hlt.
      pose proof (Hmax b (or_intror (or_introl eq_refl))). lia. }
    specialize (IH Hrow (fun c Hc => Hmax c (or_intror Hc))).
    simpl in IH |- *.
    destruct (rev l' ++ [b])%list as [|x xs] eqn:Hr.
    + destruct (rev l'); discriminate.
    + simpl in IH |- *. exact IH.
Qed.

Lemma postCheckIn_insert (habits : list Habit) (table : list CheckIn)
    (user : string) (body : Checkins.Body) (now : Z)
    (h : string) (done : bool) (hb : Habit) :
  Checkins.b_habit_id body = Some h ->
  h <> EmptyString ->
  Checkins.b_completed body = Some done ->
  single (filter (fun x => String.eqb (h_id x) h
                           && String.eqb (h_user_id x) user) habits) = Some hb ->
  single (filter (fun c => String.eqb (habit_id c) h
                           && (date c =? toISODate now)) table) = None ->
  fst (Checkins.postCheckIn habits table user body now)
  = (table ++ [newRow table h user done body now])%list.
Proof.
  intros Hh Hne Hd Hhb He. unfold Checkins.postCheckIn.
  rewrite Hh, Hd.
  destruct (String.eqb_spec h EmptyString) as [|_]; [contradiction|].
  rewrite Hhb. cbv zeta. rewrite He. reflexivity.
Qed.

(** Today's rows of the habit after an accepted [POST /]: the one row
    written. *)
Lemma postCheckIn_today (habits : list Habit) (table : list CheckIn)
    (user : string) (body : Checkins.Body) (now : Z)
    (h : string) (done : bool) (hb : Habit) :
  unique_per_day table ->
  Checkins.b_habit_id body = Some h ->
  h <> EmptyString ->
  Checkins.b_completed body = Some done ->
  single (filter (fun x => String.eqb (h_id x) h
                           && String.eqb (h_user_id x) user) habits) = Some hb ->
  let row :=
    match single (filter (fun c => String.eqb (habit_id c) h
                                   && (date c =? toISODate now)) table) with
    | Some e => updateRow e done body now e
    | None => newRow table h user done body now
    end in
  filter (fun c => String.eqb (habit_id c) h && (date c =? toISODate now))
    (fst (Checkins.postCheckIn habits table user body now)) = [row] /\
  habit_id row = h /\ date row = toISODate now /\ completed row = done /\
  check_in_time row = Some (timeOfDay now) /\
  notes row = Checkins.notes_or_null (Checkins.b_notes body) /\
  ((forall c, In c table -> date c <= toISODate now) ->
   forall c, In c (fst (Checkins.postCheckIn habits table user body now)) ->
     date c <= toISODate now).
Proof.
  intros Hu Hh Hne Hd Hhb.
  destruct (single (filter (fun c => String.eqb (habit_id c) h
                                     && (date c =? toISODate now)) table))
    as [e|] eqn:He; cbv zeta.
  - pose proof (postCheckIn_update habits table user body now h done hb e
                  Hh Hne Hd Hhb He) as Hupd.
    change (fst (Checkins.postCheckIn habits table user body now)
            = map (updateRow e done body now) table) in Hupd.
    rewrite Hupd.
    pose proof (single_In _ _ _ He) as [Hin Hp].
    apply andb_prop in Hp. destruct Hp as [Hph Hpd].
    apply String.eqb_eq in Hph. apply Z.eqb_eq in Hpd.
    rewrite updateRow_found. cbn [habit_id date completed check_in_time notes].
    split.
    { rewrite filter_map_commute.
      - apply single_Some in He. rewrite He. cbn [map].
        now rewrite updateRow_found.
      - intros a. destruct (updateRow_id e done body now a) as [_ Hk].
        unfold recordKey in Hk. injection Hk as Hk1 Hk2.
        now rewrite Hk1, Hk2. }
    repeat (split; [reflexivity || assumption|]).
    intros Hmax c Hc. apply in_map_iff in Hc. destruct Hc as (a & <- & Ha).
    destruct (updateRow_id e done body now a) as [_ Hk].
    unfold recordKey in Hk. injection Hk as _ Hk2. rewrite Hk2. now apply Hmax.
  - rewrite (postCheckIn_insert habits table user body now h done hb
               Hh Hne Hd Hhb He).
    unfold newRow. cbn [habit_id date completed check_in_time notes].
    split.
    { rewrite filter_app. cbn [filter habit_id date].
      rewrite String.eqb_refl, Z.eqb_refl. cbn [andb].
      pose proof (lookup_single table h (toISODate now)) as Hls.
      rewrite He in Hls.
      pose proof (recordsOn_le1 table h (toISODate now) Hu) as Hle.
      unfold recordsOn in Hls, Hle.
      destruct (filter (fun c => String.eqb (habit_id c) h
                                 && (date c =? toISODate now)) table)
        as [|x [|y l]]; simpl in *; [reflexivity|congruence|lia]. }
    repeat (split; [reflexivity|]).
    intros Hmax c Hc. apply in_app_or in Hc. destruct Hc as [Hc|[<-|[]]].
    + now apply Hmax.
    + cbn [date]. lia.
Qed.

(** X13. Check-in round trip.  After an accepted [POST /] on a table with
    at most one record per (habit, day) and distinct primary keys:
    [GET /:habitId/today], asked at any time of the same day, returns one
    check-in, which is the row of the response of [POST /] and carries the
    habit, today's date, the posted [completed] flag, the time of the
    request and the posted notes; [GET /:habitId] lists exactly the
    check-ins of the habit, among them that row, and lists it first when no
    check-in is dated after today. *)
Theorem check_in_is_read_back :
  forall (habits : list Habit) (table : list CheckIn) (user : string)
         (body : Checkins.Body) (now later : Z)
         (h : string) (done : bool) (hb : Habit),
    unique_per_day table ->
    uniqueIds table ->
    Checkins.b_habit_id body = Some h ->
    h <> EmptyString ->
    Checkins.b_completed body = Some done ->
    single (filter (fun x => String.eqb (h_id x) h
                             && String.eqb (h_user_id x) user) habits) = Some hb ->
    toISODate later = toISODate now ->
    let table' := fst (Checkins.postCheckIn habits table user body now) in
    exists row hist,
      CheckinQueries.getToday table' h later = Some row /\
      snd (Checkins.postCheckIn habits table user body now) = Checkins.Json row /\
      habit_id row = h /\ date row = toISODate now /\ completed row = done /\
      check_in_time row = Some (timeOfDay now) /\
      notes row = Checkins.notes_or_null (Checkins.b_notes body) /\
      CheckinQueries.getHistory habits table' user h = CheckinQueries.Rows hist /\
      In row hist /\
      (forall c, In c hist <-> In c table' /\ habit_id c = h) /\
      ((forall c, In c table -> date c <= toISODate now) ->
       hd_error hist = Some row).
Proof.
  intros habits table user body now later h done hb Hu Hids Hh Hne Hd Hhb Hlater
         table'.
  pose proof (postCheckIn_response habits table user body now h done hb
                Hids Hh Hne Hd Hhb) as Hresp.
  pose proof (postCheckIn_unique habits table user body now Hu) as Hu'.
  destruct (postCheckIn_today habits table user body now h done hb
              Hu Hh Hne Hd Hhb) as (Hf & Hrh & Hrd & Hrc & Hrt & Hrn & Hdates).
  fold table' in Hu', Hf, Hdates.
  set (row := match single (filter (fun c => String.eqb (habit_id c) h
                                      && (date c =? toISODate now)) table) with
              | Some e => updateRow e done body now e
              | None => newRow table h user done body now
              end) in *.
  assert (Hin : In row table').
  { assert (H : In row [row]) by now left.
    rewrite <- Hf in H. now apply filter_In in H. }
  assert (Hhist : forall c,
            In c (rev (order_by_date
                         (filter (fun c => String.eqb (habit_id c) h) table')))
            <-> In c table' /\ habit_id c = h).
  { intros c. rewrite <- in_rev, order_by_date_In, filter_In.
    now rewrite String.eqb_eq. }
  exists row,
    (rev (order_by_date (filter (fun c => String.eqb (habit_id c) h) table'))).
  split.
  { unfold CheckinQueries.getToday. cbv zeta. rewrite Hlater, Hf. reflexivity. }
  split; [exact Hresp|].
  do 5 (split; [assumption|]).
  split.
  { unfold CheckinQueries.getHistory. now rewrite Hhb. }
  split; [apply Hhist; now split|].
  split; [exact Hhist|].
  intros Hmax. apply newest_first.
  - apply (order_by_date_strict _ h table' Hu').
    intros c Hc. now apply String.eqb_eq.
  - apply in_rev, Hhist. now split.
  - intros c Hc. apply in_rev, Hhist in Hc. destruct Hc as [Hc _].
    rewrite Hrd. now apply Hdates.
Qed.

(** The second day of scenario A, checked in again as not completed. *)
Lemma check_in_is_read_back_on_scenario_A :
  exists row hist,
    CheckinQueries.getToday
      (fst (Checkins.postCheckIn [sampleHabit] (scenarioA monday) "user-1"
              (Checkins.mkBody (Some "habit-1") (Some false) None)
              (noonOf monday)))
      "habit-1" (noonOf monday + 1) = Some row /\
    completed row = false /\
    CheckinQueries.getHistory [sampleHabit]
      (fst (Checkins.postCheckIn [sampleHabit] (scenarioA monday) "user-1"
              (Checkins.mkBody (Some "habit-1") (Some false) None)
              (noonOf monday)))
      "user-1" "habit-1" = CheckinQueries.Rows hist /\
    hd_error hist = Some row.
Proof.
  assert (Hu : unique_per_day (scenarioA monday)) by unique_keys.
  assert (Hids : uniqueIds (scenarioA monday)).
  { unfold uniqueIds. simpl. repeat constructor; simpl; intuition discriminate. }
  destruct (check_in_is_read_back [sampleHabit] (scenarioA monday) "user-1"
              (Checkins.mkBody (Some "habit-1") (Some false) None)
              (noonOf monday) (noonOf monday + 1) "habit-1" false sampleHabit
              Hu Hids eq_refl ltac:(discriminate) eq_refl eq_refl eq_refl)
    as (row & hist & Ht & _ & _ & _ & Hc & _ & _ & Hh & _ & _ & Hhd).
  exists row, hist. split; [exact Ht|]. split; [exact Hc|]. split; [exact Hh|].
  apply Hhd. intros c Hin. simpl in Hin.
  destruct Hin as [<-|[<-|[<-|[]]]]; vm_compute; discriminate.
Defined.

(* ------------------------------------------------------------------ *)
(** ** Partnerships: the life of a request *)

Lemma filter_andb {A : Type} (p q : A -> bool) (l : list A) :
  filter (fun a => p a && q a) l = filter q (filter p l).
Proof.
  induction l as [|a l IH]; simpl; [reflexivity|].
  destruct (p a); simpl; [destruct (q a)|]; now rewrite IH.
Qed.

Lemma filter_by_pid (table : list Partnerships.Partnership)
    (p : Partnerships.Partnership) :
  distinctIds table -> In p table ->
  filter (fun q => String.eqb (Partnerships.p_id q) (Partnerships.p_id p)) table
  = [p].
Proof.
  unfold distinctIds. induction table as [|a l IH]; simpl; intros Hnd Hin;
    [destruct Hin|].
  inversion Hnd as [|? ? Hnot Hnd']; subst.
  destruct Hin as [->|Hin].
  - rewrite String.eqb_refl. f_equal.
    clear IH Hnd Hnd'. induction l as [|b l IH]; simpl; [reflexivity|].
    destruct (String.eqb_spec (Partnerships.p_id b) (Partnerships.p_id p))
      as [Heq|_].
    + exfalso. apply Hnot. simpl. now left.
    + apply IH. intros H. apply Hnot. simpl. now right.
  - destruct (String.eqb_spec (Partnerships.p_id a) (Partnerships.p_id p))
      as [Heq|_].
    + exfalso. apply Hnot. rewrite Heq. now apply in_map.
    + now apply IH.
Qed.

(** What the three status routes do to the table, given the row found. *)
Lemma status_route_shape (table : list Partnerships.Partnership) (id : string)
    (guard : Partnerships.Partnership -> bool)
    (f : Partnerships.Partnership -> Partnerships.Partnership)
    (found : Partnerships.Partnership) :
  distinctIds table ->
  (forall p, Partnerships.p_id (f p) = Partnerships.p_id p) ->
  single (filter (fun p => String.eqb (Partnerships.p_id p) id && guard p) table)
  = Some found ->
  In found table /\ Partnerships.p_id found = id /\ guard found = true /\
  single (filter (fun p => String.eqb (Partnerships.p_id p) id)
            (map (setStatus id f) table)) = Some (f found) /\
  (forall p, In p table -> p <> found -> setStatus id f p = p) /\
  setStatus id f found = f found.
Proof.
  intros Hnd Hid Hs.
  apply single_In in Hs. destruct Hs as [Hin Hp].
  apply andb_prop in Hp. destruct Hp as [Hpid Hg].
  apply String.eqb_eq in Hpid.
  split; [exact Hin|]. split; [exact Hpid|]. split; [exact Hg|].
  assert (Hset : setStatus id f found = f found).
  { unfold setStatus. now rewrite Hpid, String.eqb_refl. }
  split; [|split; [|exact Hset]].
  - rewrite (filter_map_commute (setStatus id f)).
    + rewrite <- Hpid, (filter_by_pid table found Hnd Hin). cbn [map].
      rewrite Hpid, Hset. reflexivity.
    + intros a. unfold setStatus.
      destruct (String.eqb (Partnerships.p_id a) id) eqn:E; [|exact E].
      now rewrite Hid.
  - intros p Hp Hne. unfold setStatus.
    destruct (String.eqb_spec (Partnerships.p_id p) id) as [Heq|]; [|reflexivity].
    exfalso. apply Hne.
    assert (Hin' : In p (filter (fun q => String.eqb (Partnerships.p_id q)
                                            (Partnerships.p_id found)) table)).
    { apply filter_In. split; [exact Hp|]. rewrite Hpid, Heq.
      apply String.eqb_refl. }
    rewrite (filter_by_pid table found Hnd Hin) in Hin'.
    destruct Hin' as [<-|[]]. reflexivity.
Qed.

Lemma accept_shape (table : list Partnerships.Partnership) (user id : string)
    (now : Z) :
  Partnerships.accept table user id now
  = match single (filter (fun p => String.eqb (Partnerships.p_id p) id
                           && (String.eqb (Partnerships.receiver_id p) user
                               && String.eqb (Partnerships.status p) "pending"))
                    table) with
    | None => (table, Partnerships.Status 404 "Partnership request not found")
    | Some _ =>
        let table' :=
          map (setStatus id (fun p => withStatus p "accepted" (Some now)
                                        (Partnerships.ended_at p))) table in
        match single (filter (fun p => String.eqb (Partnerships.p_id p) id)
                        table') with
        | Some data => (table', Partnerships.Json 200 data)
        | None => (table', Partnerships.Status 500 "Failed to accept partnership")
        end
    end.
Proof.
  unfold Partnerships.accept.
  rewrite (filter_ext _ (fun p => String.eqb (Partnerships.p_id p) id
                           && (String.eqb (Partnerships.receiver_id p) user
                               && String.eqb (Partnerships.status p) "pending")))
    by (intros p; now rewrite andb_assoc).
  reflexivity.
Qed.

Lemma decline_shape (table : list Partnerships.Partnership) (user id : string) :
  Partnerships.decline table user id
  = match single (filter (fun p => String.eqb (Partnerships.p_id p) id
                           && (String.eqb (Partnerships.receiver_id p) user
                               && String.eqb (Partnerships.status p) "pending"))
                    table) with
    | None => (table, Partnerships.Status 404 "Partnership request not found")
    | Some _ =>
        let table' :=
          map (setStatus id (fun p => withStatus p "declined"
                                        (Partnerships.accepted_at p)
                                        (Partnerships.ended_at p))) table in
        match single (filter (fun p => String.eqb (Partnerships.p_id p) id)
                        table') with
        | Some data => (table', Partnerships.Json 200 data)
        | None => (table', Partnerships.Status 500 "Failed to decline partnership")
        end
    end.
Proof.
  unfold Partnerships.decline.
  rewrite (filter_ext _ (fun p => String.eqb (Partnerships.p_id p) id
                           && (String.eqb (Partnerships.receiver_id p) user
                               && String.eqb (Partnerships.status p) "pending")))
    by (intros p; now rewrite andb_assoc).
  reflexivity.
Qed.

Lemma endPartnership_shape (table : list Partnerships.Partnership)
    (user id : string) (now : Z) :
  Partnerships.endPartnership table user id now
  = match single (filter (fun p => String.eqb (Partnerships.p_id p) id
                           && (Partnerships.involves user p
                               && String.eqb (Partnerships.status p) "accepted"))
                    table) with
    | None => (table, Partnerships.Status 404 "Partnership not found")
    | Some _ =>
        let table' :=
          map (setStatus id (fun p => withStatus p "ended"
                                        (Partnerships.accepted_at p) (Some now)))
              table in
        match single (filter (fun p => String.eqb (Partnerships.p_id p) id)
                        table') with
        | Some data => (table', Partnerships.Json 200 data)
        | None => (table', Partnerships.Status 500 "Failed to end partnership")
        end
    end.
Proof.
  unfold Partnerships.endPartnership.
  rewrite (filter_ext _ (fun p => String.eqb (Partnerships.p_id p) id
                           && (Partnerships.involves user p
                               && String.eqb (Partnerships.status p) "accepted")))
    by (intros p; now rewrite andb_assoc).
  reflexivity.
Qed.

(** A status route that finds its row rewrites that row alone. *)
Lemma status_route_rows (table : list Partnerships.Partnership) (user id : string)
    (now : Z) (guard : Partnerships.Partnership -> bool)
    (f : Partnerships.Partnership -> Partnerships.Partnership) :
  distinctIds table ->
  (forall p, sameParties p (f p)) ->
  (forall p, guard p = true -> transition user now p (f p)) ->
  match single (filter (fun p => String.eqb (Partnerships.p_id p) id && guard p)
                  table) with
  | Some found =>
      single (filter (fun p => String.eqb (Partnerships.p_id p) id)
                (map (setStatus id f) table)) = Some (f found) /\
      Forall2 (fun p p' => sameParties p p' /\
                           (p' = p \/ (transition user now p p'
                                       /\ Partnerships.p_id p = id)))
        table (map (setStatus id f) table)
  | None => True
  end.
Proof.
  intros Hnd Hsame Htr.
  destruct (single _) as [found|] eqn:Hs; [|exact I].
  destruct (status_route_shape table id guard f found Hnd
              (fun p => proj1 (Hsame p)) Hs)
    as (Hin & Hpid & Hg & Hsingle & Hother & Hfound).
  split; [exact Hsingle|].
  assert (Hall : forall p, In p table ->
            sameParties p (setStatus id f p) /\
            (setStatus id f p = p \/ (transition user now p (setStatus id f p)
                                      /\ Partnerships.p_id p = id))).
  { intros p Hp. unfold setStatus.
    destruct (String.eqb_spec (Partnerships.p_id p) id) as [Heq|Hne].
    - assert (p = found).
      { assert (Hin' : In p (filter (fun q => String.eqb (Partnerships.p_id q)
                                                (Partnerships.p_id found)) table)).
        { apply filter_In. split; [exact Hp|]. rewrite Hpid, Heq.
          apply String.eqb_refl. }
        rewrite (filter_by_pid table found Hnd Hin) in Hin'.
        destruct Hin' as [<-|[]]. reflexivity. }
      subst p. split; [apply Hsame|]. right. split; [now apply Htr|exact Heq].
    - split; [repeat split|now left]. }
  clear - Hall. induction table as [|a l IH]; cbn [map]; constructor.
  - apply Hall. now left.
  - apply IH. intros p Hp. apply Hall. now right.
Qed.

Lemma Forall2_refl_same (table : list Partnerships.Partnership) (user : string)
    (now : Z) (o : option string) :
  Forall2 (fun p p' => sameParties p p' /\
                       (p' = p \/ (transition user now p p'
                                   /\ Some (Partnerships.p_id p) = o)))
    table table.
Proof.
  induction table as [|a l IH]; constructor; [|exact IH].
  split; [repeat split|now left].
Qed.

Lemma setStatus_ids (id : string)
    (f : Partnerships.Partnership -> Partnerships.Partnership)
    (table : list Partnerships.Partnership) :
  (forall p, Partnerships.p_id (f p) = Partnerships.p_id p) ->
  map Partnerships.p_id (map (setStatus id f) table)
  = map Partnerships.p_id table.
Proof.
  intros Hid. rewrite map_map. apply map_ext. intros p. unfold setStatus.
  destruct (String.eqb _ id); [apply Hid|reflexivity].
Qed.

(** The table after a status route. *)
Lemma status_route_table (table : list Partnerships.Partnership) (id : string)
    (guard : Partnerships.Partnership -> bool)
    (f : Partnerships.Partnership -> Partnerships.Partnership)
    (e404 e500 : string) :
  fst match single (filter (fun p => String.eqb (Partnerships.p_id p) id && guard p)
                      table) with
      | None => (table, Partnerships.Status 404 e404)
      | Some _ =>
          let table' := map (setStatus id f) table in
          match single (filter (fun p => String.eqb (Partnerships.p_id p) id)
                          table') with
          | Some data => (table', Partnerships.Json 200 data)
          | None => (table', Partnerships.Status 500 e500)
          end
      end
  = match single (filter (fun p => String.eqb (Partnerships.p_id p) id && guard p)
                    table) with
    | None => table
    | Some _ => map (setStatus id f) table
    end.
Proof.
  destruct (single _) as [found|] eqn:Hs; [|reflexivity].
  cbv zeta. destruct (single (filter _ (map _ _))); reflexivity.
Qed.

(** X14. The life of a partnership, for tables with distinct primary keys
    (and a new key for an inserted row).  Each of the four writing routes
    keeps every row, with its key, its two users and its request message;
    it changes at most the row addressed by its [:id], and only along
    pending -> accepted or pending -> declined (by the receiver of the
    request) or accepted -> ended (by one of the two users), stamping
    [accepted_at] or [ended_at] with the time of the request; declined and
    ended rows are never changed.  A request adds at most one row, which is
    pending, from the caller to another user; primary keys stay
    distinct. *)
Theorem partnership_lifecycle :
  forall (table : list Partnerships.Partnership) (user : string)
         (request : PartnerRequest) (now : Z),
    distinctIds table ->
    (forall body newId, request = Ask body newId ->
       ~ In newId (map Partnerships.p_id table)) ->
    let table' := fst (partnerStep table user request now) in
    exists kept added,
      table' = (kept ++ added)%list /\
      Forall2 (fun p p' =>
                 sameParties p p' /\
                 (p' = p \/ (transition user now p p'
                             /\ Some (Partnerships.p_id p) = addressed request)))
        table kept /\
      (added = [] \/
       exists n, added = [n] /\ Partnerships.status n = "pending" /\
                 Partnerships.requester_id n = user /\
                 Partnerships.receiver_id n <> user /\
                 Partnerships.accepted_at n = None /\
                 Partnerships.ended_at n = None) /\
      distinctIds table'.
Proof.
  intros table user request now Hnd Hfresh table'. subst table'.
  destruct request as [body newId | id | id | id]; cbn [partnerStep addressed].
  - (* POST / *)
    unfold Partnerships.requestPartnership.
    destruct (Partnerships.b_receiver_id body) as [receiver|];
      [|exists table, []; rewrite app_nil_r; cbn [fst];
        repeat split; auto using Forall2_refl_same].
    destruct (String.eqb_spec receiver EmptyString) as [|_];
      [exists table, []; rewrite app_nil_r; cbn [fst];
       repeat split; auto using Forall2_refl_same|].
    destruct (String.eqb_spec receiver user) as [|Hne];
      [exists table, []; rewrite app_nil_r; cbn [fst];
       repeat split; auto using Forall2_refl_same|].
    destruct (single (filter _ table));
      [exists table, []; rewrite app_nil_r; cbn [fst];
       repeat split; auto using Forall2_refl_same|].
    destruct (single (filter _ table));
      [exists table, []; rewrite app_nil_r; cbn [fst];
       repeat split; auto using Forall2_refl_same|].
    cbv zeta. cbn [fst].
    eexists table, [_]. split; [reflexivity|].
    split; [apply Forall2_refl_same|]. split.
    + right. eexists. split; [reflexivity|].
      cbn [Partnerships.status Partnerships.requester_id
           Partnerships.receiver_id Partnerships.accepted_at
           Partnerships.ended_at].
      repeat split; auto.
    + unfold distinctIds. rewrite map_app. cbn [map Partnerships.p_id].
      apply NoDup_app; [exact Hnd| |].
      * repeat constructor. simpl. tauto.
      * intros x Hx [<-|[]]. exact (Hfresh body newId eq_refl Hx).
  - (* accept *)
    rewrite accept_shape.
    pose proof (status_route_rows table user id now
                  (fun p => String.eqb (Partnerships.receiver_id p) user
                            && String.eqb (Partnerships.status p) "pending")
                  (fun p => withStatus p "accepted" (Some now)
                              (Partnerships.ended_at p)) Hnd) as Hrows.
    rewrite status_route_table.
    destruct (single _) as [found|];
      [|exists table, []; rewrite app_nil_r;
        repeat split; auto using Forall2_refl_same].
    destruct Hrows as [_ Hf2].
    + intros p. repeat split.
    + intros p Hg. apply andb_prop in Hg. destruct Hg as [Hr Hs].
      apply String.eqb_eq in Hr. apply String.eqb_eq in Hs.
      left. repeat split; assumption.
    + eexists _, []. rewrite app_nil_r. split; [reflexivity|]. split.
      * eapply Forall2_impl; [|exact Hf2].
        intros a b [Hsame [Heq | [Htr Hid]]]; split; auto.
        right. split; [exact Htr|now rewrite Hid].
      * split; [now left|]. unfold distinctIds.
        now rewrite setStatus_ids.
  - (* decline *)
    rewrite decline_shape.
    pose proof (status_route_rows table user id now
                  (fun p => String.eqb (Partnerships.receiver_id p) user
                            && String.eqb (Partnerships.status p) "pending")
                  (fun p => withStatus p "declined" (Partnerships.accepted_at p)
                              (Partnerships.ended_at p)) Hnd) as Hrows.
    rewrite status_route_table.
    destruct (single _) as [found|];
      [|exists table, []; rewrite app_nil_r;
        repeat split; auto using Forall2_refl_same].
    destruct Hrows as [_ Hf2].
    + intros p. repeat split.
    + intros p Hg. apply andb_prop in Hg. destruct Hg as [Hr Hs].
      apply String.eqb_eq in Hr. apply String.eqb_eq in Hs.
      right. left. repeat split; assumption.
    + eexists _, []. rewrite app_nil_r. split; [reflexivity|]. split.
      * eapply Forall2_impl; [|exact Hf2].
        intros a b [Hsame [Heq | [Htr Hid]]]; split; auto.
        right. split; [exact Htr|now rewrite Hid].
      * split; [now left|]. unfold distinctIds.
        now rewrite setStatus_ids.
  - (* end *)
    rewrite endPartnership_shape.
    pose proof (status_route_rows table user id now
                  (fun p => Partnerships.involves user p
                            && String.eqb (Partnerships.status p) "accepted")
                  (fun p => withStatus p "ended" (Partnerships.accepted_at p)
                              (Some now)) Hnd) as Hrows.
    rewrite status_route_table.
    destruct (single _) as [found|];
      [|exists table, []; rewrite app_nil_r;
        repeat split; auto using Forall2_refl_same].
    destruct Hrows as [_ Hf2].
    + intros p. repeat split.
    + intros p Hg. apply andb_prop in Hg. destruct Hg as [Hr Hs].
      apply String.eqb_eq in Hs.
      right. right. repeat split; assumption.
    + eexists _, []. rewrite app_nil_r. split; [reflexivity|]. split.
      * eapply Forall2_impl; [|exact Hf2].
        intros a b [Hsame [Heq | [Htr Hid]]]; split; auto.
        right. split; [exact Htr|now rewrite Hid].
      * split; [now left|]. unfold distinctIds.
        now rewrite setStatus_ids.
Qed.

(** Accepting the first of two pending requests, and sending a third
    request under a new key. *)
Lemma partnership_lifecycle_on_two_requests :
  distinctIds (fst (partnerStep twoRequests "user-1" (Accept "p-1") 1000)) /\
  distinctIds
    (fst (partnerStep twoRequests "user-3"
            (Ask (Partnerships.mkBody (Some "user-2") None) "p-3") 1000)).
Proof.
  assert (Hnd : distinctIds twoRequests).
  { unfold distinctIds. simpl. repeat constructor; simpl; intuition discriminate. }
  split.
  - destruct (partnership_lifecycle twoRequests "user-1" (Accept "p-1") 1000 Hnd)
      as (kept & added & _ & _ & _ & H).
    + intros body newId Heq. discriminate Heq.
    + exact H.
  - destruct (partnership_lifecycle twoRequests "user-3"
                (Ask (Partnerships.mkBody (Some "user-2") None) "p-3") 1000 Hnd)
      as (kept & added & _ & _ & _ & H).
    + intros body newId Heq. injection Heq as _ <-.
      simpl. intuition discriminate.
    + exact H.
Defined.

(* ------------------------------------------------------------------ *)
(** ** Partnerships: what the request guard keeps *)

Lemma filter_map_shrinks {A : Type} (g : A -> A) (q : A -> bool) (l : list A) :
  (forall a, q (g a) = true -> q a = true) ->
  (List.length (filter q (map g l)) <= List.length (filter q l))%nat.
Proof.
  intros H. induction l as [|a l IH]; simpl; [lia|].
  destruct (q (g a)) eqn:E.
  - rewrite (H a E). simpl. lia.
  - destruct (q a); simpl; lia.
Qed.

(** A status route leaves no new pending request and no new pair of
    users. *)
Lemma setStatus_keeps (id s : string)
    (acc en : Partnerships.Partnership -> option Z)
    (table : list Partnerships.Partnership) :
  String.eqb s "pending" = false ->
  noSelf table -> onePending table ->
  noSelf (map (setStatus id (fun p => withStatus p s (acc p) (en p))) table)
  /\ onePending (map (setStatus id (fun p => withStatus p s (acc p) (en p))) table).
Proof.
  intros Hs Hself Hone. split.
  - intros p' Hp'. apply in_map_iff in Hp'. destruct Hp' as (p & <- & Hp).
    specialize (Hself p Hp). unfold setStatus.
    destruct (String.eqb _ id); [exact Hself|exact Hself].
  - intros a b. etransitivity; [|apply (Hone a b)].
    apply filter_map_shrinks. intros p. unfold setStatus.
    destruct (String.eqb _ id); [|tauto].
    unfold pendingBetween, withStatus. cbn [Partnerships.status].
    rewrite Hs, andb_false_r. discriminate.
Qed.

Lemma partnerStep_keeps (table : list Partnerships.Partnership) (user : string)
    (request : PartnerRequest) (now : Z) :
  noSelf table -> onePending table ->
  noSelf (fst (partnerStep table user request now))
  /\ onePending (fst (partnerStep table user request now)).
Proof.
  intros Hself Hone.
  destruct request as [body newId | id | id | id]; cbn [partnerStep].
  - unfold Partnerships.requestPartnership.
    destruct (Partnerships.b_receiver_id body) as [receiver|]; [|now split].
    destruct (String.eqb_spec receiver EmptyString) as [|_]; [now split|].
    destruct (String.eqb_spec receiver user) as [|Hne]; [now split|].
    destruct (single (filter _ table)); [now split|].
    destruct (single (filter (fun p => String.eqb (Partnerships.requester_id p) user
                                && String.eqb (Partnerships.receiver_id p) receiver
                                && String.eqb (Partnerships.status p) "pending")
                        table)) eqn:Hs; [now split|].
    cbv zeta. cbn [fst]. split.
    + intros p Hp. apply in_app_or in Hp. destruct Hp as [Hp|[<-|[]]].
      * now apply Hself.
      * cbn [Partnerships.requester_id Partnerships.receiver_id]. congruence.
    + intros a b. rewrite filter_app, length_app.
      pose proof (Hone a b) as Hab.
      cbn [filter].
      destruct (pendingBetween a b _) eqn:Hnew; cbn [List.length]; [|lia].
      unfold pendingBetween in Hnew.
      cbn [Partnerships.requester_id Partnerships.receiver_id
           Partnerships.status] in Hnew.
      apply andb_prop in Hnew. destruct Hnew as [Hnew _].
      apply andb_prop in Hnew. destruct Hnew as [Ha Hb].
      apply String.eqb_eq in Ha. apply String.eqb_eq in Hb. subst a b.
      change (fun p => String.eqb (Partnerships.requester_id p) user
                       && String.eqb (Partnerships.receiver_id p) receiver
                       && String.eqb (Partnerships.status p) "pending")
        with (pendingBetween user receiver) in Hs.
      destruct (filter (pendingBetween user receiver) table) as [|x [|y l]];
        simpl in *; [lia|discriminate|lia].
  - rewrite accept_shape, status_route_table.
    destruct (single _); [|now split].
    now apply (setStatus_keeps id "accepted" (fun _ => Some now)
                 Partnerships.ended_at).
  - rewrite decline_shape, status_route_table.
    destruct (single _); [|now split].
    now apply (setStatus_keeps id "declined" Partnerships.accepted_at
                 Partnerships.ended_at).
  - rewrite endPartnership_shape, status_route_table.
    destruct (single _); [|now split].
    now apply (setStatus_keeps id "ended" Partnerships.accepted_at
                 (fun _ => Some now)).
Qed.

(** X15. The partnership routes keep two invariants of the table, in every
    request and so in every table reached from the empty one: no
    partnership joins a user to themselves, and at most one request from a
    user to another is pending at a time. *)
Theorem partnership_requests_stay_well_formed :
  (forall (table : list Partnerships.Partnership) (user : string)
          (request : PartnerRequest) (now : Z),
     noSelf table /\ onePending table ->
     noSelf (fst (partnerStep table user request now))
     /\ onePending (fst (partnerStep table user request now))) /\
  (forall (requests : list (string * PartnerRequest * Z)),
     noSelf (runPartnerRequests [] requests)
     /\ onePending (runPartnerRequests [] requests)).
Proof.
  split.
  - intros table user request now [Hself Hone]. now apply partnerStep_keeps.
  - intros requests.
    assert (Hgen : forall table,
              noSelf table /\ onePending table ->
              noSelf (runPartnerRequests table requests)
              /\ onePending (runPartnerRequests table requests)).
    { unfold runPartnerRequests.
      induction requests as [|[[user r] now] rest IH]; intros table Hinv;
        cbn [fold_left]; [exact Hinv|].
      apply IH. destruct Hinv. now apply partnerStep_keeps. }
    apply Hgen. split.
    + intros p [].
    + intros a b. simpl. lia.
Qed.

(* ------------------------------------------------------------------ *)
(** ** Partnerships: accepting two requests *)

Lemma single_two {A : Type} (l : list A) (a b : A) :
  In a l -> In b l -> a <> b -> single l = None.
Proof.
  intros Ha Hb Hne. destruct l as [|x [|y l']]; [destruct Ha| |reflexivity].
  destruct Ha as [<-|[]]. destruct Hb as [<-|[]]. congruence.
Qed.

(** Accepting the pending request [p], addressed to [user]. *)
Lemma accept_pending (table : list Partnerships.Partnership) (user : string)
    (p : Partnerships.Partnership) (now : Z) :
  distinctIds table -> In p table ->
  Partnerships.receiver_id p = user ->
  Partnerships.status p = "pending" ->
  Partnerships.accept table user (Partnerships.p_id p) now
  = (map (setStatus (Partnerships.p_id p)
            (fun q => withStatus q "accepted" (Some now) (Partnerships.ended_at q)))
         table,
     Partnerships.Json 200
       (withStatus p "accepted" (Some now) (Partnerships.ended_at p))).
Proof.
  intros Hnd Hin Hr Hs. rewrite accept_shape.
  assert (Hfound : single (filter
            (fun q => String.eqb (Partnerships.p_id q) (Partnerships.p_id p)
                      && (String.eqb (Partnerships.receiver_id q) user
                          && String.eqb (Partnerships.status q) "pending"))
            table) = Some p).
  { rewrite filter_andb, (filter_by_pid table p Hnd Hin). cbn [filter].
    now rewrite Hr, Hs, String.eqb_refl. }
  rewrite Hfound. cbv zeta.
  destruct (status_route_shape table (Partnerships.p_id p) _
              (fun q => withStatus q "accepted" (Some now) (Partnerships.ended_at q))
              p Hnd ltac:(reflexivity) Hfound) as (_ & _ & _ & Hsingle & _).
  now rewrite Hsingle.
Qed.

(** X16. Accepting does not look at the partnerships already accepted.
    On a table with distinct primary keys, a user who is the receiver of two
    pending requests can accept both, one after the other; both rows are
    then accepted, and the lookup of the user's current partner, which
    expects a single accepted partnership, finds none: [GET /current] has
    no partnership to show and the weekly insight counts no partner
    check-ins. *)
Theorem accepting_two_requests_hides_the_partner :
  forall (table : list Partnerships.Partnership) (user : string)
         (p1 p2 : Partnerships.Partnership) (now1 now2 : Z)
         (habit : Habit) (check_ins : list CheckIn) (today : Z),
    distinctIds table ->
    In p1 table -> In p2 table ->
    Partnerships.p_id p1 <> Partnerships.p_id p2 ->
    Partnerships.receiver_id p1 = user -> Partnerships.receiver_id p2 = user ->
    Partnerships.status p1 = "pending" -> Partnerships.status p2 = "pending" ->
    let first := Partnerships.accept table user (Partnerships.p_id p1) now1 in
    let second :=
      Partnerships.accept (fst first) user (Partnerships.p_id p2) now2 in
    let a1 := withStatus p1 "accepted" (Some now1) (Partnerships.ended_at p1) in
    let a2 := withStatus p2 "accepted" (Some now2) (Partnerships.ended_at p2) in
    snd first = Partnerships.Json 200 a1 /\
    snd second = Partnerships.Json 200 a2 /\
    In a1 (fst second) /\ In a2 (fst second) /\
    Partnerships.partnerOf (fst second) user = None /\
    Insight.ctx_partnerCheckIns
      (Insight.weeklyInsight habit check_ins
         (Partnerships.partnerOf (fst second) user) today) = 0.
Proof.
  intros table user p1 p2 now1 now2 habit check_ins today
         Hnd Hin1 Hin2 Hne Hr1 Hr2 Hs1 Hs2 first second a1 a2.
  subst first second.
  rewrite (accept_pending table user p1 now1 Hnd Hin1 Hr1 Hs1). cbn [fst snd].
  set (t1 := map (setStatus (Partnerships.p_id p1)
                    (fun q => withStatus q "accepted" (Some now1)
                                (Partnerships.ended_at q))) table).
  assert (Hnd1 : distinctIds t1).
  { unfold distinctIds, t1. now rewrite setStatus_ids. }
  assert (Hin2' : In p2 t1).
  { unfold t1. apply in_map_iff. exists p2. split; [|exact Hin2].
    unfold setStatus.
    destruct (String.eqb_spec (Partnerships.p_id p2) (Partnerships.p_id p1));
      [congruence|reflexivity]. }
  assert (Hin1' : In a1 t1).
  { unfold t1. apply in_map_iff. exists p1. split; [|exact Hin1].
    unfold setStatus. now rewrite String.eqb_refl. }
  rewrite (accept_pending t1 user p2 now2 Hnd1 Hin2' Hr2 Hs2). cbn [fst snd].
  set (t2 := map (setStatus (Partnerships.p_id p2)
                    (fun q => withStatus q "accepted" (Some now2)
                                (Partnerships.ended_at q))) t1).
  assert (Ha1 : In a1 t2).
  { unfold t2. apply in_map_iff. exists a1. split; [|exact Hin1'].
    unfold setStatus, a1, withStatus. cbn [Partnerships.p_id].
    destruct (String.eqb_spec (Partnerships.p_id p1) (Partnerships.p_id p2));
      [congruence|reflexivity]. }
  assert (Ha2 : In a2 t2).
  { unfold t2. apply in_map_iff. exists p2. split; [|exact Hin2'].
    unfold setStatus. now rewrite String.eqb_refl. }
  assert (Hnone : Partnerships.partnerOf t2 user = None).
  { unfold Partnerships.partnerOf.
    rewrite (single_two _ a1 a2); [reflexivity| | |].
    - apply filter_In. split; [exact Ha1|].
      unfold Partnerships.involves, a1, withStatus.
      cbn [Partnerships.requester_id Partnerships.receiver_id Partnerships.status].
      now rewrite Hr1, String.eqb_refl, orb_true_r.
    - apply filter_In. split; [exact Ha2|].
      unfold Partnerships.involves, a2, withStatus.
      cbn [Partnerships.requester_id Partnerships.receiver_id Partnerships.status].
      now rewrite Hr2, String.eqb_refl, orb_true_r.
    - intros Heq. apply Hne. apply (f_equal Partnerships.p_id) in Heq.
      exact Heq. }
  repeat (split; [reflexivity || assumption|]).
  rewrite Hnone. reflexivity.
Qed.

(** The two requests to the same user, both accepted. *)
Lemma accepting_two_requests_on_sample :
  Partnerships.partnerOf
    (fst (Partnerships.accept
            (fst (Partnerships.accept twoRequests "user-1" "p-1" 1000))
            "user-1" "p-2" 2000))
    "user-1" = None.
Proof.
  assert (Hnd : distinctIds twoRequests).
  { unfold distinctIds. simpl. repeat constructor; simpl; intuition discriminate. }
  exact (proj1 (proj2 (proj2 (proj2 (proj2
    (accepting_two_requests_hides_the_partner twoRequests "user-1"
       (requestFrom "p-1" "user-2" "user-1") (requestFrom "p-2" "user-3" "user-1")
       1000 2000 sampleHabit [] 0 Hnd
       (or_introl eq_refl) (or_intror (or_introl eq_refl))
       ltac:(discriminate) eq_refl eq_refl eq_refl eq_refl)))))).
Defined.

(* ------------------------------------------------------------------ *)
(** ** Habits: one active habit per user *)

Lemma filter_by_key {A : Type} (key : A -> string) (l : list A) (a : A) :
  NoDup (map key l) -> In a l ->
  filter (fun x => String.eqb (key x) (key a)) l = [a].
Proof.
  induction l as [|b l IH]; simpl; intros Hnd Hin; [destruct Hin|].
  inversion Hnd as [|? ? Hnot Hnd']; subst.
  destruct Hin as [->|Hin].
  - rewrite String.eqb_refl. f_equal.
    clear IH Hnd Hnd'. induction l as [|c l IH]; simpl; [reflexivity|].
    destruct (String.eqb_spec (key c) (key a)) as [Heq|_].
    + exfalso. apply Hnot. simpl. now left.
    + apply IH. intros H. apply Hnot. simpl. now right.
  - destruct (String.eqb_spec (key b) (key a)) as [Heq|_].
    + exfalso. apply Hnot. rewrite Heq. now apply in_map.
    + now apply IH.
Qed.

Lemma filter_none {A : Type} (p : A -> bool) (l : list A) :
  (forall x, In x l -> p x = false) -> filter p l = [].
Proof.
  induction l as [|a l IH]; simpl; intros H; [reflexivity|].
  rewrite (H a (or_introl eq_refl)). apply IH. intros x Hx. apply H. now right.
Qed.

Lemma filter_the_one {A : Type} (p : A -> bool) (l : list A) (a : A) :
  (List.length (filter p l) <= 1)%nat -> In a l -> p a = true ->
  filter p l = [a].
Proof.
  intros Hle Hin Hp.
  assert (Ha : In a (filter p l)) by (apply filter_In; now split).
  destruct (filter p l) as [|x [|y r]]; simpl in *; [destruct Ha| |lia].
  destruct Ha as [->|[]]. reflexivity.
Qed.

Lemma Forall2_map_same (g : Habits.HabitRow -> Habits.HabitRow)
    (habits : list Habits.HabitRow) :
  (forall h, sameHabit h (g h)) -> Forall2 sameHabit habits (map g habits).
Proof.
  intros H. induction habits as [|a l IH]; cbn [map]; constructor; auto.
Qed.

Lemma sameHabit_refl (h : Habits.HabitRow) : sameHabit h h.
Proof. repeat split. tauto. Qed.

Lemma sameHabit_set (id : string) (f : Habits.HabitRow -> Habits.HabitRow) :
  (forall h, sameHabit h (f h)) -> forall h, sameHabit h (setHabit id f h).
Proof.
  intros H h. unfold setHabit.
  destruct (String.eqb _ id); [apply H|apply sameHabit_refl].
Qed.

Lemma sameHabit_updated (body : Habits.UpdateBody) (h : Habits.HabitRow) :
  sameHabit h (updated body h).
Proof. repeat split. tauto. Qed.

Lemma sameHabit_archived (now : Z) (h : Habits.HabitRow) :
  sameHabit h (archived now h).
Proof. repeat split. Qed.

Lemma setHabit_ids (id : string) (f : Habits.HabitRow -> Habits.HabitRow)
    (habits : list Habits.HabitRow) :
  (forall h, Habits.hr_id (f h) = Habits.hr_id h) ->
  map Habits.hr_id (map (setHabit id f) habits) = map Habits.hr_id habits.
Proof.
  intros Hid. rewrite map_map. apply map_ext. intros h. unfold setHabit.
  destruct (String.eqb _ id); [apply Hid|reflexivity].
Qed.

(** A rewrite that activates no habit and moves none to another user
    keeps the invariant. *)
Lemma oneActive_map (g : Habits.HabitRow -> Habits.HabitRow)
    (habits : list Habits.HabitRow) :
  (forall u h, activeOf u (g h) = true -> activeOf u h = true) ->
  oneActive habits -> oneActive (map g habits).
Proof.
  intros Hg Hone u. etransitivity; [|apply (Hone u)].
  apply filter_map_shrinks. apply Hg.
Qed.

Lemma updateHabit_fst (habits : list Habits.HabitRow) (user id : string)
    (body : Habits.UpdateBody) :
  fst (Habits.updateHabit habits user id body) = habits
  \/ fst (Habits.updateHabit habits user id body)
     = map (setHabit id (updated body)) habits.
Proof.
  unfold Habits.updateHabit.
  destruct (single _); [|now left].
  destruct (match Habits.u_habit_name body with
            | Some n => Nat.ltb 100 (Js.length n) | None => false end);
    [now left|].
  destruct (match Habits.u_privacy_setting body with
            | Some s => negb (Habits.includes Habits.validSettings s)
            | None => false end); [now left|].
  right. cbv zeta. destruct (single _); reflexivity.
Qed.

Lemma archiveHabit_fst (habits : list Habits.HabitRow) (user id : string)
    (now : Z) :
  fst (Habits.archiveHabit habits user id now)
  = match single (filter (fun h => String.eqb (Habits.hr_id h) id
                                   && String.eqb (Habits.hr_user_id h) user)
                    habits) with
    | None => habits
    | Some _ => map (setHabit id (archived now)) habits
    end.
Proof.
  unfold Habits.archiveHabit.
  destruct (single _); [|reflexivity].
  cbv zeta. destruct (single _); reflexivity.
Qed.

(** The answer of [POST /]: either a refusal that leaves the table as it
    is, or the row appended. *)
(** [length] counts UTF-16 code units: sixty two-byte characters (here
    e with an acute accent, bytes 195 169) are sixty units though 120 bytes,
    and a four-byte character (here bytes 240 159 152 128) is two units. *)
Lemma length_counts_code_units :
  Js.length "Morning run" = 11%nat /\
  Js.length (Js.repeat_string 60
               (String (ascii_of_nat 195) (String (ascii_of_nat 169) EmptyString)))
  = 60%nat /\
  Js.length (String (ascii_of_nat 240) (String (ascii_of_nat 159)
               (String (ascii_of_nat 152) (String (ascii_of_nat 128) EmptyString))))
  = 2%nat.
Proof. repeat split; vm_compute; reflexivity. Qed.

Lemma createHabit_cases (habits : list Habits.HabitRow) (user : string)
    (body : Habits.Body) (now : Z) (newId : string) :
  (fst (Habits.createHabit habits user body now newId) = habits /\
   exists e, snd (Habits.createHabit habits user body now newId)
             = Habits.Status 400 e)
  \/ exists name cat,
       Habits.b_habit_name body = Some name /\
       Habits.b_category body = Some cat /\
       name <> EmptyString /\
       (Js.length name <= 100)%nat /\
       In cat Habits.validCategories /\
       Habits.getActive habits user = None /\
       let row :=
         Habits.mkHabitRow newId user name cat
           match Habits.b_start_date body with
           | Some d => d
           | None => toISODate now
           end
           match Habits.b_privacy_setting body with
           | None | Some EmptyString => "partner-only"
           | Some s => s
           end
           true None in
       Habits.createHabit habits user body now newId
       = ((habits ++ [row])%list, Habits.Json 201 row).
Proof.
  unfold Habits.createHabit, Habits.getActive.
  destruct (Habits.b_habit_name body) as [name|]; [|left; split; [reflexivity|eexists; reflexivity]].
  destruct (Habits.b_category body) as [cat|]; [|left; split; [reflexivity|eexists; reflexivity]].
  destruct (String.eqb_spec name EmptyString) as [|Hname];
    [left; split; [reflexivity|eexists; reflexivity]|].
  destruct (String.eqb_spec cat EmptyString) as [|Hcat];
    [left; split; [reflexivity|eexists; reflexivity]|]. cbn [orb].
  destruct (Nat.ltb_spec 100 (Js.length name)) as [|Hlen];
    [left; split; [reflexivity|eexists; reflexivity]|].
  destruct (Habits.includes Habits.validCategories cat) eqn:Hinc;
    [|left; split; [reflexivity|eexists; reflexivity]]. cbn [negb].
  destruct (single _) eqn:Hs; [left; split; [reflexivity|eexists; reflexivity]|].
  right. exists name, cat.
  repeat (split; [reflexivity || assumption|]).
  split.
  { unfold Habits.includes in Hinc. apply existsb_exists in Hinc.
    destruct Hinc as (x & Hx & Heq). apply String.eqb_eq in Heq. now subst. }
  split; reflexivity.
Qed.

Lemma created_habit_keeps (habits : list Habits.HabitRow) (user : string)
    (body : Habits.Body) (now : Z) (newId : string) :
  oneActive habits ->
  oneActive (fst (Habits.createHabit habits user body now newId)).
Proof.
  intros Hone.
  destruct (createHabit_cases habits user body now newId)
    as [[Hfst _] | (name & cat & _ & _ & _ & _ & _ & Hnone & Hrow)].
  - now rewrite Hfst.
  - cbv zeta in Hrow. rewrite Hrow. cbn [fst].
    unfold Habits.getActive in Hnone.
    change (fun h => String.eqb (Habits.hr_user_id h) user
                     && Bool.eqb (Habits.is_active h) true)
      with (activeOf user) in Hnone.
    intros u. rewrite filter_app, length_app. cbn [filter].
    destruct (activeOf u _) eqn:Hact; cbn [List.length];
      [|pose proof (Hone u); lia].
    unfold activeOf in Hact. cbn [Habits.hr_user_id] in Hact.
    apply andb_prop in Hact. destruct Hact as [Hu _].
    apply String.eqb_eq in Hu. subst u.
    pose proof (Hone user) as Hle.
    destruct (filter (activeOf user) habits) as [|x [|y l]];
      simpl in *; [lia|discriminate|lia].
Qed.

(** X17. Creating a habit, on a table with at most one active habit per
    user.  A user who has an active habit is refused (400) and nothing is
    written.  When the request is accepted (201) the user had no active
    habit, the name is not empty and has at most 100 UTF-16 code units
    (what [habit_name.length] counts), the category is one of the five
    valid ones, the new row is active and is the one [GET /] then returns
    for the user; its start date is the one given or, without one, today's
    date, in which case [GET /overview] answers, whatever check-ins are
    stored, and reports 0 days since the start for the rest of that day;
    and the table still has at most one active habit per user. *)
Theorem created_habit_is_the_active_habit :
  forall (habits : list Habits.HabitRow) (user : string) (body : Habits.Body)
         (now : Z) (newId : string),
    oneActive habits ->
    let r := Habits.createHabit habits user body now newId in
    oneActive (fst r) /\
    (forall h, Habits.getActive habits user = Some h ->
       fst r = habits /\ exists e, snd r = Habits.Status 400 e) /\
    (forall code row, snd r = Habits.Json code row ->
       code = 201 /\ fst r = (habits ++ [row])%list /\
       Habits.getActive habits user = None /\
       Habits.getActive (fst r) user = Some row /\
       Habits.hr_id row = newId /\ Habits.hr_user_id row = user /\
       Habits.is_active row = true /\ Habits.archived_at row = None /\
       Habits.hr_habit_name row <> EmptyString /\
       (Js.length (Habits.hr_habit_name row) <= 100)%nat /\
       In (Habits.category row) Habits.validCategories /\
       Habits.hr_start_date row
       = match Habits.b_start_date body with
         | Some d => d
         | None => toISODate now
         end /\
       (Habits.b_start_date body = None ->
        forall fuel check_ins later,
          toISODate later = toISODate now ->
          (List.length check_ins < fuel)%nat ->
          exists o,
            Analytics.overview fuel (Habits.toHabit row) check_ins later = Some o /\
            Analytics.days_since_started o = 0)).
Proof.
  intros habits user body now newId Hone r. subst r.
  destruct (createHabit_cases habits user body now newId)
    as [[Hfst [e He]] | (name & cat & Hn & Hc & Hne & Hlen & Hcat & Hnone & Hrow)].
  - rewrite Hfst, He. split; [exact Hone|]. split.
    + intros h _. split; [reflexivity|eauto].
    + intros code row Heq. discriminate Heq.
  - cbv zeta in Hrow. rewrite Hrow. cbn [fst snd].
    set (row := Habits.mkHabitRow newId user name cat _ _ true None) in *.
    assert (Hempty : filter (activeOf user) habits = []).
    { unfold Habits.getActive in Hnone.
      change (fun h => String.eqb (Habits.hr_user_id h) user
                       && Bool.eqb (Habits.is_active h) true)
        with (activeOf user) in Hnone.
      pose proof (Hone user) as Hle.
      destruct (filter (activeOf user) habits) as [|x [|y l]];
        simpl in *; [reflexivity|discriminate|lia]. }
    split.
    { intros u. rewrite filter_app, length_app. cbn [filter].
      destruct (activeOf u row) eqn:Hact; cbn [List.length];
        [|pose proof (Hone u); lia].
      unfold activeOf, row in Hact. cbn [Habits.hr_user_id] in Hact.
      apply andb_prop in Hact. destruct Hact as [Hu _].
      apply String.eqb_eq in Hu. subst u. rewrite Hempty. simpl. lia. }
    split.
    { intros h Hh. rewrite Hnone in Hh. discriminate Hh. }
    intros code row' Heq. injection Heq as <- <-.
    split; [reflexivity|]. split; [reflexivity|]. split; [exact Hnone|].
    split.
    { unfold Habits.getActive.
      change (fun h => String.eqb (Habits.hr_user_id h) user
                       && Bool.eqb (Habits.is_active h) true)
        with (activeOf user).
      rewrite filter_app, Hempty. cbn [filter app].
      unfold activeOf, row. cbn [Habits.hr_user_id Habits.is_active].
      now rewrite String.eqb_refl. }
    do 4 (split; [reflexivity|]).
    split; [exact Hne|]. split; [exact Hlen|]. split; [exact Hcat|].
    split; [reflexivity|].
    intros Hsd fuel check_ins later Hlater Hfuel.
    destruct (overview_total fuel (Habits.toHabit row) check_ins later Hfuel)
      as [o Ho].
    exists o. split; [exact Ho|].
    destruct (overview_fields fuel (Habits.toHabit row) check_ins later o Ho)
      as (_ & _ & Hd & _).
    rewrite Hd, days_between.
    unfold Habits.toHabit, row. cbn [start_date Habits.hr_start_date].
    rewrite Hsd. lia.
Qed.

(** A first habit, created without a start date. *)
Lemma created_habit_on_empty_table :
  Habits.getActive
    (fst (Habits.createHabit [archivedRun] "user-1" runningBody
            (noonOf monday) "habit-1")) "user-1"
  = Some (Habits.mkHabitRow "habit-1" "user-1" "Morning run" "Health" monday
            "partner-only" true None).
Proof.
  assert (Hone : oneActive [archivedRun]).
  { intros u. cbn [filter].
    destruct (activeOf u archivedRun) eqn:E; [|simpl; lia].
    apply andb_prop in E. destruct E as [_ E]. vm_compute in E. discriminate E. }
  destruct (created_habit_is_the_active_habit [archivedRun] "user-1" runningBody
              (noonOf monday) "habit-1" Hone) as (_ & _ & H).
  destruct (H 201 (Habits.mkHabitRow "habit-1" "user-1" "Morning run" "Health"
                     monday "partner-only" true None) eq_refl)
    as (_ & _ & _ & Hget & _).
  exact Hget.
Defined.

(* ------------------------------------------------------------------ *)
(** ** Habits: what the routes never change *)

(** X18. The life of a habit, for tables with distinct primary keys (and a
    new key for an inserted row) and at most one active habit per user.
    Every writing route keeps every row, with its key, its owner, its
    category and its start date, and never makes an archived habit active
    again; it adds at most one row, active and owned by the caller; primary
    keys stay distinct and every user still has at most one active habit.
    Archiving a habit of the caller always succeeds, stamps [archived_at]
    with the time of the request, also on a habit archived before, and,
    when the habit was active, leaves the caller without an active
    habit. *)
Theorem habit_lifecycle :
  forall (habits : list Habits.HabitRow) (user : string)
         (request : HabitRequest) (now : Z),
    distinctHabitIds habits ->
    (forall body newId, request = Create body newId ->
       ~ In newId (map Habits.hr_id habits)) ->
    oneActive habits ->
    let habits' := fst (habitStep habits user request now) in
    (exists kept added,
       habits' = (kept ++ added)%list /\
       Forall2 sameHabit habits kept /\
       (List.length added <= 1)%nat /\
       (forall n, In n added ->
          Habits.is_active n = true /\ Habits.hr_user_id n = user)) /\
    distinctHabitIds habits' /\
    oneActive habits' /\
    (forall id h, request = Archive id -> In h habits ->
       Habits.hr_id h = id -> Habits.hr_user_id h = user ->
       snd (habitStep habits user request now) = Habits.Json 200 (archived now h) /\
       In (archived now h) habits' /\
       (Habits.is_active h = true -> Habits.getActive habits' user = None)).
Proof.
  intros habits user request now Hnd Hfresh Hone habits'. subst habits'.
  destruct request as [body newId | id body | id]; cbn [habitStep].
  - (* create *)
    destruct (createHabit_cases habits user body now newId)
      as [[Hfst _] | (name & cat & _ & _ & _ & _ & _ & Hnone & Hrow)].
    + rewrite Hfst. split.
      { exists habits, []. rewrite app_nil_r. split; [reflexivity|].
        split; [|split; [simpl; lia|intros n []]].
        clear. induction habits; constructor; auto using sameHabit_refl. }
      split; [exact Hnd|]. split; [exact Hone|].
      intros id h Heq. discriminate Heq.
    + cbv zeta in Hrow.
      pose proof (created_habit_keeps habits user body now newId Hone) as Hone'.
      rewrite Hrow in Hone' |- *. cbn [fst] in *. split.
      { eexists habits, [_]. split; [reflexivity|].
        split; [|split; [simpl; lia|]].
        - clear. induction habits; constructor; auto using sameHabit_refl.
        - intros n [<-|[]]. split; reflexivity. }
      split.
      { unfold distinctHabitIds. rewrite map_app. cbn [map Habits.hr_id].
        apply NoDup_app; [exact Hnd| |].
        - repeat constructor. simpl. tauto.
        - intros x Hx [<-|[]]. exact (Hfresh body newId eq_refl Hx). }
      split; [exact Hone'|].
      intros id h Heq. discriminate Heq.
  - (* update *)
    destruct (updateHabit_fst habits user id body) as [-> | ->].
    + split.
      { exists habits, []. rewrite app_nil_r. split; [reflexivity|].
        split; [|split; [simpl; lia|intros n []]].
        clear. induction habits; constructor; auto using sameHabit_refl. }
      split; [exact Hnd|]. split; [exact Hone|].
      intros id' h Heq. discriminate Heq.
    + split.
      { eexists _, []. rewrite app_nil_r. split; [reflexivity|].
        split; [|split; [simpl; lia|intros n []]].
        apply Forall2_map_same, sameHabit_set, sameHabit_updated. }
      split.
      { unfold distinctHabitIds. now rewrite setHabit_ids. }
      split.
      { apply oneActive_map; [|exact Hone].
        intros u h. unfold setHabit.
        destruct (String.eqb _ id); [|tauto]. tauto. }
      intros id' h Heq. discriminate Heq.
  - (* archive *)
    rewrite archiveHabit_fst.
    assert (Hmap : distinctHabitIds (map (setHabit id (archived now)) habits)
                   /\ oneActive (map (setHabit id (archived now)) habits)).
    { split.
      - unfold distinctHabitIds. now rewrite setHabit_ids.
      - apply oneActive_map; [|exact Hone].
        intros u h. unfold setHabit.
        destruct (String.eqb _ id); [|tauto].
        unfold activeOf, archived. cbn [Habits.is_active Habits.hr_user_id].
        rewrite andb_false_r. discriminate. }
    split.
    { destruct (single _).
      - eexists _, []. rewrite app_nil_r. split; [reflexivity|].
        split; [|split; [simpl; lia|intros n []]].
        apply Forall2_map_same, sameHabit_set, sameHabit_archived.
      - exists habits, []. rewrite app_nil_r. split; [reflexivity|].
        split; [|split; [simpl; lia|intros n []]].
        clear. induction habits; constructor; auto using sameHabit_refl. }
    split; [destruct (single _); [apply Hmap|exact Hnd]|].
    split; [destruct (single _); [apply Hmap|exact Hone]|].
    intros id' h Heq Hin Hid Hu. injection Heq as <-.
    assert (Hfound : single (filter (fun x => String.eqb (Habits.hr_id x) id
                               && String.eqb (Habits.hr_user_id x) user) habits)
                     = Some h).
    { rewrite filter_andb, <- Hid, (filter_by_key Habits.hr_id habits h Hnd Hin).
      cbn [filter]. now rewrite Hu, String.eqb_refl. }
    rewrite Hfound.
    assert (Hset : setHabit id (archived now) h = archived now h).
    { unfold setHabit. now rewrite Hid, String.eqb_refl. }
    assert (Hin' : In (archived now h) (map (setHabit id (archived now)) habits)).
    { rewrite <- Hset. now apply in_map. }
    split; [|split; [exact Hin'|]].
    + unfold Habits.archiveHabit. rewrite Hfound. cbv zeta.
      change (fun h0 : Habits.HabitRow =>
                if String.eqb (Habits.hr_id h0) id
                then {| Habits.hr_id := Habits.hr_id h0;
                        Habits.hr_user_id := Habits.hr_user_id h0;
                        Habits.hr_habit_name := Habits.hr_habit_name h0;
                        Habits.category := Habits.category h0;
                        Habits.hr_start_date := Habits.hr_start_date h0;
                        Habits.privacy_setting := Habits.privacy_setting h0;
                        Habits.is_active := false;
                        Habits.archived_at := Some now |}
                else h0)
        with (setHabit id (archived now)).
      rewrite (filter_map_commute (setHabit id (archived now))
                 (fun x => String.eqb (Habits.hr_id x) id)).
      * rewrite <- Hid, (filter_by_key Habits.hr_id habits h Hnd Hin).
        cbn [map]. rewrite Hid, Hset. reflexivity.
      * intros a. unfold setHabit.
        destruct (String.eqb (Habits.hr_id a) id) eqn:E; [exact E|exact E].
    + intros Hact. unfold Habits.getActive.
      change (fun x => String.eqb (Habits.hr_user_id x) user
                       && Bool.eqb (Habits.is_active x) true)
        with (activeOf user).
      rewrite filter_none; [reflexivity|].
      intros x' Hx'. apply in_map_iff in Hx'. destruct Hx' as (x & <- & Hx).
      unfold setHabit.
      destruct (String.eqb_spec (Habits.hr_id x) id) as [Heq|Hne].
      * unfold activeOf, archived. cbn [Habits.is_active].
        now rewrite andb_false_r.
      * destruct (activeOf user x) eqn:Hax; [|reflexivity].
        exfalso. apply Hne.
        assert (Hh : activeOf user h = true).
        { unfold activeOf. now rewrite Hu, Hact, String.eqb_refl. }
        pose proof (filter_the_one (activeOf user) habits h (Hone user) Hin Hh)
          as Hf.
        assert (Hxin : In x (filter (activeOf user) habits))
          by (apply filter_In; now split).
        rewrite Hf in Hxin. destruct Hxin as [<-|[]]. exact Hid.
Qed.

(** Archiving again the habit archived at time 0, and creating a habit
    under a new key. *)
Lemma habit_lifecycle_on_archived_habit :
  snd (habitStep [archivedRun] "user-1" (Archive "habit-0") 86400000)
  = Habits.Json 200 (archived 86400000 archivedRun) /\
  oneActive (fst (habitStep [archivedRun] "user-1" (Create runningBody "habit-1")
                    86400000)).
Proof.
  assert (Hnd : distinctHabitIds [archivedRun]).
  { unfold distinctHabitIds. simpl. repeat constructor. simpl. tauto. }
  assert (Hone : oneActive [archivedRun]).
  { intros u. cbn [filter].
    destruct (activeOf u archivedRun) eqn:E; [|simpl; lia].
    apply andb_prop in E. destruct E as [_ E]. vm_compute in E. discriminate E. }
  split.
  - destruct (habit_lifecycle [archivedRun] "user-1" (Archive "habit-0") 86400000
                Hnd) as (_ & _ & _ & H).
    + intros body newId Heq. discriminate Heq.
    + exact Hone.
    + exact (proj1 (H "habit-0" archivedRun eq_refl (or_introl eq_refl)
                      eq_refl eq_refl)).
  - destruct (habit_lifecycle [archivedRun] "user-1" (Create runningBody "habit-1")
                86400000 Hnd) as (_ & _ & H & _).
    + intros body newId Heq. injection Heq as _ <-.
      simpl. intuition discriminate.
    + exact Hone.
    + exact H.
Defined.

(* ------------------------------------------------------------------ *)
(** ** The insight prompt: day labels *)

Lemma getDay_window (today i : Z) :
  getDay (parseDate (toISODate today - 6 + i)) = (getDay today + (i + 1)) mod 7.
Proof.
  rewrite getDay_parseDate. unfold getDay. fold (toISODate today).
  rewrite Zplus_mod_idemp_l.
  replace (toISODate today - 6 + i + 4)
    with (toISODate today + 4 + (i + 1) + (-1) * 7) by lia.
  now rewrite Z.mod_add by lia.
Qed.

(** X19. The week shown in the insight prompt.  For the facts built by
    [POST /weekly-insight] on a table with at most one record per (habit,
    day), entry [i] of the [Days:] line is the label [dayNames[i]] (Mon,
    Tue, ..., Sun, by position) with the mark of the [i]-th day of the
    window, counted from the oldest day, six days before today; so the
    label names the weekday of the day it marks exactly when today is a
    Sunday.  The success count of the prompt is the number of days of the
    window that have a completed record, between 0 and 7. *)
Theorem insight_prompt_labels_days_by_position :
  forall (habit : Habit) (table : list CheckIn) (partnerId : option string)
         (today : Z) (i : nat),
    unique_per_day table ->
    (i < 7)%nat ->
    let ctx := Insight.weeklyInsight habit table partnerId today in
    let day := nth i (windowDays today) 0 in
    let label := nth i GeminiService.dayNames "undefined" in
    nth i (GeminiService.dayEntries (Insight.ctx_weekCheckIns ctx)) EmptyString
    = String.append label
        (String.append ": "
           (if hasCompleted table (h_id habit) day
            then GeminiService.checkMark else GeminiService.crossMark)) /\
    (String.prefix label (CheckinContext.toLocaleWeekday (parseDate day)) = true
     <-> getDay today = 0) /\
    GeminiService.successCount (Insight.ctx_weekCheckIns ctx)
    = countZ (hasCompleted table (h_id habit)) (windowDays today) /\
    0 <= GeminiService.successCount (Insight.ctx_weekCheckIns ctx) <= 7.
Proof.
  intros habit table partnerId today i Hu Hi ctx day label.
  subst ctx day label.
  rewrite (weeklyInsight_grid habit table partnerId today Hu).
  assert (Hcount : GeminiService.successCount
                     (map (hasCompleted table (h_id habit)) (windowDays today))
                   = countZ (hasCompleted table (h_id habit)) (windowDays today)).
  { unfold GeminiService.successCount, countZ. now rewrite filter_map_length. }
  split; [|split; [|split; [exact Hcount|]]].
  - unfold windowDays. cbn [map].
    destruct i as [|[|[|[|[|[|[|i]]]]]]]; [reflexivity..|lia].
  - unfold windowDays, CheckinContext.toLocaleWeekday.
    assert (Hcases : (i = 0 \/ i = 1 \/ i = 2 \/ i = 3 \/ i = 4 \/ i = 5
                      \/ i = 6)%nat) by lia.
    destruct Hcases as [-> | [-> | [-> | [-> | [-> | [-> | ->]]]]]];
      cbn [map nth]; rewrite getDay_window;
      destruct (getDay_cases today) as [-> | [-> | [-> | [-> | [-> | [-> | ->]]]]]];
      vm_compute; split; intros H; first [reflexivity | discriminate H].
  - rewrite Hcount. unfold countZ.
    pose proof (filter_length_le (hasCompleted table (h_id habit))
                  (windowDays today)) as Hle.
    unfold windowDays in Hle at 2. cbn [map List.length] in Hle. lia.
Qed.

(** Scenario A seen on a Monday: the first entry is labelled Mon and marks
    the Tuesday six days before. *)
Lemma insight_prompt_on_scenario_A :
  nth 0 (GeminiService.dayEntries
           (Insight.ctx_weekCheckIns
              (Insight.weeklyInsight sampleHabit (scenarioA monday) None
                 (noonOf monday)))) EmptyString
  = String.append "Mon" (String.append ": " GeminiService.crossMark) /\
  CheckinContext.toLocaleWeekday (parseDate (monday - 6)) = "Tuesday".
Proof.
  assert (Hu : unique_per_day (scenarioA monday)) by unique_keys.
  split; [|reflexivity].
  exact (proj1 (insight_prompt_labels_days_by_position sampleHabit
                  (scenarioA monday) None (noonOf monday) 0 Hu ltac:(lia))).
Defined.

(* ------------------------------------------------------------------ *)
(** ** Browsing partners *)

Lemma browse_entry (habits : list Habits.HabitRow)
    (profiles : list PartnerBrowse.Profile)
    (partnerships : list Partnerships.Partnership) (user : string)
    (category : option string) (r : PartnerBrowse.Partner) :
  In r (PartnerBrowse.browse habits profiles partnerships user category) ->
  exists h p,
    In h habits /\ In p profiles /\
    PartnerBrowse.pr_id p = Habits.hr_user_id h /\
    Habits.is_active h = true /\ Habits.hr_user_id h <> user /\
    In (Habits.privacy_setting h) ["public"; "partner-only"] /\
    (forall c, category = Some c -> c <> EmptyString -> Habits.category h = c) /\
    (forall q, In q partnerships -> acceptedWith user q = true ->
       Habits.hr_user_id h <> Partnerships.requester_id q /\
       Habits.hr_user_id h <> Partnerships.receiver_id q) /\
    PartnerBrowse.user_id r = Habits.hr_user_id h /\
    PartnerBrowse.habit_name r = Habits.hr_habit_name h /\
    PartnerBrowse.category r = Habits.category h /\
    PartnerBrowse.privacy_setting r = Habits.privacy_setting h.
Proof.
  unfold PartnerBrowse.browse. cbv zeta. intros Hin.
  apply in_map_iff in Hin. destruct Hin as ([h p] & <- & Hin).
  apply filter_In in Hin. destruct Hin as [Hjoin Hnot]. cbn [fst snd] in *.
  apply in_flat_map in Hjoin. destruct Hjoin as (h' & Hq & Hfind).
  destruct (find _ profiles) as [p'|] eqn:Hp; [|destruct Hfind].
  destruct Hfind as [Heq|[]]. injection Heq as -> ->.
  apply find_some in Hp. destruct Hp as [Hpin Hpid].
  apply String.eqb_eq in Hpid.
  assert (Hbase : In h (filter (fun h => Bool.eqb (Habits.is_active h) true
                     && negb (String.eqb (Habits.hr_user_id h) user)
                     && Habits.includes ["public"; "partner-only"]
                          (Habits.privacy_setting h)) habits)
                  /\ (forall c, category = Some c -> c <> EmptyString ->
                        Habits.category h = c)).
  { destruct category as [[|a c]|].
    - split; [exact Hq|]. intros c Hc Hne. injection Hc as <-. congruence.
    - apply filter_In in Hq. destruct Hq as [Hq Hc]. split; [exact Hq|].
      intros c' Hc' _. injection Hc' as <-. now apply String.eqb_eq.
    - split; [exact Hq|]. intros c Hc. discriminate Hc. }
  destruct Hbase as [Hbase Hcat].
  apply filter_In in Hbase. destruct Hbase as [Hh Hcond].
  apply andb_prop in Hcond. destruct Hcond as [Hcond Hpriv].
  apply andb_prop in Hcond. destruct Hcond as [Hact Hother].
  exists h, p. split; [exact Hh|]. split; [exact Hpin|]. split; [exact Hpid|].
  split; [now destruct (Habits.is_active h)|].
  split.
  { intros Heq. rewrite Heq, String.eqb_refl in Hother. discriminate. }
  split.
  { unfold Habits.includes in Hpriv. apply existsb_exists in Hpriv.
    destruct Hpriv as (x & Hx & Heq). apply String.eqb_eq in Heq. now subst. }
  split; [exact Hcat|]. split; [|repeat split].
  intros q Hq' Hacc.
  apply negb_true_iff in Hnot.
  assert (Hno : forall x,
            In x [Partnerships.requester_id q; Partnerships.receiver_id q] ->
            Habits.hr_user_id h <> x).
  { intros x Hx Heq.
    assert (Hex : existsb (String.eqb (Habits.hr_user_id h))
                    (flat_map (fun p => [Partnerships.requester_id p;
                                         Partnerships.receiver_id p])
                       (filter (fun p => Partnerships.involves user p
                                  && String.eqb (Partnerships.status p) "accepted")
                          partnerships)) = true).
    { apply existsb_exists. exists x. split; [|now apply String.eqb_eq].
      apply in_flat_map. exists q. split; [|exact Hx].
      apply filter_In. now split. }
    rewrite Hex in Hnot. discriminate. }
  split; apply Hno; simpl; tauto.
Qed.

(** Partnerships that are not accepted partnerships of the caller do not
    enter the answer. *)
Lemma browse_frame (habits : list Habits.HabitRow)
    (profiles : list PartnerBrowse.Profile)
    (partnerships others : list Partnerships.Partnership) (user : string)
    (category : option string) :
  (forall q, In q others -> acceptedWith user q = false) ->
  PartnerBrowse.browse habits profiles (partnerships ++ others)%list user category
  = PartnerBrowse.browse habits profiles partnerships user category.
Proof.
  intros Hothers. unfold PartnerBrowse.browse. cbv zeta.
  rewrite filter_app.
  rewrite (filter_none _ others); [now rewrite app_nil_r|].
  intros q Hq. exact (Hothers q Hq).
Qed.

(** X20. [GET /browse].  Every entry of the answer is an active habit of
    another user who has a profile, with privacy setting public or
    partner-only, of the requested category when one is given; its owner
    is not a user of an accepted partnership of the caller.  Only the
    accepted partnerships of the caller are looked at: partnerships among
    other users, accepted or not, and the caller's pending, declined and
    ended ones leave the answer as it is, so a user who already has a
    partner is still offered to everybody else. *)
Theorem browse_offers_other_users_habits :
  forall (habits : list Habits.HabitRow) (profiles : list PartnerBrowse.Profile)
         (partnerships others : list Partnerships.Partnership) (user : string)
         (category : option string),
    (forall r, In r (PartnerBrowse.browse habits profiles partnerships user
                       category) ->
       exists h,
         In h habits /\
         PartnerBrowse.user_id r = Habits.hr_user_id h /\
         PartnerBrowse.habit_name r = Habits.hr_habit_name h /\
         PartnerBrowse.category r = Habits.category h /\
         PartnerBrowse.privacy_setting r = Habits.privacy_setting h /\
         Habits.is_active h = true /\
         PartnerBrowse.user_id r <> user /\
         In (PartnerBrowse.privacy_setting r) ["public"; "partner-only"] /\
         (exists p, In p profiles
                    /\ PartnerBrowse.pr_id p = PartnerBrowse.user_id r) /\
         (forall c, category = Some c -> c <> EmptyString ->
            PartnerBrowse.category r = c) /\
         (forall q, In q partnerships -> acceptedWith user q = true ->
            PartnerBrowse.user_id r <> Partnerships.requester_id q /\
            PartnerBrowse.user_id r <> Partnerships.receiver_id q)) /\
    ((forall q, In q others -> acceptedWith user q = false) ->
     PartnerBrowse.browse habits profiles (partnerships ++ others)%list user
       category
     = PartnerBrowse.browse habits profiles partnerships user category).
Proof.
  intros habits profiles partnerships others user category. split.
  - intros r Hr.
    destruct (browse_entry habits profiles partnerships user category r Hr)
      as (h & p & Hh & Hp & Hpid & Hact & Hne & Hpriv & Hcat & Hpart
          & Hu & Hn & Hc & Hs).
    exists h. rewrite Hu, Hn, Hc, Hs.
    repeat (split; [reflexivity || assumption|]).
    split; [exists p; now split|]. split; assumption.
  - apply browse_frame.
Qed.

(** The second and third user are partners: the first user is still
    offered both, and the second is not offered the third. *)
Lemma browse_on_three_users :
  map PartnerBrowse.user_id
    (PartnerBrowse.browse threeHabits threeProfiles
       [partnersNow "p-1" "user-2" "user-3"] "user-1" None)
  = ["user-2"; "user-3"] /\
  map PartnerBrowse.user_id
    (PartnerBrowse.browse threeHabits threeProfiles
       [partnersNow "p-1" "user-2" "user-3"] "user-2" None)
  = ["user-1"] /\
  PartnerBrowse.browse threeHabits threeProfiles
    ([] ++ [partnersNow "p-1" "user-2" "user-3"])%list "user-1" None
  = PartnerBrowse.browse threeHabits threeProfiles [] "user-1" None.
Proof.
  split; [reflexivity|]. split; [reflexivity|].
  apply (proj2 (browse_offers_other_users_habits threeHabits threeProfiles []
                  [partnersNow "p-1" "user-2" "user-3"] "user-1" None)).
  intros q [<-|[]]. reflexivity.
Defined.
